(** * Container lifecycle: the supervisor's Start handler and the
      libcontainerd container object (start, handleEvent, clean)

    A shallow embedding of
    - [mergeCode/containerd/supervisor/create.go]  ([Supervisor.start]),
    - the libcontainerd container ([clean], [cleanProcess], [spec], [start],
      [handleEvent]) and client ([Create], [prepareBundleDir],
      [newContainer], [TriggerHandleStream], the exit notifier),
    and the properties of the lifecycle state machine checked against it.

    Go values are modelled as follows: [error] is [option error] ([None] is
    [nil]); Go maps are [gmap]s; mutable receivers are passed and returned
    explicitly; the operating system, the shim and the daemon backend are an
    explicit [World] plus a record of call outcomes. *)

From Stdlib Require Import ZArith String List Bool Lia.
From stdpp Require Import base gmap sets list strings.
Import ListNotations.
Local Open Scope string_scope.

(** ** Go errors *)

Inductive errno := ENOENT | EEXIST | EACCES | ENOTEMPTY | EIO.

Inductive error :=
| errDeferredResponse                       (* supervisor: answer comes later *)
| ErrContainerNotFound                      (* supervisor: unknown id *)
| PathError (op path : string) (code : errno)  (* *os.PathError *)
| ErrorString (msg : string).               (* errors.New / fmt.Errorf *)

#[global] Instance errno_eq_dec : EqDecision errno.
Proof. solve_decision. Defined.
#[global] Instance error_eq_dec : EqDecision error.
Proof. solve_decision. Defined.

(** [os.IsNotExist] *)
Definition IsNotExist (e : error) : bool :=
  match e with
  | PathError _ _ ENOENT => true
  | _ => false
  end.

(** * The supervisor *)

Module Supervisor.

(** [runtime.Checkpoint]; only its name is read here. *)
Record Checkpoint := { Name : string }.

(** Channels and contexts are opaque handles. *)
Definition chan := nat.

Record StartTask := {
  t_ErrorCh : chan;
  t_ID : string;
  t_BundlePath : string;
  t_Stdout : string;
  t_Stderr : string;
  t_Stdin : string;
  t_StartResponse : chan;
  t_Labels : list string;
  t_NoPivotRoot : bool;
  t_Checkpoint : option Checkpoint;
  t_CheckpointDir : string;
  t_Runtime : string;
  t_RuntimeArgs : list string;
  t_Ctx : nat
}.

(** [runtime.ContainerOpts] *)
Record ContainerOpts := {
  o_Root : string;
  o_ID : string;
  o_Bundle : string;
  o_Runtime : string;
  o_RuntimeArgs : list string;
  o_Shim : string;
  o_Labels : list string;
  o_NoPivotRoot : bool;
  o_Timeout : Z
}.

Section WithRuntime.

(** [runtime.Container] is an interface of the runtime package; the
    supervisor only stores it. *)
Context {Container : Type}.

Record containerInfo := { container : Container }.

(** The worker task queued on [s.startTasks]. *)
Record startTask := {
  w_Err : chan;
  w_Container : Container;
  w_StartResponse : chan;
  w_Stdin : string;
  w_Stdout : string;
  w_Stderr : string;
  w_Ctx : nat;
  w_CheckpointPath : string
}.

Record Supervisor := {
  stateDir : string;
  runtime : string;
  runtimeArgs : list string;
  shim : string;
  timeout : Z;
  containers : gmap string containerInfo;
  startTasks : list startTask;        (* contents of the channel, oldest first *)
  ContainersCounter : Z               (* the metrics counter *)
}.

(** [runtime.New] and [filepath.Join] belong to other packages: their
    results are taken as given. *)
Variable runtime_New : ContainerOpts -> Container + error.
Variable filepath_Join : string -> string -> string.

Definition start_opts (s : Supervisor) (t : StartTask) : ContainerOpts :=
  let '(rt, rtArgs) :=
    if negb (String.eqb (t_Runtime t) "")
    then (t_Runtime t, t_RuntimeArgs t)
    else (runtime s, runtimeArgs s) in
  {| o_Root := stateDir s;
     o_ID := t_ID t;
     o_Bundle := t_BundlePath t;
     o_Runtime := rt;
     o_RuntimeArgs := rtArgs;
     o_Shim := shim s;
     o_Labels := t_Labels t;
     o_NoPivotRoot := t_NoPivotRoot t;
     o_Timeout := timeout s |}.

(** [func (s *Supervisor) start(t *StartTask) error].  The timers and the
    debug log file are left out. *)
Definition start (s : Supervisor) (t : StartTask) : Supervisor * option error :=
  match runtime_New (start_opts s t) with
  | inr err => (s, Some err)
  | inl c =>
      let task :=
        {| w_Err := t_ErrorCh t;
           w_Container := c;
           w_StartResponse := t_StartResponse t;
           w_Stdin := t_Stdin t;
           w_Stdout := t_Stdout t;
           w_Stderr := t_Stderr t;
           w_Ctx := t_Ctx t;
           w_CheckpointPath :=
             match t_Checkpoint t with
             | Some cp => filepath_Join (t_CheckpointDir t) (Name cp)
             | None => ""
             end |} in
      ({| stateDir := stateDir s;
          runtime := runtime s;
          runtimeArgs := runtimeArgs s;
          shim := shim s;
          timeout := timeout s;
          containers := <[t_ID t := {| container := c |}]> (containers s);
          startTasks := startTasks s ++ [task];
          ContainersCounter := (ContainersCounter s + 1)%Z |},
       Some errDeferredResponse)
  end.

End WithRuntime.

Arguments containerInfo : clear implicits.
Arguments startTask : clear implicits.
Arguments Supervisor : clear implicits.

(** A concrete runtime for examples: the container is the options it was
    built from, and creation always succeeds. *)
Definition echo_New (o : ContainerOpts) : ContainerOpts + error := inl o.
Definition slash_Join (a b : string) : string := a +:+ "/" +:+ b.

Definition sup0 : Supervisor ContainerOpts :=
  {| stateDir := "/run/containerd";
     runtime := "runc";
     runtimeArgs := [];
     shim := "containerd-shim";
     timeout := 15;
     containers := ∅;
     startTasks := [];
     ContainersCounter := 0 |}.

Definition task_c1 (bundle : string) : StartTask :=
  {| t_ErrorCh := 0;
     t_ID := "c1";
     t_BundlePath := bundle;
     t_Stdout := "out"; t_Stderr := "err"; t_Stdin := "in";
     t_StartResponse := 1;
     t_Labels := [];
     t_NoPivotRoot := false;
     t_Checkpoint := None;
     t_CheckpointDir := "";
     t_Runtime := "";
     t_RuntimeArgs := [];
     t_Ctx := 0 |}.

(** The supervisor after a first Start of "c1". *)
Definition sup1 : Supervisor ContainerOpts :=
  fst (start echo_New slash_Join sup0 (task_c1 "/bundles/first")).

End Supervisor.

(** * The libcontainerd container *)

Module Libcontainerd.

(** ** Constants

    The state names, [InitFriendlyName] and [configFilename] are declared
    in files that are not part of the sources at hand; the container code
    only compares them, so they are parameters. *)
Record Names := {
  StateStart : string;
  StatePause : string;
  StateResume : string;
  StateExit : string;
  StateExitProcess : string;
  StateOOM : string;
  InitFriendlyName : string;
  configFilename : string
}.

(** What the Go compiler demands of the two [switch] statements of
    [handleEvent]: no case constant occurs twice. *)
Definition switch_cases_distinct (N : Names) : bool :=
  bool_decide (NoDup [StateExit N; StatePause N; StateResume N; StateOOM N])
  && bool_decide (StateExit N ≠ StateExitProcess N).

(** ** Data *)

Definition loc := nat.          (* identity of a [*container] *)

Record process := {
  p_dir : string;
  p_containerID : string;
  p_friendlyName : string
}.

Record container := {
  addr : loc;
  containerID : string;
  friendlyName : string;
  dir : string;
  systemPid : Z;
  processes : gmap string process;
  oom : bool;
  runtime : string;
  runtimeArgs : list string
}.

Definition set_systemPid (pid : Z) (c : container) : container :=
  {| addr := addr c; containerID := containerID c; friendlyName := friendlyName c;
     dir := dir c; systemPid := pid; processes := processes c; oom := oom c;
     runtime := runtime c; runtimeArgs := runtimeArgs c |}.

Definition set_processes (ps : gmap string process) (c : container) : container :=
  {| addr := addr c; containerID := containerID c; friendlyName := friendlyName c;
     dir := dir c; systemPid := systemPid c; processes := ps; oom := oom c;
     runtime := runtime c; runtimeArgs := runtimeArgs c |}.

Definition set_oom (b : bool) (c : container) : container :=
  {| addr := addr c; containerID := containerID c; friendlyName := friendlyName c;
     dir := dir c; systemPid := systemPid c; processes := processes c; oom := b;
     runtime := runtime c; runtimeArgs := runtimeArgs c |}.

(** [specs.Spec]: [start] reads [spec.Process.Terminal] only. *)
Record Spec := { Process_Terminal : bool }.

(** [containerd.Event] *)
Record Event := {
  e_Type : string;
  e_Id : string;
  e_Status : Z;
  e_Pid : string
}.

(** [StateInfo], with the embedded [CommonStateInfo] flattened. *)
Record StateInfo := {
  State : string;
  Pid : Z;
  ExitCode : Z;
  ProcessID : string;
  OOMKilled : bool
}.

Record CreateContainerRequest := {
  r_Id : string;
  r_BundlePath : string;
  r_Stdin : string;
  r_Stdout : string;
  r_Stderr : string;
  r_Checkpoint : string;
  r_CheckpointDir : string;
  r_NoPivotRoot : bool;
  r_Runtime : string;
  r_RuntimeArgs : list string
}.

(** [containerd.Container] as the create response carries it: the
    processes with their system ids. *)
Definition APIContainer := list (string * Z).

(** An [io.WriteCloser]: an opened fifo, or the wrapper that [start] puts
    around stdin (its [Close] is the machine of section "stdin closure"). *)
Inductive WriteCloser :=
| Fifo (path : string)
| DelayedClose (inner : WriteCloser).

Record IOPipe := {
  io_Stdin : WriteCloser;
  io_Stdout : string;
  io_Stderr : string;
  io_Terminal : bool
}.

Definition StdioCallback := IOPipe -> option error.

(** ** Everything [start] and [handleEvent] do to the outside, in order *)

Inductive Action :=
| ActOpenFifos (terminal : bool)
| ActAppendContainer (id : string)
| ActAttachStdio (io : IOPipe)
| ActCloseFifos (io : IOPipe)
| ActCreateContainer (r : CreateContainerRequest)
| ActCloseReady                              (* close(ready) *)
| ActSleep (seconds : Z)
| ActStateChanged (id : string) (st : StateInfo)
| ActCancel                                  (* the deferred cancel() *)
| ActPauseMonitorHandle (t : string)
| ActCloseExitNotifier (id : string)
| ActErrorf (e : error)                      (* logrus.Errorf *)
| ActWarnf (path : string) (e : error)       (* logrus.Warnf *)
| ActDebugf (e : Event).                     (* logrus.Debugf *)

(** The closure that [handleEvent] hands to the per-key queue: it captures
    the event and the report. *)
Record callback := {
  cb_e : Event;
  cb_st : StateInfo
}.

(** A path of the disk is a directory or a file with its content.  A
    named pipe is kept as a file without content. *)
Inductive node := Dir | File (content : string).

Definition named_pipe : node := File "".

(** [exitNotifier]: its id, and whether [en.once] has fired (the channel
    [en.c] is closed then). *)
Record exitNotifier := {
  en_id : string;
  en_closed : bool
}.

(** [func (en *exitNotifier) close()], for the notifier at address [l];
    [table] is [clnt.exitNotifiers]. *)
Definition exitNotifier_close (l : loc) (en : exitNotifier) (table : gmap string loc)
  : exitNotifier * gmap string loc :=
  if en_closed en then (en, table)
  else ({| en_id := en_id en; en_closed := true |},
        if bool_decide (table !! en_id en = Some l)
        then delete (en_id en) table else table).

(** The state outside the container object: the process environment, the
    disk, the failures the operating system is going to answer with (keyed
    by operation and path), and the client's tables. *)
Record World := {
  env : gmap string string;
  fs : gmap string node;
  faults : gmap (string * string) errno;
  containers : gmap string loc;           (* clnt.containers *)
  q : gmap string (list callback);        (* clnt.q, oldest first *)
  exitNotifiers : gmap string loc;        (* clnt.exitNotifiers *)
  notifiers : gmap loc exitNotifier;      (* the notifiers behind the pointers *)
  log : list Action                       (* oldest first *)
}.

Definition set_fs (f : gmap string node) (w : World) : World :=
  {| env := env w; fs := f; faults := faults w; containers := containers w;
     q := q w; exitNotifiers := exitNotifiers w; notifiers := notifiers w;
     log := log w |}.

Definition set_containers (t : gmap string loc) (w : World) : World :=
  {| env := env w; fs := fs w; faults := faults w; containers := t;
     q := q w; exitNotifiers := exitNotifiers w; notifiers := notifiers w;
     log := log w |}.

Definition set_q (t : gmap string (list callback)) (w : World) : World :=
  {| env := env w; fs := fs w; faults := faults w; containers := containers w;
     q := t; exitNotifiers := exitNotifiers w; notifiers := notifiers w;
     log := log w |}.

Definition set_exitNotifiers (t : gmap string loc) (objs : gmap loc exitNotifier)
    (w : World) : World :=
  {| env := env w; fs := fs w; faults := faults w; containers := containers w;
     q := q w; exitNotifiers := t; notifiers := objs; log := log w |}.

Definition emit (a : Action) (w : World) : World :=
  {| env := env w; fs := fs w; faults := faults w; containers := containers w;
     q := q w; exitNotifiers := exitNotifiers w; notifiers := notifiers w;
     log := (log w ++ [a])%list |}.

(** ** The operating system *)

(** [os.Getenv]: the empty string when the variable is not set. *)
Definition os_Getenv (w : World) (k : string) : string :=
  default "" (env w !! k).

(** [p] is [d] or lies below it. *)
Definition under (d p : string) : bool :=
  String.eqb d p || String.prefix (d +:+ "/") p.

(** [os.Lstat], as far as its error goes. *)
Definition os_Lstat (w : World) (p : string) : option error :=
  match faults w !! ("lstat", p) with
  | Some code => Some (PathError "lstat" p code)
  | None =>
      match fs w !! p with
      | Some _ => None
      | None => Some (PathError "lstat" p ENOENT)
      end
  end.

(** [os.RemoveAll]: removes the path and all below it; a missing path is
    not an error.  A failing call is taken to remove nothing. *)
Definition os_RemoveAll (p : string) (w : World) : option error * World :=
  match faults w !! ("remove", p) with
  | Some code => (Some (PathError "unlinkat" p code), w)
  | None => (None, set_fs (filter (λ kv, under p kv.1 = false) (fs w)) w)
  end.

(** [os.Remove] *)
Definition os_Remove (p : string) (w : World) : option error * World :=
  match faults w !! ("remove", p) with
  | Some code => (Some (PathError "remove" p code), w)
  | None =>
      match fs w !! p with
      | Some _ => (None, set_fs (delete p (fs w)) w)
      | None => (Some (PathError "remove" p ENOENT), w)
      end
  end.

(** [ioutil.ReadFile] *)
Definition ioutil_ReadFile (w : World) (p : string) : string + error :=
  match faults w !! ("open", p) with
  | Some code => inr (PathError "open" p code)
  | None =>
      match fs w !! p with
      | Some (File c) => inl c
      | Some Dir => inr (PathError "read" p EIO)
      | None => inr (PathError "open" p ENOENT)
      end
  end.

(** ** What other packages and the remote side answer *)

Record Externals := {
  filepath_Join : string -> string -> string;
  json_Unmarshal : string -> Spec + error;
  (* process.fifo: the path of stdio pipe [i] of a process *)
  fifo : string -> string -> Z -> string;
  (* what process.openFifos answers, by directory, name and terminal flag *)
  fifos_opened : string -> string -> bool -> IOPipe + error;
  (* whether it has made the stdio pipe [i] by the time it answers *)
  fifos_made : string -> string -> bool -> Z -> bool;
  (* remote.apiClient.CreateContainer, answering with resp.Container *)
  CreateContainer : CreateContainerRequest -> APIContainer + error;
  (* the helper systemPid(resp.Container) *)
  apiSystemPid : APIContainer -> Z;
  (* backend.StateChanged *)
  StateChanged : string -> StateInfo -> option error
}.

Definition syscall_Stdin : Z := 0.
Definition syscall_Stdout : Z := 1.
Definition syscall_Stderr : Z := 2.

(** Modelled from the spec: to "create/open" a named pipe leaves the pipe
    on the disk under its path; what is already at the path stays as it
    is. *)
Definition make_fifo (p : string) (w : World) : World :=
  match fs w !! p with
  | Some _ => w
  | None => set_fs (<[p := named_pipe]> (fs w)) w
  end.

(** Modelled from the spec: [process.openFifos] is not among the sources.
    It is to "create/open up to three named pipes per process", "each open
    bounded by a timeout context".  Its answer and which of the three
    pipes it has made by then are taken as given; the pipes it has made
    are on the disk when it returns, whether it fails or not. *)
Definition openFifos (X : Externals) (d name : string) (terminal : bool) (w : World)
  : (IOPipe + error) * World :=
  (fifos_opened X d name terminal,
   fold_left (λ w i, if fifos_made X d name terminal i
                     then make_fifo (fifo X d name i) w else w)
             [syscall_Stdin; syscall_Stdout; syscall_Stderr] w).

(** ** The client's tables *)

(** Modelled from the spec: [appendContainer] of the client is not among
    the sources; the spec's live-container table maps a container id to its
    one live entry, which Start registers and the Exited transition
    removes. *)
Definition appendContainer (c : container) (w : World) : World :=
  emit (ActAppendContainer (containerID c))
       (set_containers (<[containerID c := addr c]> (containers w)) w).

(** Modelled from the spec: [deleteContainer] of the client is not among
    the sources; the entry of the id is removed from the live table. *)
Definition deleteContainer (id : string) (w : World) : World :=
  set_containers (delete id (containers w)) w.

(** Modelled from the spec: [getContainer] of the client is not among the
    sources; an id is live when the table has an entry for it. *)
Definition getContainer (id : string) (w : World) : option loc :=
  containers w !! id.

(** Modelled from the spec: the per-key serial queue is not among the
    sources; [append(key, fn)] schedules [fn] behind all callbacks already
    submitted under the same key. *)
Definition q_append (key : string) (cb : callback) (w : World) : World :=
  set_q (<[key := (default [] (q w !! key) ++ [cb])%list]> (q w)) w.

(** Modelled from the spec: [getExitNotifier] of the client is not among
    the sources; the notifier of an id is the one its table entry points
    to, and nil without an entry. *)
Definition getExitNotifier (id : string) (w : World) : option (loc * exitNotifier) :=
  match exitNotifiers w !! id with
  | Some l => (λ en, (l, en)) <$> notifiers w !! l
  | None => None
  end.

(** [if en := ctr.client.getExitNotifier(e.Id); en != nil { en.close() }]:
    a close that finds [en.once] fired does nothing; the closing of the
    channel is logged. *)
Definition closeExitNotifier (id : string) (w : World) : World :=
  match getExitNotifier id w with
  | Some (l, en) =>
      let '(en', table) := exitNotifier_close l en (exitNotifiers w) in
      let w := set_exitNotifiers table (<[l := en']> (notifiers w)) w in
      if en_closed en then w else emit (ActCloseExitNotifier id) w
  | None => w
  end.

Section Container.

Variable N : Names.
Variable X : Externals.

(** ** [clean] *)

Definition clean (ctr : container) (w : World) : option error * World :=
  if String.eqb (os_Getenv w "LIBCONTAINERD_NOCLEAN") "1" then (None, w)
  else
    match os_Lstat w (dir ctr) with
    | Some err => if IsNotExist err then (None, w) else (Some err, w)
    | None =>
        match os_RemoveAll (dir ctr) w with
        | (Some err, w') => (Some err, w')
        | (None, w') => (None, w')
        end
    end.

(** ** [cleanProcess] *)

Definition remove_fifo (p : process) (id : string) (w : World) (i : Z) : World :=
  let path := fifo X (p_dir p) (p_friendlyName p) i in
  match os_Remove path w with
  | (Some err, w') =>
      if negb (IsNotExist err) then emit (ActWarnf path err) w' else w'
  | (None, w') => w'
  end.

Definition cleanProcess (ctr : container) (id : string) (w : World)
  : container * World :=
  let w' :=
    match processes ctr !! id with
    | Some p =>
        fold_left (remove_fifo p id) [syscall_Stdin; syscall_Stdout; syscall_Stderr] w
    | None => w
    end in
  (set_processes (delete id (processes ctr)) ctr, w').

(** ** [spec] *)

Definition spec (ctr : container) (w : World) : Spec + error :=
  match ioutil_ReadFile w (filepath_Join X (dir ctr) (configFilename N)) with
  | inr err => inr err
  | inl dt => json_Unmarshal X dt
  end.

(** ** [start] *)

Definition ctr_fifo (ctr : container) (i : Z) : string :=
  fifo X (dir ctr) (friendlyName ctr) i.

Definition create_request (ctr : container) (checkpoint checkpointDir : string)
    (w : World) : CreateContainerRequest :=
  {| r_Id := containerID ctr;
     r_BundlePath := dir ctr;
     r_Stdin := ctr_fifo ctr syscall_Stdin;
     r_Stdout := ctr_fifo ctr syscall_Stdout;
     r_Stderr := ctr_fifo ctr syscall_Stderr;
     r_Checkpoint := checkpoint;
     r_CheckpointDir := checkpointDir;
     r_NoPivotRoot := negb (String.eqb (os_Getenv w "DOCKER_RAMDISK") "");
     r_Runtime := runtime ctr;
     r_RuntimeArgs := runtimeArgs ctr |}.

(** [iopipe.Stdin = ioutils.NewWriteCloserWrapper(stdin, ...)] *)
Definition wrap_stdin (io : IOPipe) : IOPipe :=
  {| io_Stdin := DelayedClose (io_Stdin io);
     io_Stdout := io_Stdout io;
     io_Stderr := io_Stderr io;
     io_Terminal := io_Terminal io |}.

Definition start_report (ctr : container) : StateInfo :=
  {| State := StateStart N;
     Pid := systemPid ctr;
     ExitCode := 0;
     ProcessID := "";
     OOMKilled := false |}.

(** The part of [start] that runs under [defer cancel()]. *)
Definition start_body (sp : Spec) (ctr : container)
    (checkpoint checkpointDir : string) (attachStdio : StdioCallback)
    (w : World) : option error * container * World :=
  let w := emit (ActOpenFifos (Process_Terminal sp)) w in
  match openFifos X (dir ctr) (friendlyName ctr) (Process_Terminal sp) w with
  | (inr err, w) => (Some err, ctr, w)
  | (inl iopipe0, w) =>
      let iopipe := wrap_stdin iopipe0 in
      let r := create_request ctr checkpoint checkpointDir w in
      let w := appendContainer ctr w in
      let w := emit (ActAttachStdio iopipe) w in
      match attachStdio iopipe with
      | Some err => (Some err, ctr, emit (ActCloseFifos iopipe) w)
      | None =>
          let w := emit (ActCreateContainer r) w in
          match CreateContainer X r with
          | inr err => (Some err, ctr, emit (ActCloseFifos iopipe) w)
          | inl resp =>
              let ctr := set_systemPid (apiSystemPid X resp) ctr in
              let w := emit ActCloseReady w in
              let w := emit (ActSleep 10) w in
              let st := start_report ctr in
              let w := emit (ActStateChanged (containerID ctr) st) w in
              (StateChanged X (containerID ctr) st, ctr, w)
          end
      end
  end.

Definition start (ctr : container) (checkpoint checkpointDir : string)
    (attachStdio : StdioCallback) (w : World)
  : option error * container * World :=
  match spec ctr w with
  | inr _ => (None, ctr, w)
  | inl sp =>
      let '(res, ctr', w') :=
        start_body sp ctr checkpoint checkpointDir attachStdio w in
      (res, ctr', emit ActCancel w')
  end.

(** What one call of [start] appends to the log. *)
Definition actions_of_start (ctr : container) (checkpoint checkpointDir : string)
    (attachStdio : StdioCallback) (w : World) : list Action :=
  drop (length (log w))
       (log (start ctr checkpoint checkpointDir attachStdio w).2).

(** ** [handleEvent] *)

Definition is_lifecycle_event (t : string) : bool :=
  String.eqb t (StateExit N) || String.eqb t (StatePause N)
  || String.eqb t (StateResume N) || String.eqb t (StateOOM N).

Definition event_report (ctr : container) (e : Event) : StateInfo :=
  let st :=
    {| State := e_Type e;
       Pid := 0;
       ExitCode := e_Status e;
       ProcessID := "";
       OOMKilled := String.eqb (e_Type e) (StateExit N) && oom ctr |} in
  if String.eqb (e_Type e) (StateExit N)
     && negb (String.eqb (e_Pid e) (InitFriendlyName N))
  then {| State := StateExitProcess N;
          Pid := Pid st;
          ExitCode := ExitCode st;
          ProcessID := e_Pid e;
          OOMKilled := OOMKilled st |}
  else st.

Definition handleEvent (ctr : container) (e : Event) (w : World)
  : option error * container * World :=
  if is_lifecycle_event (e_Type e) then
    let st := event_report ctr e in
    let ctr := if String.eqb (e_Type e) (StateOOM N) then set_oom true ctr else ctr in
    let '(ctr, w) :=
      if String.eqb (State st) (StateExit N) then
        let '(_, w) := clean ctr w in
        (ctr, deleteContainer (e_Id e) w)
      else if String.eqb (State st) (StateExitProcess N) then
        cleanProcess ctr (ProcessID st) w
      else (ctr, w) in
    (None, ctr, q_append (e_Id e) {| cb_e := e; cb_st := st |} w)
  else
    (None, ctr, emit (ActDebugf e) w).

(** The body of the closure queued by [handleEvent]. *)
Definition run_callback (cb : callback) (w : World) : World :=
  let e := cb_e cb in
  let w := emit (ActStateChanged (e_Id e) (cb_st cb)) w in
  let w :=
    match StateChanged X (e_Id e) (cb_st cb) with
    | Some eErr => emit (ActErrorf eErr) w
    | None => w
    end in
  let w :=
    if String.eqb (e_Type e) (StatePause N) || String.eqb (e_Type e) (StateResume N)
    then emit (ActPauseMonitorHandle (e_Type e)) w
    else w in
  if String.eqb (e_Type e) (StateExit N) then closeExitNotifier (e_Id e) w
  else w.

(** Modelled from the spec: the queue's worker is not among the sources;
    callbacks of one key run in submission order, one at a time, and a
    callback that has run is gone from the queue. *)
Definition q_run_next (key : string) (w : World) : option World :=
  match q w !! key with
  | Some (cb :: rest) => Some (run_callback cb (set_q (<[key := rest]> (q w)) w))
  | _ => None
  end.

(** Handling a sequence of events on one container object. *)
Fixpoint handleEvents (ctr : container) (es : list Event) (w : World)
  : container * World :=
  match es with
  | [] => (ctr, w)
  | e :: es' =>
      let '(_, ctr', w') := handleEvent ctr e w in
      handleEvents ctr' es' w'
  end.

End Container.

(** ** The ways through [start]

    One constructor per return statement of [start]: the result, the
    container object afterwards and the actions performed. *)

Inductive start_case (N : Names) (X : Externals) (ctr : container)
    (checkpoint checkpointDir : string) (attachStdio : StdioCallback) (w : World)
  : option error -> container -> list Action -> Prop :=
| start_spec_unreadable err :
    spec N X ctr w = inr err ->
    start_case N X ctr checkpoint checkpointDir attachStdio w None ctr []
| start_fifos_fail sp err :
    spec N X ctr w = inl sp ->
    fifos_opened X (dir ctr) (friendlyName ctr) (Process_Terminal sp) = inr err ->
    start_case N X ctr checkpoint checkpointDir attachStdio w (Some err) ctr
      [ActOpenFifos (Process_Terminal sp); ActCancel]
| start_attach_fails sp io err :
    spec N X ctr w = inl sp ->
    fifos_opened X (dir ctr) (friendlyName ctr) (Process_Terminal sp) = inl io ->
    attachStdio (wrap_stdin io) = Some err ->
    start_case N X ctr checkpoint checkpointDir attachStdio w (Some err) ctr
      [ActOpenFifos (Process_Terminal sp);
       ActAppendContainer (containerID ctr);
       ActAttachStdio (wrap_stdin io);
       ActCloseFifos (wrap_stdin io);
       ActCancel]
| start_rpc_fails sp io err :
    spec N X ctr w = inl sp ->
    fifos_opened X (dir ctr) (friendlyName ctr) (Process_Terminal sp) = inl io ->
    attachStdio (wrap_stdin io) = None ->
    CreateContainer X (create_request X ctr checkpoint checkpointDir w) = inr err ->
    start_case N X ctr checkpoint checkpointDir attachStdio w (Some err) ctr
      [ActOpenFifos (Process_Terminal sp);
       ActAppendContainer (containerID ctr);
       ActAttachStdio (wrap_stdin io);
       ActCreateContainer (create_request X ctr checkpoint checkpointDir w);
       ActCloseFifos (wrap_stdin io);
       ActCancel]
| start_created sp io resp :
    spec N X ctr w = inl sp ->
    fifos_opened X (dir ctr) (friendlyName ctr) (Process_Terminal sp) = inl io ->
    attachStdio (wrap_stdin io) = None ->
    CreateContainer X (create_request X ctr checkpoint checkpointDir w) = inl resp ->
    start_case N X ctr checkpoint checkpointDir attachStdio w
      (StateChanged X (containerID ctr)
         (start_report N (set_systemPid (apiSystemPid X resp) ctr)))
      (set_systemPid (apiSystemPid X resp) ctr)
      [ActOpenFifos (Process_Terminal sp);
       ActAppendContainer (containerID ctr);
       ActAttachStdio (wrap_stdin io);
       ActCreateContainer (create_request X ctr checkpoint checkpointDir w);
       ActCloseReady;
       ActSleep 10;
       ActStateChanged (containerID ctr)
         (start_report N (set_systemPid (apiSystemPid X resp) ctr));
       ActCancel].

(** The three steps of [start] at which a Create can fail. *)
Inductive failing_step := AtOpenFifos | AtStdioCallback | AtCreateRPC.

Definition step_fails (N : Names) (X : Externals) (ctr : container)
    (checkpoint checkpointDir : string) (attachStdio : StdioCallback) (w : World)
    (at_step : failing_step) (err : error) : Prop :=
  exists sp, spec N X ctr w = inl sp /\
    let fifos := fifos_opened X (dir ctr) (friendlyName ctr) (Process_Terminal sp) in
    match at_step with
    | AtOpenFifos => fifos = inr err
    | AtStdioCallback =>
        exists io, fifos = inl io /\ attachStdio (wrap_stdin io) = Some err
    | AtCreateRPC =>
        exists io, fifos = inl io /\ attachStdio (wrap_stdin io) = None /\
          CreateContainer X (create_request X ctr checkpoint checkpointDir w) = inr err
    end.

(** ** Stdin closure

    The writer that [start] hands to the stdio callback, the goroutine its
    closure spawns, and the thread of [start] itself, as one machine.
    [start] is represented by the actions it has still to perform: the
    callback gets the writer when [attachStdio] is called, and of the other
    actions only [close(ready)] and the deferred [cancel()] matter to the
    closure. *)

Inductive notifier_pc :=
| AwaitReadyOrDone        (* first select: <-ready or <-ctx.Done() *)
| CheckReady              (* second select: <-ready or default *)
| Finished.

Record stdin_state := {
  main : list Action;              (* what [start] has still to do *)
  ready : bool;                    (* the channel [ready] is closed *)
  ctx_done : bool;                 (* [ctx] is canceled *)
  handed : option WriteCloser;     (* the stdin the callback was given *)
  stdinOnce : bool;                (* [stdinOnce] has fired *)
  pipe_closes : nat;               (* calls of [Close] on the opened pipe *)
  notifier : option notifier_pc;   (* the goroutine of the closure *)
  sent : nat                       (* calls of [ctr.sendCloseStdin()] *)
}.

Inductive tick :=
| MainStep            (* [start] performs its next action *)
| CloseRequest        (* somebody calls [Close] on the stdin he was given *)
| NotifierStep.       (* the goroutine moves on *)

Definition is_ActCloseReady (a : Action) : bool :=
  match a with ActCloseReady => true | _ => false end.

Definition is_ActCancel (a : Action) : bool :=
  match a with ActCancel => true | _ => false end.

(** The stdin that an action hands out. *)
Definition stdin_of (a : Action) : option WriteCloser :=
  match a with ActAttachStdio io => Some (io_Stdin io) | _ => None end.

(** [Close] on a writer.  On an opened pipe it closes the pipe.  On the
    wrapper of [start] it runs the closure: under [stdinOnce], the pipe is
    closed and the goroutine is spawned. *)
Definition Close (wc : WriteCloser) (s : stdin_state) : stdin_state :=
  match wc with
  | Fifo _ =>
      {| main := main s; ready := ready s; ctx_done := ctx_done s;
         handed := handed s; stdinOnce := stdinOnce s;
         pipe_closes := S (pipe_closes s);
         notifier := notifier s; sent := sent s |}
  | DelayedClose _ =>
      if stdinOnce s then s
      else {| main := main s; ready := ready s; ctx_done := ctx_done s;
              handed := handed s; stdinOnce := true;
              pipe_closes := S (pipe_closes s);
              notifier := Some AwaitReadyOrDone; sent := sent s |}
  end.

Definition step (t : tick) (s : stdin_state) : option stdin_state :=
  match t with
  | MainStep =>
      match main s with
      | [] => None
      | a :: rest =>
          Some {| main := rest;
                  ready := ready s || is_ActCloseReady a;
                  ctx_done := ctx_done s || is_ActCancel a;
                  handed := match stdin_of a with
                            | Some wc => Some wc
                            | None => handed s
                            end;
                  stdinOnce := stdinOnce s;
                  pipe_closes := pipe_closes s;
                  notifier := notifier s;
                  sent := sent s |}
      end
  | CloseRequest =>
      match handed s with
      | Some wc => Some (Close wc s)
      | None => None
      end
  | NotifierStep =>
      match notifier s with
      | Some AwaitReadyOrDone =>
          if ready s || ctx_done s
          then Some {| main := main s; ready := ready s; ctx_done := ctx_done s;
                       handed := handed s;
                       stdinOnce := stdinOnce s; pipe_closes := pipe_closes s;
                       notifier := Some CheckReady; sent := sent s |}
          else None
      | Some CheckReady =>
          Some {| main := main s; ready := ready s; ctx_done := ctx_done s;
                  handed := handed s;
                  stdinOnce := stdinOnce s; pipe_closes := pipe_closes s;
                  notifier := Some Finished;
                  sent := if ready s then S (sent s) else sent s |}
      | _ => None
      end
  end.

Fixpoint run (ts : list tick) (s : stdin_state) : option stdin_state :=
  match ts with
  | [] => Some s
  | t :: ts' =>
      match step t s with
      | Some s' => run ts' s'
      | None => None
      end
  end.

Definition init_stdin (todo : list Action) : stdin_state :=
  {| main := todo; ready := false; ctx_done := false; handed := None;
     stdinOnce := false; pipe_closes := 0; notifier := None; sent := 0 |}.

(** [cancel()] is deferred: nothing follows it. *)
Fixpoint cancel_is_last (l : list Action) : Prop :=
  match l with
  | [] => True
  | a :: l' => (is_ActCancel a = true -> l' = []) /\ cancel_is_last l'
  end.

(** Every stdin that the actions hand out is a wrapper. *)
Definition hands_out_wrappers (l : list Action) : Prop :=
  forall a wc, a ∈ l -> stdin_of a = Some wc -> exists inner, wc = DelayedClose inner.

(** What holds of the machine in every state it reaches when [start] has
    the actions [todo] to perform. *)
Definition stdin_inv (todo : list Action) (s : stdin_state) : Prop :=
  cancel_is_last (main s)
  /\ (forall a, a ∈ main s -> a ∈ todo)
  /\ (ctx_done s = true -> main s = [])
  /\ (ready s = true -> ActCloseReady ∈ todo)
  /\ (forall wc, handed s = Some wc -> exists a, a ∈ todo /\ stdin_of a = Some wc)
  /\ pipe_closes s = (if stdinOnce s then 1 else 0)
  /\ (stdinOnce s = false -> notifier s = None)
  /\ (stdinOnce s = true -> is_Some (notifier s) /\ is_Some (handed s))
  /\ (notifier s = Some AwaitReadyOrDone \/ notifier s = Some CheckReady
        \/ notifier s = None -> sent s = 0)
  /\ (notifier s = Some CheckReady \/ notifier s = Some Finished ->
        ready s = false -> ctx_done s = true)
  /\ (notifier s = Some Finished -> sent s = if ready s then 1 else 0).

(** [start] has returned before the create call was acknowledged. *)
Definition abandoned (s : stdin_state) : Prop :=
  ctx_done s = true /\ ready s = false /\ main s = [] /\ sent s = 0.

(** ** Sample values *)

Definition sample_names : Names :=
  {| StateStart := "start-container";
     StatePause := "pause";
     StateResume := "resume";
     StateExit := "exit";
     StateExitProcess := "exit-process";
     StateOOM := "oom";
     InitFriendlyName := "init";
     configFilename := "config.json" |}.

Definition sample_join (a b : string) : string := a +:+ "/" +:+ b.

Definition sample_fifo (d name : string) (i : Z) : string :=
  d +:+ "/" +:+ name +:+ "-"
    +:+ (if Z.eqb i 0 then "stdin" else if Z.eqb i 1 then "stdout" else "stderr").

Definition sample_pipes (d name : string) : IOPipe :=
  {| io_Stdin := Fifo (sample_fifo d name 0);
     io_Stdout := sample_fifo d name 1;
     io_Stderr := sample_fifo d name 2;
     io_Terminal := false |}.

(** Externals that can be told to fail at the fifos, the create call or
    the notification. *)
Definition sample_externals (fifos_ok rpc_ok notify_ok : bool) : Externals :=
  {| filepath_Join := sample_join;
     json_Unmarshal := λ _, inl {| Process_Terminal := false |};
     fifo := sample_fifo;
     fifos_opened := λ d name _,
       if fifos_ok then inl (sample_pipes d name)
       else inr (ErrorString "context deadline exceeded");
     fifos_made := λ _ _ _ _, fifos_ok;
     CreateContainer := λ _,
       if rpc_ok then inl [("init", 4242%Z)]
       else inr (ErrorString "rpc error: connection refused");
     apiSystemPid := λ c, default 0%Z (snd <$> head c);
     StateChanged := λ _ _,
       if notify_ok then None else Some (ErrorString "backend gone") |}.

Definition sample_ctr : container :=
  {| addr := 1;
     containerID := "c1";
     friendlyName := "init";
     dir := "/run/docker/c1";
     systemPid := 0;
     processes := {[ "p1" := {| p_dir := "/run/docker/c1";
                                p_containerID := "c1";
                                p_friendlyName := "p1" |} ]};
     oom := false;
     runtime := "runc";
     runtimeArgs := [] |}.

(** A world in which "c1" is live and its bundle is on disk. *)
Definition sample_world : World :=
  {| env := ∅;
     fs := {[ "/run/docker/c1" := Dir;
              "/run/docker/c1/config.json" := File "{}";
              "/run/docker/c1/p1-stdin" := File "" ]};
     faults := ∅;
     containers := {[ "c1" := 1 ]};
     q := ∅;
     exitNotifiers := {[ "c1" := 2 ]};
     notifiers := {[ 2 := {| en_id := "c1"; en_closed := false |} ]};
     log := [] |}.

(** The same before "c1" was created. *)
Definition fresh_world : World :=
  {| env := ∅; fs := ∅; faults := ∅; containers := ∅; q := ∅;
     exitNotifiers := ∅; notifiers := ∅; log := [] |}.

Definition set_env (e : gmap string string) (w : World) : World :=
  {| env := e; fs := fs w; faults := faults w; containers := containers w;
     q := q w; exitNotifiers := exitNotifiers w; notifiers := notifiers w;
     log := log w |}.

Definition sample_event (t pid : string) : Event :=
  {| e_Type := t; e_Id := "c1"; e_Status := 137; e_Pid := pid |}.

Definition attach_ok : StdioCallback := λ _, None.
Definition attach_fails : StdioCallback := λ _, Some (ErrorString "attach failed").

End Libcontainerd.

(** * More of the container file *)

Module ContainerMore.
Import Libcontainerd.

(** [func (ctr *container) newProcess(friendlyName string) *process] *)
Definition newProcess (ctr : container) (friendlyName : string) : process :=
  {| p_dir := dir ctr;
     p_containerID := containerID ctr;
     p_friendlyName := friendlyName |}.

(** The three stdio pipes of a process. *)
Definition process_fifos (X : Externals) (p : process) : list string :=
  map (fifo X (p_dir p) (p_friendlyName p))
      [syscall_Stdin; syscall_Stdout; syscall_Stderr].

(** The events of a list that [handleEvent] queues a report for under the
    key [id]. *)
Definition reported_for (N : Names) (id : string) (es : list Event) : list Event :=
  filter (λ e, is_lifecycle_event N (e_Type e) = true ∧ e_Id e = id) es.

End ContainerMore.

(** * The libcontainerd client (client_unix.go)

    [Create], [prepareBundleDir], [newContainer] and
    [TriggerHandleStream], and the [WithRuntime] option of the container
    file.  The client's lock table is left out: the embedding is
    sequential. *)

Module Client.
Import Libcontainerd.

(** ** Create options *)

Definition set_runtime (path : string) (args : list string) (c : container)
  : container :=
  {| addr := addr c; containerID := containerID c; friendlyName := friendlyName c;
     dir := dir c; systemPid := systemPid c; processes := processes c; oom := oom c;
     runtime := path; runtimeArgs := args |}.

Definition set_addr (l : loc) (c : container) : container :=
  {| addr := l; containerID := containerID c; friendlyName := friendlyName c;
     dir := dir c; systemPid := systemPid c; processes := processes c; oom := oom c;
     runtime := runtime c; runtimeArgs := runtimeArgs c |}.

(** The [runtime] option. *)
Record runtime_opt := { rt_path : string; rt_args : list string }.

(** What [Apply(p interface{})] can be handed: a [*container] or a value of
    another type. *)
Inductive apply_target :=
| IsContainer (c : container)
| IsOther.

(** [CreateOption]: the interface with the one method [Apply]. *)
Definition CreateOption := apply_target -> apply_target * option error.

(** [func (rt runtime) Apply(p interface{}) error] *)
Definition Apply (rt : runtime_opt) : CreateOption :=
  fun p =>
    match p with
    | IsContainer pr => (IsContainer (set_runtime (rt_path rt) (rt_args rt) pr), None)
    | IsOther => (IsOther, None)
    end.

(** [func WithRuntime(path string, args []string) CreateOption] *)
Definition WithRuntime (path : string) (args : list string) : CreateOption :=
  Apply {| rt_path := path; rt_args := args |}.

(** [os.IsExist] *)
Definition IsExist (e : error) : bool :=
  match e with
  | PathError _ _ EEXIST => true
  | _ => false
  end.

(** ** What the client needs from other packages

    [S] stands for [specs.Spec]. *)
Record ClientExternals (S : Type) := {
  filepath_Abs : string -> string + error;
  filepath_Base : string -> string;
  (* strings.Split(root, string(filepath.Separator))[1:] *)
  path_segments : string -> list string;
  (* fmt.Sprintf("%d", n) *)
  itoa : Z -> string;
  (* fi.Mode() of a path that os.Stat finds *)
  file_mode : string -> Z;
  getRootIDs : S -> (Z * Z) + error;
  (* what json.NewEncoder(f).Encode(spec) writes *)
  json_Encode : S -> string + error;
  (* the error of getContainer for an id without entry *)
  getContainer_error : string -> error
}.

Arguments filepath_Abs {S}.
Arguments filepath_Base {S}.
Arguments path_segments {S}.
Arguments itoa {S}.
Arguments file_mode {S}.
Arguments getRootIDs {S}.
Arguments json_Encode {S}.
Arguments getContainer_error {S}.

(** [os.Stat]: the mode of the file, or the error. *)
Definition os_Stat {S} (C : ClientExternals S) (w : World) (p : string) : Z + error :=
  match faults w !! ("stat", p) with
  | Some code => inr (PathError "stat" p code)
  | None =>
      match fs w !! p with
      | Some _ => inl (file_mode C p)
      | None => inr (PathError "stat" p ENOENT)
      end
  end.

(** [idtools.MkdirAs] and [idtools.MkdirAllAs], as far as the table of
    paths goes; the owner is not tracked. *)
Definition idtools_MkdirAs (p : string) (w : World) : option error * World :=
  match faults w !! ("mkdir", p) with
  | Some code => (Some (PathError "mkdir" p code), w)
  | None =>
      match fs w !! p with
      | Some _ => (Some (PathError "mkdir" p EEXIST), w)
      | None => (None, set_fs (<[p := Dir]> (fs w)) w)
      end
  end.

Definition idtools_MkdirAllAs (p : string) (w : World) : option error * World :=
  match faults w !! ("mkdir", p) with
  | Some code => (Some (PathError "mkdir" p code), w)
  | None =>
      match fs w !! p with
      | Some _ => (None, w)
      | None => (None, set_fs (<[p := Dir]> (fs w)) w)
      end
  end.

(** [os.Create]: the file exists and is empty afterwards. *)
Definition os_Create (p : string) (w : World) : option error * World :=
  match faults w !! ("create", p) with
  | Some code => (Some (PathError "open" p code), w)
  | None => (None, set_fs (<[p := File ""]> (fs w)) w)
  end.

(** Writing the encoded bytes to the file just created. *)
Definition file_Write (p content : string) (w : World) : option error * World :=
  match faults w !! ("write", p) with
  | Some code => (Some (PathError "write" p code), w)
  | None => (None, set_fs (<[p := File content]> (fs w)) w)
  end.

(** No path is lost between two worlds. *)
Definition fs_grows (w w' : World) : Prop :=
  forall p, is_Some (fs w !! p) -> is_Some (fs w' !! p).

(** ** The client *)

Record client := {
  world : World;                  (* environment, disk, clnt.containers, clnt.q, log *)
  objs : gmap loc container;      (* the container objects behind the pointers *)
  stateDir : string               (* clnt.remote.stateDir *)
}.

Definition set_world (w : World) (st : client) : client :=
  {| world := w; objs := objs st; stateDir := stateDir st |}.

Definition store (l : loc) (c : container) (w : World) (st : client) : client :=
  {| world := w; objs := <[l := c]> (objs st); stateDir := stateDir st |}.

Section WithExternals.

Context {S : Type}.
Variable N : Names.
Variable X : Externals.
Variable C : ClientExternals S.

(** ** [prepareBundleDir] *)

(** The loop over the segments of the state directory. *)
Fixpoint prepare_walk (uid gid : Z) (segs : list string) (p : string) (w : World)
  : (string + error) * World :=
  match segs with
  | [] => (inl p, w)
  | d :: rest =>
      let p := filepath_Join X p d in
      let mine := p +:+ "." +:+ itoa C uid +:+ "." +:+ itoa C gid in
      let create :=
        match idtools_MkdirAs mine w with
        | (Some err, w') =>
            if negb (IsExist err) then (inr err, w')
            else prepare_walk uid gid rest mine w'
        | (None, w') => prepare_walk uid gid rest mine w'
        end in
      match os_Stat C w p with
      | inr err => if IsNotExist err then create else (inr err, w)
      | inl mode => if Z.eqb (Z.land mode 1) 0 then create
                    else prepare_walk uid gid rest p w
      end
  end.

Definition prepareBundleDir (st : client) (uid gid : Z) (w : World)
  : (string + error) * World :=
  match filepath_Abs C (stateDir st) with
  | inr err => (inr err, w)
  | inl root =>
      if Z.eqb uid 0 && Z.eqb gid 0 then (inl root, w)
      else prepare_walk uid gid (path_segments C root) "/" w
  end.

(** ** [newContainer] *)

(** One round of the loop over the options: [Apply] works on the object
    behind the pointer (whose address it cannot change), an error is
    logged. *)
Definition apply_option (cw : container * World) (option : CreateOption)
  : container * World :=
  let '(c, w) := cw in
  let '(p, err) := option (IsContainer c) in
  let c' := match p with IsContainer c' => set_addr (addr c) c' | IsOther => c end in
  (c', match err with Some e => emit (ActErrorf e) w | None => w end).

(** [l] is the address of the object that [&container{...}] allocates. *)
Definition newContainer (l : loc) (d : string) (options : list CreateOption)
    (w : World) : container * World :=
  fold_left apply_option options
    ({| addr := l;
        containerID := filepath_Base C d;
        friendlyName := InitFriendlyName N;
        dir := d;
        systemPid := 0;
        processes := ∅;
        oom := false;
        runtime := "";
        runtimeArgs := [] |}, w).

(** ** [Create] *)

Definition already_active (containerID : string) : error :=
  ErrorString ("Container " +:+ containerID +:+ " is already active").

(** The statements of [Create] that run under the deferred rollback. *)
Definition Create_guarded (ctr : container) (checkpoint checkpointDir : string)
    (spec : S) (attachStdio : StdioCallback) (w : World)
  : option error * container * World :=
  let go (w : World) :=
    match os_Create (filepath_Join X (dir ctr) (configFilename N)) w with
    | (Some err, w) => (Some err, ctr, w)
    | (None, w) =>
        match json_Encode C spec with
        | inr err => (Some err, ctr, w)
        | inl encoded =>
            match file_Write (filepath_Join X (dir ctr) (configFilename N))
                             encoded w with
            | (Some err, w) => (Some err, ctr, w)
            | (None, w) =>
                Libcontainerd.start N X ctr checkpoint checkpointDir attachStdio w
            end
        end
    end in
  match idtools_MkdirAllAs (dir ctr) w with
  | (Some err, w') => if negb (IsExist err) then (Some err, ctr, w') else go w'
  | (None, w') => go w'
  end.


(** [func (clnt *client) Create(...)]; [l] is the address of the container
    object it allocates. *)
Definition Create (l : loc) (containerID checkpoint checkpointDir : string)
    (spec : S) (attachStdio : StdioCallback) (options : list CreateOption)
    (st : client) : option error * client :=
  match getContainer containerID (world st) with
  | Some _ => (Some (already_active containerID), st)
  | None =>
      match getRootIDs C spec with
      | inr err => (Some err, st)
      | inl (uid, gid) =>
          match prepareBundleDir st uid gid (world st) with
          | (inr err, w) => (Some err, set_world w st)
          | (inl d, w) =>
              let '(ctr, w) :=
                newContainer l (filepath_Join X d containerID) options w in
              match clean ctr w with
              | (Some err, w) => (Some err, store l ctr w st)
              | (None, w) =>
                  let '(res, ctr, w) :=
                    Create_guarded ctr checkpoint checkpointDir spec attachStdio w in
                  match res with
                  | Some err =>
                      let '(_, w) := clean ctr w in
                      (Some err, store l ctr (deleteContainer containerID w) st)
                  | None => (None, store l ctr w st)
                  end
              end
          end
      end
  end.


(** ** [TriggerHandleStream] *)

Definition TriggerHandleStream (cId : string) (st : client) : option error * client :=
  match getContainer cId (world st) with
  | None => (Some (getContainer_error C cId), st)
  | Some l =>
      match objs st !! l with
      | None => (None, st)                       (* container == nil *)
      | Some ctr =>
          let e := {| e_Type := "exit"; e_Id := cId; e_Status := 0; e_Pid := "init" |} in
          let '(res, ctr', w) := handleEvent N X ctr e (world st) in
          (res, store l ctr' w st)
      end
  end.

End WithExternals.

(** ** Sample values *)

(** The specification is a unit value here; it is encoded as "{}". *)
Definition sample_client_ext : ClientExternals unit :=
  {| filepath_Abs := λ p, inl p;
     filepath_Base := λ p,
       if String.prefix "/run/docker/" p
       then String.substring 12 (String.length p - 12) p else p;
     path_segments := λ _, ["run"; "docker"];
     itoa := λ n, if Z.eqb n 0 then "0" else "1000";
     file_mode := λ _, 493%Z;
     getRootIDs := λ _, inl (0%Z, 0%Z);
     json_Encode := λ _, inl "{}";
     getContainer_error := λ id, ErrorString ("invalid container: " +:+ id) |}.

Definition fresh_client : client :=
  {| world := fresh_world; objs := ∅; stateDir := "/run/docker" |}.


(** A fresh client with cleaning switched off. *)
Definition noclean_client : client :=
  {| world := set_env {[ "LIBCONTAINERD_NOCLEAN" := "1" ]} fresh_world;
     objs := ∅; stateDir := "/run/docker" |}.

(** A client in which "c1" is live. *)
Definition sample_client : client :=
  {| world := sample_world; objs := {[ 1 := sample_ctr ]}; stateDir := "/run/docker" |}.

End Client.

(** * The supervisor's other handlers: addProcess, stats *)

Module SupervisorTasks.
Import Supervisor.
Local Open Scope list_scope.

(** [AddProcessTask]; the process specification is opaque here. *)
Record AddProcessTask := {
  a_ErrorCh : chan;
  a_ID : string;
  a_PID : string;
  a_Stdout : string;
  a_Stderr : string;
  a_Stdin : string;
  a_ProcessSpec : string;
  a_StartResponse : chan;
  a_Ctx : nat
}.

(** [StatsTask] *)
Record StatsTask := {
  s_ErrorCh : chan;
  s_ID : string;
  s_Stat : chan
}.

(** [runtime.Stdio], as [runtime.NewStdio(stdin, stdout, stderr)] builds it *)
Record Stdio := { Stdin : string; Stdout : string; Stderr : string }.

Definition NewStdio (stdin stdout stderr : string) : Stdio :=
  {| Stdin := stdin; Stdout := stdout; Stderr := stderr |}.

Section Handlers.

Context {Container Process Stat : Type}.

(** What the handlers do to the outside, in order. *)
Inductive Effect :=
| EExec (c : Container) (ctx : nat) (pid spec : string) (io : Stdio)
| EMonitorProcess (p : Process)
| ENewExecSyncChannel (id pid : string)
| ESendStartResponse (ch : chan) (ExecPid : Z)
| ENotifySubscribers (type pid id : string)
| ESpawnStatsWorker (c : Container)
| ESendError (ch : chan) (err : option error)
| ESendStat (ch : chan) (s : Stat).

(** The runtime package, the monitor and the name of the start-process
    state are not part of the handlers. *)
Variable Exec : Container -> nat -> string -> string -> Stdio -> Process + error.
Variable monitorProcess : Process -> option error.
Variable SystemPid : Process -> Z.
Variable Stats : Container -> Stat + error.
Variable StateStartProcess : string.

(** [func (s *Supervisor) addProcess(t *AddProcessTask) error]; the timer
    and the time stamp of the event are left out. *)
Definition addProcess (s : Supervisor Container) (t : AddProcessTask)
  : list Effect * option error :=
  match containers s !! a_ID t with
  | None => ([], Some ErrContainerNotFound)
  | Some ci =>
      let io := NewStdio (a_Stdin t) (a_Stdout t) (a_Stderr t) in
      let tried := [EExec (container ci) (a_Ctx t) (a_PID t) (a_ProcessSpec t) io] in
      match Exec (container ci) (a_Ctx t) (a_PID t) (a_ProcessSpec t) io with
      | inr err => (tried, Some err)
      | inl process =>
          match monitorProcess process with
          | Some err => (tried ++ [EMonitorProcess process], Some err)
          | None =>
              (tried ++ [EMonitorProcess process;
                         ENewExecSyncChannel (a_ID t) (a_PID t);
                         ESendStartResponse (a_StartResponse t) (SystemPid process);
                         ENotifySubscribers StateStartProcess (a_PID t) (a_ID t)],
               None)
          end
      end
  end.

(** The goroutine that [stats] starts. *)
Definition stats_worker (c : Container) (t : StatsTask) : list Effect :=
  match Stats c with
  | inr err => [ESendError (s_ErrorCh t) (Some err)]
  | inl st => [ESendError (s_ErrorCh t) None; ESendStat (s_Stat t) st]
  end.

(** [func (s *Supervisor) stats(t *StatsTask) error] *)
Definition stats (s : Supervisor Container) (t : StatsTask)
  : list Effect * option error :=
  match containers s !! s_ID t with
  | None => ([], Some ErrContainerNotFound)
  | Some i =>
      (ESpawnStatsWorker (container i) :: stats_worker (container i) t,
       Some errDeferredResponse)
  end.

(** Start tasks handled one after the other by the task loop; the results
    are returned in the order of the tasks. *)
Fixpoint starts (runtime_New : ContainerOpts -> Container + error)
    (filepath_Join : string -> string -> string)
    (s : Supervisor Container) (ts : list StartTask)
  : Supervisor Container * list (option error) :=
  match ts with
  | [] => (s, [])
  | t :: ts' =>
      let '(s1, r) := start runtime_New filepath_Join s t in
      let '(s2, rs) := starts runtime_New filepath_Join s1 ts' in
      (s2, r :: rs)
  end.

End Handlers.

Arguments Effect : clear implicits.

(** The successful Start tasks of a list are those answered with the
    deferred-response marker. *)
Definition accepted (rs : list (option error)) : nat :=
  length (filter (λ r, r = Some errDeferredResponse) rs).

(** ** Sample values: processes are their pids, statistics a number. *)

Definition sample_add : AddProcessTask :=
  {| a_ErrorCh := 0; a_ID := "c1"; a_PID := "p1";
     a_Stdout := "out"; a_Stderr := "err"; a_Stdin := "in";
     a_ProcessSpec := "{}"; a_StartResponse := 1; a_Ctx := 0 |}.

Definition sample_stats : StatsTask := {| s_ErrorCh := 0; s_ID := "c1"; s_Stat := 2 |}.

Definition sample_Exec (fail : bool)
  : ContainerOpts -> nat -> string -> string -> Stdio -> string + error :=
  λ _ _ pid _ _, if fail then inr (ErrorString "exec failed") else inl pid.

Definition sample_monitor (fail : bool) : string -> option error :=
  λ _, if fail then Some (ErrorString "epoll failed") else None.

End SupervisorTasks.

(** * The daemon's create path (daemon/create.go) *)

Module Daemon.

Local Open Scope list_scope.

(** A Go [error] of the daemon: plain, or wrapped by
    [apierrors.NewBadRequestError]. *)
Inductive derror :=
| Plain (e : error)
| BadRequestError (e : error).

(** [strings.Join] *)
Fixpoint Join (l : list string) (sep : string) : string :=
  match l with
  | [] => ""
  | [x] => x
  | x :: rest => x +:+ sep +:+ Join rest sep
  end.

(** ** [verifyNetworkingConfig] *)

Record EndpointIPAMConfig := { IPv4Address : string; IPv6Address : string }.

(** [*networktypes.EndpointSettings]; only the IPAM configuration is read. *)
Record EndpointSettings := { IPAMConfig : option EndpointIPAMConfig }.

(** The values of [EndpointsConfig] are pointers and may be nil. *)
Record NetworkingConfig := {
  EndpointsConfig : gmap string (option EndpointSettings)
}.

(** What [net.ParseIP] makes of a string: nil, an address whose [To4()] is
    not nil, or one whose [To4()] is nil. *)
Inductive parsed_ip := NotAnIP | IsIPv4 | IsIPv6.

Section Networking.

Variable ParseIP : string -> parsed_ip.

(** The body of the loop over the endpoints. *)
Definition verify_endpoint (v : option EndpointSettings) : option derror :=
  match v with
  | Some {| IPAMConfig := Some c |} =>
      if negb (String.eqb (IPv4Address c) "")
         && match ParseIP (IPv4Address c) with IsIPv4 => false | _ => true end
      then Some (BadRequestError
                   (ErrorString ("invalid IPv4 address: " +:+ IPv4Address c)))
      else if negb (String.eqb (IPv6Address c) "")
              && match ParseIP (IPv6Address c) with IsIPv6 => false | _ => true end
      then Some (BadRequestError
                   (ErrorString ("invalid IPv6 address: " +:+ IPv6Address c)))
      else None
  | _ => None
  end.

(** [func (daemon *Daemon) verifyNetworkingConfig(nwConfig)].  Go ranges
    over a map in no fixed order; with one entry the order does not
    matter, and with several it only decides the order of the names in the
    message, for which the order of [map_to_list] stands here. *)
Definition verifyNetworkingConfig (nwConfig : option NetworkingConfig)
  : option derror :=
  match nwConfig with
  | None => None
  | Some nw =>
      match map_to_list (EndpointsConfig nw) with
      | [] => None
      | [(_, v)] => verify_endpoint v
      | l =>
          Some (BadRequestError
                  (ErrorString ("Container cannot be connected to network endpoints: "
                                +:+ Join (l.*1) ", ")))
      end
  end.

End Networking.

(** ** [mergeAndVerifyConfig] *)

(** [containertypes.Config], as far as this file reads it. *)
Record Config := {
  Image : string;
  Entrypoint : list string;
  Cmd : list string
}.

(** [*image.Image]: its configuration may be nil. *)
Record ImageT := {
  img_Config : option Config;
  img_OS : string;
  img_ID : string;
  img_ChainID : string
}.

Section Merge.

(** [merge(userConf, imageConf)] works on the user configuration in place. *)
Variable merge : Config -> Config -> Config * option error.

Definition mergeAndVerifyConfig (config : Config) (img : option ImageT)
  : Config * option error :=
  let merged :=
    match img with
    | Some {| img_Config := Some ic |} => merge config ic
    | _ => (config, None)
    end in
  match merged with
  | (config, Some err) => (config, Some err)
  | (config, None) =>
      let config :=
        match Entrypoint config with
        | [e] => if String.eqb e ""
                 then {| Image := Image config; Entrypoint := []; Cmd := Cmd config |}
                 else config
        | _ => config
        end in
      if Nat.eqb (length (Entrypoint config)) 0 && Nat.eqb (length (Cmd config)) 0
      then (config, Some (ErrorString "No command specified"))
      else (config, None)
  end.

End Merge.

(** ** [generateSecurityOpt] *)

(** An IPC or PID mode, by the two questions asked of it. *)
Record Mode := { IsHost : bool; Container : string }.

(** A call returns or panics. *)
Inductive outcome (A : Type) :=
| Returns (a : A)
| Panics.
Arguments Returns {A}.
Arguments Panics {A}.

(** The loop [for i := 0; i < len(pidLabel); i++] comparing [pidLabel[i]]
    with [ipcLabel[i]]: a difference, none, or an index out of range. *)
Fixpoint compare_labels (pidLabel ipcLabel : list string) : outcome bool :=
  match pidLabel with
  | [] => Returns false
  | p :: pidLabel' =>
      match ipcLabel with
      | [] => Panics
      | i :: ipcLabel' =>
          if negb (String.eqb p i) then Returns true
          else compare_labels pidLabel' ipcLabel'
      end
  end.

Section SecurityOpt.

(** [daemon.GetContainer(name)], answering with the process label. *)
Variable GetContainer : string -> string + error.
(** [label.DisableSecOpt()] and [label.DupSecOpt(label)]; a slice may be
    nil. *)
Variable DisableSecOpt : option (list string).
Variable DupSecOpt : string -> option (list string).

Definition generateSecurityOpt (ipcMode pidMode : Mode) (privileged : bool)
  : outcome (option (list string) * option error) :=
  if IsHost ipcMode || IsHost pidMode || privileged
  then Returns (DisableSecOpt, None)
  else
    let ipcContainer := Container ipcMode in
    let pidContainer := Container pidMode in
    let finish (ipcLabel pidLabel : option (list string)) :=
      match pidLabel, ipcLabel with
      | Some pl, Some il =>
          match compare_labels pl il with
          | Panics => Panics
          | Returns true =>
              Returns (None,
                       Some (ErrorString
                         "--ipc and --pid containers SELinux labels aren't the same"))
          | Returns false => Returns (pidLabel, None)
          end
      | _, _ => Returns (None, None)
      end in
    let with_pid (ipcLabel : option (list string)) :=
      if negb (String.eqb pidContainer "") then
        match GetContainer pidContainer with
        | inr err => Returns (None, Some err)
        | inl lbl =>
            let pidLabel := DupSecOpt lbl in
            if String.eqb ipcContainer "" then Returns (pidLabel, None)
            else finish ipcLabel pidLabel
        end
      else finish ipcLabel None in
    if negb (String.eqb ipcContainer "") then
      match GetContainer ipcContainer with
      | inr err => Returns (None, Some err)
      | inl lbl =>
          let ipcLabel := DupSecOpt lbl in
          if String.eqb pidContainer "" then Returns (ipcLabel, None)
          else with_pid ipcLabel
      end
    else with_pid None.

End SecurityOpt.

(** ** [create] and [containerCreate] *)

Record HostConfig := {
  StorageOpt : gmap string string;
  LogConfig : string;
  NetworkMode : string
}.

(** [container.Container], as far as this file reads and writes it. *)
Record Ctr := {
  c_ID : string;
  c_ImageID : string;
  c_MountLabel : string;
  c_Root : string;
  c_CheckpointDir : string;
  c_HostConfig : HostConfig;
  c_RWLayer : option string
}.

Definition set_HostConfig (h : HostConfig) (c : Ctr) : Ctr :=
  {| c_ID := c_ID c; c_ImageID := c_ImageID c; c_MountLabel := c_MountLabel c;
     c_Root := c_Root c; c_CheckpointDir := c_CheckpointDir c;
     c_HostConfig := h; c_RWLayer := c_RWLayer c |}.

Definition set_RWLayer (l : string) (c : Ctr) : Ctr :=
  {| c_ID := c_ID c; c_ImageID := c_ImageID c; c_MountLabel := c_MountLabel c;
     c_Root := c_Root c; c_CheckpointDir := c_CheckpointDir c;
     c_HostConfig := c_HostConfig c; c_RWLayer := Some l |}.

Definition set_LogConfig (l : string) (h : HostConfig) : HostConfig :=
  {| StorageOpt := StorageOpt h; LogConfig := l; NetworkMode := NetworkMode h |}.

Definition set_StorageOpt (o : gmap string string) (h : HostConfig) : HostConfig :=
  {| StorageOpt := o; LogConfig := LogConfig h; NetworkMode := NetworkMode h |}.

(** [types.ContainerCreateConfig] *)
Record ContainerCreateConfig := {
  Name : string;
  p_Config : option Config;
  p_HostConfig : option HostConfig;
  p_NetworkingConfig : option NetworkingConfig;
  AdjustCPUShares : bool
}.

Record ContainerCreateCreatedBody := {
  ID : string;
  Warnings : list string
}.

(** What the create path does to the daemon and the disk, in order. *)
Inductive DAction :=
| DNewContainer (c : Ctr)
| DCreateRWLayer (id layerID : string)
| DMkdirAs (path : string) (uid gid : Z)
| DToDisk (c : Ctr)
| DRegister (c : Ctr)
| DLogContainerEvent (c : Ctr) (action : string)
| DCleanupContainer (c : Ctr)
| DErrorf (msg : string) (e : error).

(** The rest of the daemon and the packages it calls. *)
Record DaemonExt := {
  GOOS : string;
  GetImage : string -> ImageT + error;
  merge : Config -> Config -> Config * option error;
  (* works on the log configuration in place *)
  mergeAndVerifyLogConfig : string -> string * option error;
  newContainer : string -> Config -> string -> bool -> Ctr + error;
  cleanupContainer : Ctr -> option error;
  setSecurityOptions : Ctr -> HostConfig -> Ctr * option error;
  imageStore_Get : string -> ImageT + error;
  CreateRWLayer : string -> string -> string -> gmap string string -> string + error;
  GetRootUIDGID : (Z * Z) + error;
  MkdirAs : string -> Z -> Z -> option error;
  setHostConfig : Ctr -> HostConfig -> Ctr * option error;
  createContainerPlatformSpecificSettings :
    Ctr -> Config -> HostConfig -> Ctr * option error;
  SetDefaultNetModeIfBlank : HostConfig -> HostConfig;
  updateContainerNetworkSettings :
    Ctr -> option (gmap string (option EndpointSettings)) -> Ctr;
  ToDisk : Ctr -> option error;
  Register : Ctr -> option error;
  verifyContainerSettings :
    option HostConfig -> Config -> list string * option error;
  ParseIP : string -> parsed_ip;
  adaptContainerSettings : HostConfig -> bool -> HostConfig * option error;
  imageNotExistToErrcode : error -> error
}.

(** The actions that make and unmake a container. *)
Definition is_cleanup (a : DAction) : bool :=
  match a with DCleanupContainer _ => true | _ => false end.

Definition is_new (a : DAction) : bool :=
  match a with DNewContainer _ => true | _ => false end.

(** A statement that works on the container and may fail. *)
Definition stmt := Ctr -> Ctr * option error * list DAction.

(** Sequencing with [if err != nil { return nil, err }] in between. *)
Definition and_then (f g : stmt) : stmt :=
  fun c =>
    match f c with
    | (c1, Some err, tr) => (c1, Some err, tr)
    | (c1, None, tr) =>
        let '(c2, r, tr') := g c1 in (c2, r, tr ++ tr')
    end.

Infix ">>" := and_then (at level 61, left associativity).

(** A statement that neither makes nor cleans up a container. *)
Definition quiet (f : stmt) : Prop :=
  forall c, Forall (λ a, is_cleanup a = false /\ is_new a = false) (f c).2.

Section Create.

Variable D : DaemonExt.

(** [func (daemon *Daemon) setRWLayer(container) error] *)
Definition setRWLayer : stmt :=
  fun container =>
    let create (layerID : string) :=
      match CreateRWLayer D (c_ID container) layerID (c_MountLabel container)
                          (StorageOpt (c_HostConfig container)) with
      | inr err => (container, Some err, [DCreateRWLayer (c_ID container) layerID])
      | inl rwLayer =>
          (set_RWLayer rwLayer container, None,
           [DCreateRWLayer (c_ID container) layerID])
      end in
    if negb (String.eqb (c_ImageID container) "") then
      match imageStore_Get D (c_ImageID container) with
      | inr err => (container, Some err, [])
      | inl img => create (img_ChainID img)
      end
    else create "".

(** The two [idtools.MkdirAs] calls with the root ids. *)
Definition make_dirs : stmt :=
  fun container =>
    match GetRootUIDGID D with
    | inr err => (container, Some err, [])
    | inl (rootUID, rootGID) =>
        match MkdirAs D (c_Root container) rootUID rootGID with
        | Some err => (container, Some err, [DMkdirAs (c_Root container) rootUID rootGID])
        | None =>
            (container,
             MkdirAs D (c_CheckpointDir container) rootUID rootGID,
             [DMkdirAs (c_Root container) rootUID rootGID;
              DMkdirAs (c_CheckpointDir container) rootUID rootGID])
        end
    end.

Definition pure_stmt (f : Ctr -> Ctr) : stmt := fun c => (f c, None, []).

Definition ext_stmt (f : Ctr -> Ctr * option error) : stmt :=
  fun c => let '(c', r) := f c in (c', r, []).

(** The statements of [create] that follow the [defer]. *)
Definition create_guarded (config : Config) (hostConfig : HostConfig)
    (nw : option NetworkingConfig) : stmt :=
  ext_stmt (fun c => setSecurityOptions D c hostConfig)
  >> pure_stmt (fun c =>
       set_HostConfig (set_StorageOpt (StorageOpt hostConfig) (c_HostConfig c)) c)
  >> setRWLayer
  >> make_dirs
  >> ext_stmt (fun c => setHostConfig D c hostConfig)
  >> ext_stmt (fun c => createContainerPlatformSpecificSettings D c config hostConfig)
  >> pure_stmt (fun c =>
       set_HostConfig (SetDefaultNetModeIfBlank D (c_HostConfig c)) c)
  >> pure_stmt (fun c =>
       updateContainerNetworkSettings D c
         match nw with Some n => Some (EndpointsConfig n) | None => None end)
  >> (fun c =>
        match ToDisk D c with
        | Some err =>
            (c, Some err, [DToDisk c; DErrorf "Error saving new container to disk" err])
        | None => (c, None, [DToDisk c])
        end)
  >> (fun c => (c, Register D c, [DRegister c]))
  >> (fun c => (c, None, [DLogContainerEvent c "create"])).

(** [create] from [mergeAndVerifyConfig] on, the image being resolved. *)
Definition create_with_image (name : string) (config : Config)
    (hostConfig : HostConfig) (nw : option NetworkingConfig) (managed : bool)
    (img : option ImageT) (imgID : string)
  : (Ctr + error) * list DAction :=
  match mergeAndVerifyConfig (merge D) config img with
  | (_, Some err) => (inr err, [])
  | (config, None) =>
      match mergeAndVerifyLogConfig D (LogConfig hostConfig) with
      | (_, Some err) => (inr err, [])
      | (logConfig, None) =>
          let hostConfig := set_LogConfig logConfig hostConfig in
          match newContainer D name config imgID managed with
          | inr err => (inr err, [])
          | inl container =>
              match create_guarded config hostConfig nw container with
              | (c, None, tr) => (inl c, DNewContainer container :: tr)
              | (c, Some retErr, tr) =>
                  (inr retErr,
                   DNewContainer container :: tr ++
                   DCleanupContainer c ::
                   match cleanupContainer D c with
                   | Some err =>
                       [DErrorf "failed to cleanup container on create error" err]
                   | None => []
                   end)
              end
          end
      end
  end.

(** [func (daemon *Daemon) create(params, managed) (retC, retErr)], called
    with a configuration and a host configuration that are not nil. *)
Definition create (name : string) (config : Config) (hostConfig : HostConfig)
    (nw : option NetworkingConfig) (managed : bool)
  : (Ctr + error) * list DAction :=
  if negb (String.eqb (Image config) "") then
    match GetImage D (Image config) with
    | inr err => (inr err, [])
    | inl img =>
        if String.eqb (GOOS D) "solaris" && negb (String.eqb (img_OS img) "solaris ")
        then (inr (ErrorString
                     "Platform on which parent image was created is not Solaris"), [])
        else create_with_image name config hostConfig nw managed (Some img) (img_ID img)
    end
  else create_with_image name config hostConfig nw managed None "".

(** [func (daemon *Daemon) containerCreate(params, managed)]; the timer is
    left out. *)
Definition containerCreate (params : ContainerCreateConfig) (managed : bool)
  : ContainerCreateCreatedBody * option derror * list DAction :=
  match p_Config params with
  | None =>
      ({| ID := ""; Warnings := [] |},
       Some (Plain (ErrorString
                      "Config cannot be empty in order to create a container")),
       [])
  | Some config =>
      let '(warnings, err) := verifyContainerSettings D (p_HostConfig params) config in
      let failed (e : derror) (tr : list DAction) :=
        ({| ID := ""; Warnings := warnings |}, Some e, tr) in
      match err with
      | Some e => failed (Plain e) []
      | None =>
          match verifyNetworkingConfig (ParseIP D) (p_NetworkingConfig params) with
          | Some e => failed e []
          | None =>
              let hostConfig :=
                match p_HostConfig params with
                | Some h => h
                | None => {| StorageOpt := ∅; LogConfig := ""; NetworkMode := "" |}
                end in
              match adaptContainerSettings D hostConfig (AdjustCPUShares params) with
              | (_, Some e) => failed (Plain e) []
              | (hostConfig, None) =>
                  match create (Name params) config hostConfig
                               (p_NetworkingConfig params) managed with
                  | (inr e, tr) => failed (Plain (imageNotExistToErrcode D e)) tr
                  | (inl container, tr) =>
                      ({| ID := c_ID container; Warnings := warnings |}, None, tr)
                  end
              end
          end
      end
  end.

End Create.

(** ** Sample values *)

Definition sample_ctr : Ctr :=
  {| c_ID := "abc"; c_ImageID := ""; c_MountLabel := ""; c_Root := "/var/lib/docker/abc";
     c_CheckpointDir := "/var/lib/docker/abc/checkpoints";
     c_HostConfig := {| StorageOpt := ∅; LogConfig := ""; NetworkMode := "" |};
     c_RWLayer := None |}.

(** A daemon in which everything works, except what the flags switch off. *)
Definition sample_daemon (register_ok cleanup_ok : bool) : DaemonExt :=
  {| GOOS := "linux";
     GetImage := λ _, inl {| img_Config := None; img_OS := "linux";
                             img_ID := "sha256:1"; img_ChainID := "chain:1" |};
     merge := λ c _, (c, None);
     mergeAndVerifyLogConfig := λ l, (l, None);
     newContainer := λ _ _ _ _, inl sample_ctr;
     cleanupContainer := λ _,
       if cleanup_ok then None else Some (ErrorString "device busy");
     setSecurityOptions := λ c _, (c, None);
     imageStore_Get := λ _, inl {| img_Config := None; img_OS := "linux";
                                   img_ID := "sha256:1"; img_ChainID := "chain:1" |};
     CreateRWLayer := λ _ _ _ _, inl "rw";
     GetRootUIDGID := inl (0%Z, 0%Z);
     MkdirAs := λ _ _ _, None;
     setHostConfig := λ c _, (c, None);
     createContainerPlatformSpecificSettings := λ c _ _, (c, None);
     SetDefaultNetModeIfBlank := λ h, h;
     updateContainerNetworkSettings := λ c _, c;
     ToDisk := λ _, None;
     Register := λ _,
       if register_ok then None else Some (ErrorString "name in use");
     verifyContainerSettings := λ _ _, (["no swap limit support"], None);
     ParseIP := λ s, if String.prefix "10." s then IsIPv4
                     else if String.prefix "fe80:" s then IsIPv6 else NotAnIP;
     adaptContainerSettings := λ h _, (h, None);
     imageNotExistToErrcode := λ e, e |}.

(** The same daemon built for another system, with images of the given OS. *)
Definition on_platform (goos os : string) (D : DaemonExt) : DaemonExt :=
  {| GOOS := goos;
     GetImage := λ _, inl {| img_Config := None; img_OS := os;
                             img_ID := "sha256:1"; img_ChainID := "chain:1" |};
     merge := merge D;
     mergeAndVerifyLogConfig := mergeAndVerifyLogConfig D;
     newContainer := newContainer D;
     cleanupContainer := cleanupContainer D;
     setSecurityOptions := setSecurityOptions D;
     imageStore_Get := imageStore_Get D;
     CreateRWLayer := CreateRWLayer D;
     GetRootUIDGID := GetRootUIDGID D;
     MkdirAs := MkdirAs D;
     setHostConfig := setHostConfig D;
     createContainerPlatformSpecificSettings :=
       createContainerPlatformSpecificSettings D;
     SetDefaultNetModeIfBlank := SetDefaultNetModeIfBlank D;
     updateContainerNetworkSettings := updateContainerNetworkSettings D;
     ToDisk := ToDisk D;
     Register := Register D;
     verifyContainerSettings := verifyContainerSettings D;
     ParseIP := ParseIP D;
     adaptContainerSettings := adaptContainerSettings D;
     imageNotExistToErrcode := imageNotExistToErrcode D |}.

Definition sample_config : Config :=
  {| Image := ""; Entrypoint := []; Cmd := ["sh"] |}.

Definition sample_host : HostConfig :=
  {| StorageOpt := ∅; LogConfig := ""; NetworkMode := "" |}.

Definition two_networks : NetworkingConfig :=
  {| EndpointsConfig := {[ "front" := None; "back" := None ]} |}.

End Daemon.

(** * Printing tasks (cli/command/task/print.go) *)

Module TaskPrint.

Local Open Scope list_scope.

Definition maxErrLength : nat := 30.

(** [swarm.PortConfig], as far as this file reads it. *)
Record PortConfig := {
  PublishedPort : Z;
  TargetPort : Z;
  Protocol : string
}.

(** [swarm.Task], as far as this file reads it; times are in nanoseconds. *)
Record Task := {
  ID : string;
  ServiceID : string;
  NodeID : string;
  Slot : Z;
  CreatedAt : Z;
  Image : string;
  DesiredState : string;
  State : string;
  Timestamp : Z;
  Err : string;
  Ports : list PortConfig
}.

(** [tasksBySlot.Less], on the two elements it compares: by slot, and in
    one slot the task created later first. *)
Definition less (a b : Task) : bool :=
  if negb (Z.eqb (Slot a) (Slot b)) then Z.ltb (Slot a) (Slot b)
  else Z.ltb (CreatedAt b) (CreatedAt a).

(** [func (t tasksBySlot) Less(i, j int) bool]; an index out of range
    panics ([None]). *)
Definition Less (t : list Task) (i j : nat) : option bool :=
  match t !! i, t !! j with
  | Some a, Some b => Some (less a b)
  | _, _ => None
  end.

(** [func (t tasksBySlot) Swap(i, j int)] *)
Definition Swap (t : list Task) (i j : nat) : option (list Task) :=
  match t !! i, t !! j with
  | Some a, Some b => Some (<[j := a]> (<[i := b]> t))
  | _, _ => None
  end.

(** [sort.Stable] belongs to the standard library.  A stable sort is
    determined by its order, so insertion from the right stands for it:
    an element is put in front of the first element that is not smaller
    than it. *)
Fixpoint insert (x : Task) (l : list Task) : list Task :=
  match l with
  | [] => [x]
  | y :: l' => if less y x then y :: insert x l' else x :: y :: l'
  end.

Fixpoint sort_Stable (l : list Task) : list Task :=
  match l with
  | [] => []
  | x :: l' => insert x (sort_Stable l')
  end.

(** [func PrintQuiet(dockerCli, tasks) error]: the lines written, and the
    caller's slice, which is sorted in place. *)
Definition PrintQuiet (tasks : list Task) : list string * list Task * option error :=
  let tasks := sort_Stable tasks in
  (map ID tasks, tasks, None).

(** The double quote. *)
Definition dquote : string := String (Ascii.ascii_of_nat 34) EmptyString.

(** The error column of [print]: "Trim and quote the error message". *)
Definition display_error (noTrunc : bool) (taskErr : string) : string :=
  let taskErr :=
    if negb noTrunc && Nat.ltb maxErrLength (String.length taskErr)
    then String.substring 0 (maxErrLength - 1) taskErr +:+ "???"
    else taskErr in
  if Nat.ltb 0 (String.length taskErr)
  then dquote +:+ taskErr +:+ dquote
  else taskErr.

(** One line of the table. *)
Record Row := {
  r_Name : string;
  r_Image : string;
  r_Node : string;
  r_Desired : string;
  r_Current : string;
  r_Age : string;
  r_Err : string;
  r_Ports : string
}.

Section Print.

(** [%d] of package fmt. *)
Variable fmt_d : Z -> string.

(** [fmt.Sprintf("*:%d->%d/%s", ...)] *)
Definition port_entry (p : PortConfig) : string :=
  "*:" +:+ fmt_d (PublishedPort p) +:+ "->" +:+ fmt_d (TargetPort p)
  +:+ "/" +:+ Protocol p.

(** [func (ps portStatus) String() string] *)
Definition portStatus_String (ports : list PortConfig) : string :=
  match ports with
  | [] => ""
  | p0 :: rest =>
      fold_left (λ str pConfig, str +:+ "," +:+ port_entry pConfig) rest
        (port_entry p0)
  end.

(** The resolver, the reference parser and the formatters are other
    packages'.  A resolver answers with a string and an error. *)
Variable Resolve_task : Task -> string * option error.
Variable Resolve_node : string -> string * option error.
(** the image as shown when truncating: name and tag, if it parses so *)
Variable short_image : string -> string.
Variable PrettyPrint : string -> string.
(** [strings.ToLower(units.HumanDuration(time.Since(t)))] *)
Variable age : Z -> string.

(** The loop of [print], with [prevService] and [prevSlot] carried
    along.  The error of resolving the task name is overwritten by the
    next resolution and never looked at. *)
Fixpoint print_loop (noTrunc : bool) (prevService : string) (prevSlot : Z)
    (tasks : list Task) : list Row * option error :=
  match tasks with
  | [] => ([], None)
  | task :: rest =>
      let '(name, _) := Resolve_task task in
      match Resolve_node (NodeID task) with
      | (_, Some err) => ([], Some err)
      | (nodeValue, None) =>
          let indentedName :=
            if String.eqb prevService (ServiceID task) && Z.eqb prevSlot (Slot task)
            then " \_ " +:+ name else name in
          let row :=
            {| r_Name := indentedName;
               r_Image := if negb noTrunc then short_image (Image task) else Image task;
               r_Node := nodeValue;
               r_Desired := PrettyPrint (DesiredState task);
               r_Current := PrettyPrint (State task);
               r_Age := age (Timestamp task);
               r_Err := display_error noTrunc (Err task);
               r_Ports := portStatus_String (Ports task) |} in
          let '(rows, err) := print_loop noTrunc (ServiceID task) (Slot task) rest in
          (row :: rows, err)
      end
  end.

(** [func print(out, ctx, tasks, resolver, noTrunc) error] *)
Definition print (tasks : list Task) (noTrunc : bool) : list Row * option error :=
  print_loop noTrunc "" 0 tasks.

(** [func Print(dockerCli, ctx, tasks, resolver, noTrunc) error]: the
    rows under the header, the caller's slice sorted in place, the error. *)
Definition Print (tasks : list Task) (noTrunc : bool)
  : list Row * list Task * option error :=
  let tasks := sort_Stable tasks in
  let '(rows, err) := print tasks noTrunc in
  (rows, tasks, err).

End Print.

(** The order that [sort.Stable(tasksBySlot(tasks))] establishes. *)
Definition by_slot_newest_first (a b : Task) : Prop :=
  (Slot a < Slot b)%Z \/ (Slot a = Slot b /\ (CreatedAt b <= CreatedAt a)%Z).

(** A list in which every element stands in this order to all later ones. *)
Fixpoint ordered (l : list Task) : Prop :=
  match l with
  | [] => True
  | x :: l' => Forall (by_slot_newest_first x) l' /\ ordered l'
  end.

(** The service and slot that [print] remembers when it comes to row [i]. *)
Definition prev_key (tasks : list Task) (i : nat) : string * Z :=
  match i with
  | 0 => ("", 0%Z)
  | S i' =>
      match tasks !! i' with
      | Some t => (ServiceID t, Slot t)
      | None => ("", 0%Z)
      end
  end.

(** ** Sample values *)

Definition sample_task (id : string) (slot created : Z) : Task :=
  {| ID := id; ServiceID := "svc"; NodeID := "n1"; Slot := slot;
     CreatedAt := created; Image := "busybox:latest"; DesiredState := "running";
     State := "running"; Timestamp := created; Err := ""; Ports := [] |}.

End TaskPrint.

(** * Properties of the libcontainerd container *)

Module LibcontainerdProps.
Import Libcontainerd.
Local Open Scope list_scope.

(** ** The log and the tables under the primitive updates *)

Lemma drop_log_app (l tr : list Action) : drop (length l) (l ++ tr) = tr.
Proof. induction l as [|a l IH]; [reflexivity | exact IH]. Qed.

Lemma drop_log_all (l : list Action) : drop (length l) l = [].
Proof. induction l as [|a l IH]; [reflexivity | exact IH]. Qed.

(** ** [openFifos] *)

Lemma make_fifo_emit p a w : make_fifo p (emit a w) = emit a (make_fifo p w).
Proof. unfold make_fifo. cbn [fs emit]. by destruct (fs w !! p). Qed.

Lemma openFifos_emit X d name t a w :
  openFifos X d name t (emit a w)
  = ((openFifos X d name t w).1, emit a (openFifos X d name t w).2).
Proof.
  unfold openFifos. cbn [fold_left fst snd]. f_equal.
  repeat match goal with
         | |- context [if ?b then _ else _] => destruct b
         end;
    by rewrite ?make_fifo_emit.
Qed.

Lemma make_fifo_frame p w :
  env (make_fifo p w) = env w
  /\ faults (make_fifo p w) = faults w
  /\ containers (make_fifo p w) = containers w
  /\ q (make_fifo p w) = q w
  /\ log (make_fifo p w) = log w
  /\ (forall p' n, fs w !! p' = Some n -> fs (make_fifo p w) !! p' = Some n)
  /\ (forall p', p' ≠ p -> fs (make_fifo p w) !! p' = fs w !! p')
  /\ is_Some (fs (make_fifo p w) !! p).
Proof.
  unfold make_fifo. destruct (fs w !! p) as [n0|] eqn:Hp.
  - do 7 (split; [done|]). by rewrite Hp.
  - do 5 (split; [done|]). cbn. split; [|split].
    + intros p' n Hn. rewrite lookup_insert_ne; [done|]. congruence.
    + intros p' Hne. by rewrite lookup_insert_ne.
    + rewrite lookup_insert_eq. by eexists.
Qed.

(** [openFifos] touches the disk only, and there only the three stdio
    pipes of the process: what is on the disk stays, and each pipe that
    was made is there. *)
Lemma openFifos_frame X d name t w :
  env (openFifos X d name t w).2 = env w
  /\ faults (openFifos X d name t w).2 = faults w
  /\ containers (openFifos X d name t w).2 = containers w
  /\ q (openFifos X d name t w).2 = q w
  /\ log (openFifos X d name t w).2 = log w
  /\ (forall p n, fs w !! p = Some n -> fs (openFifos X d name t w).2 !! p = Some n)
  /\ (forall p, p ∉ map (fifo X d name) [syscall_Stdin; syscall_Stdout; syscall_Stderr] ->
        fs (openFifos X d name t w).2 !! p = fs w !! p)
  /\ (forall i, i ∈ [syscall_Stdin; syscall_Stdout; syscall_Stderr] ->
        fifos_made X d name t i = true ->
        is_Some (fs (openFifos X d name t w).2 !! fifo X d name i)).
Proof.
  unfold openFifos. cbn [snd fold_left].
  set (f := fifo X d name). set (m := fifos_made X d name t).
  set (mk := λ i w0, if m i then make_fifo (f i) w0 else w0).
  change (if m syscall_Stdin then make_fifo (f syscall_Stdin) w else w)
    with (mk syscall_Stdin w).
  change (if m syscall_Stdout then make_fifo (f syscall_Stdout) (mk syscall_Stdin w)
          else mk syscall_Stdin w) with (mk syscall_Stdout (mk syscall_Stdin w)).
  change (if m syscall_Stderr
          then make_fifo (f syscall_Stderr) (mk syscall_Stdout (mk syscall_Stdin w))
          else mk syscall_Stdout (mk syscall_Stdin w))
    with (mk syscall_Stderr (mk syscall_Stdout (mk syscall_Stdin w))).
  assert (Hmk : forall i w0,
    env (mk i w0) = env w0 /\ faults (mk i w0) = faults w0
    /\ containers (mk i w0) = containers w0 /\ q (mk i w0) = q w0
    /\ log (mk i w0) = log w0
    /\ (forall p' n, fs w0 !! p' = Some n -> fs (mk i w0) !! p' = Some n)
    /\ (forall p', p' ≠ f i -> fs (mk i w0) !! p' = fs w0 !! p')
    /\ (m i = true -> is_Some (fs (mk i w0) !! f i))).
  { intros i w0. unfold mk. destruct (m i).
    - destruct (make_fifo_frame (f i) w0) as (?&?&?&?&?&?&?&?).
      do 7 (split; [done|]). done.
    - do 7 (split; [done|]). done. }
  destruct (Hmk syscall_Stdin w) as (He0 & Hf0 & Hc0 & Hq0 & Hl0 & Hk0 & Ho0 & Hm0).
  destruct (Hmk syscall_Stdout (mk syscall_Stdin w))
    as (He1 & Hf1 & Hc1 & Hq1 & Hl1 & Hk1 & Ho1 & Hm1).
  destruct (Hmk syscall_Stderr (mk syscall_Stdout (mk syscall_Stdin w)))
    as (He2 & Hf2 & Hc2 & Hq2 & Hl2 & Hk2 & Ho2 & Hm2).
  split; [congruence|]. split; [congruence|]. split; [congruence|].
  split; [congruence|]. split; [congruence|]. split; [|split].
  - intros p n Hn. by apply Hk2, Hk1, Hk0.
  - intros p Hp. cbn in Hp.
    apply not_elem_of_cons in Hp as [H0 Hp].
    apply not_elem_of_cons in Hp as [H1 Hp].
    apply not_elem_of_cons in Hp as [H2 _].
    by rewrite Ho2, Ho1, Ho0.
  - intros i Hi Hmade.
    apply elem_of_cons in Hi as [-> | Hi].
    { destruct (Hm0 Hmade) as [n Hn]. exists n. by apply Hk2, Hk1. }
    apply elem_of_cons in Hi as [-> | Hi].
    { destruct (Hm1 Hmade) as [n Hn]. exists n. by apply Hk2. }
    apply elem_of_cons in Hi as [-> | Hi]; [by apply Hm2|].
    by apply elem_of_nil in Hi.
Qed.

(** ** [start], return statement by return statement *)

Lemma create_request_env X ctr ck ckd w w' :
  env w' = env w -> create_request X ctr ck ckd w' = create_request X ctr ck ckd w.
Proof. intros H. unfold create_request, os_Getenv. by rewrite H. Qed.

(** The world of [start_body] after the fifos. *)
Lemma start_body_fifos N X sp ctr ck ckd attach w :
  let t := Process_Terminal sp in
  let w1 := emit (ActOpenFifos t) (openFifos X (dir ctr) (friendlyName ctr) t w).2 in
  start_body N X sp ctr ck ckd attach w
  = match fifos_opened X (dir ctr) (friendlyName ctr) t with
    | inr err => (Some err, ctr, w1)
    | inl iopipe0 =>
        let iopipe := wrap_stdin iopipe0 in
        let r := create_request X ctr ck ckd w in
        let w2 := emit (ActAttachStdio iopipe) (appendContainer ctr w1) in
        match attach iopipe with
        | Some err => (Some err, ctr, emit (ActCloseFifos iopipe) w2)
        | None =>
            let w3 := emit (ActCreateContainer r) w2 in
            match CreateContainer X r with
            | inr err => (Some err, ctr, emit (ActCloseFifos iopipe) w3)
            | inl resp =>
                let ctr' := set_systemPid (apiSystemPid X resp) ctr in
                let st := start_report N ctr' in
                (StateChanged X (containerID ctr) st, ctr',
                 emit (ActStateChanged (containerID ctr) st)
                   (emit (ActSleep 10) (emit ActCloseReady w3)))
            end
        end
    end.
Proof.
  intros t w1. unfold start_body. fold t. rewrite openFifos_emit.
  change (openFifos X (dir ctr) (friendlyName ctr) t w).1
    with (fifos_opened X (dir ctr) (friendlyName ctr) t).
  fold w1.
  destruct (fifos_opened X (dir ctr) (friendlyName ctr) t) as [io|err]; [|done].
  assert (Hr : create_request X ctr ck ckd w1 = create_request X ctr ck ckd w).
  { apply create_request_env. subst w1. cbn.
    exact (proj1 (openFifos_frame X (dir ctr) (friendlyName ctr) t w)). }
  cbn zeta. rewrite Hr. reflexivity.
Qed.

Lemma start_cases N X ctr ck ckd attach w :
  start_case N X ctr ck ckd attach w
    (start N X ctr ck ckd attach w).1.1
    (start N X ctr ck ckd attach w).1.2
    (actions_of_start N X ctr ck ckd attach w).
Proof.
  unfold actions_of_start, start.
  destruct (spec N X ctr w) as [sp|err] eqn:Hspec.
  2:{ cbn. rewrite drop_log_all. by eapply start_spec_unreadable. }
  rewrite start_body_fifos.
  pose proof (openFifos_frame X (dir ctr) (friendlyName ctr) (Process_Terminal sp) w)
    as (_ & _ & _ & _ & Hlog & _).
  set (wf := (openFifos X (dir ctr) (friendlyName ctr) (Process_Terminal sp) w).2) in *.
  clearbody wf.
  destruct (fifos_opened X (dir ctr) (friendlyName ctr) (Process_Terminal sp))
    as [io|err] eqn:Hfifos.
  2:{ cbn. rewrite Hlog, <- !app_assoc, drop_log_app. cbn.
      by eapply start_fifos_fail. }
  cbn zeta.
  destruct (attach (wrap_stdin io)) as [err|] eqn:Hattach.
  { cbn. rewrite Hlog, <- !app_assoc, drop_log_app. cbn.
    by eapply start_attach_fails. }
  destruct (CreateContainer X (create_request X ctr ck ckd w)) as [resp|err] eqn:Hrpc.
  2:{ cbn. rewrite Hlog, <- !app_assoc, drop_log_app. cbn.
      by eapply start_rpc_fails. }
  cbn. rewrite Hlog, <- !app_assoc, drop_log_app. cbn.
  by eapply start_created.
Qed.

(** What [start] leaves of the world: it touches the log, the disk (by
    the pipes that [openFifos] makes) and, from [appendContainer] on, the
    live table. *)
Lemma start_world N X ctr ck ckd attach w :
  env (start N X ctr ck ckd attach w).2 = env w
  /\ (fs (start N X ctr ck ckd attach w).2 = fs w
      \/ exists sp,
           spec N X ctr w = inl sp
           /\ fs (start N X ctr ck ckd attach w).2
              = fs (openFifos X (dir ctr) (friendlyName ctr)
                      (Process_Terminal sp) w).2)
  /\ faults (start N X ctr ck ckd attach w).2 = faults w
  /\ (containers (start N X ctr ck ckd attach w).2 = containers w
      \/ containers (start N X ctr ck ckd attach w).2
         = <[containerID ctr := addr ctr]> (containers w)).
Proof.
  unfold start.
  destruct (spec N X ctr w) as [sp|err]; [|by auto].
  rewrite start_body_fifos.
  pose proof (openFifos_frame X (dir ctr) (friendlyName ctr) (Process_Terminal sp) w)
    as (He & Hf & Hc & _).
  set (wf := (openFifos X (dir ctr) (friendlyName ctr) (Process_Terminal sp) w).2) in *.
  assert (Hfs : exists sp0, inl sp = inl sp0 :> Spec + error
                  /\ fs wf = fs (openFifos X (dir ctr) (friendlyName ctr)
                                   (Process_Terminal sp0) w).2)
    by (by exists sp).
  clearbody wf.
  destruct (fifos_opened X (dir ctr) (friendlyName ctr) (Process_Terminal sp))
    as [io|err].
  2:{ cbn. split; [done|]. split; [by right|]. split; [done | by left]. }
  cbn zeta.
  destruct (attach (wrap_stdin io)) as [err|].
  { cbn. rewrite Hc. split; [done|]. split; [by right|]. split; [done | by right]. }
  destruct (CreateContainer X _) as [resp|err];
    cbn; rewrite Hc; (split; [done|]; split; [by right|]; split; [done | by right]).
Qed.

(** No path is lost in a [start], and paths other than the stdio pipes of
    the container are as they were. *)
Lemma start_fs N X ctr ck ckd attach w :
  (forall p n, fs w !! p = Some n -> fs (start N X ctr ck ckd attach w).2 !! p = Some n)
  /\ (forall p, p ∉ map (ctr_fifo X ctr) [syscall_Stdin; syscall_Stdout; syscall_Stderr] ->
        fs (start N X ctr ck ckd attach w).2 !! p = fs w !! p).
Proof.
  destruct (start_world N X ctr ck ckd attach w) as (_ & [Hfs | [sp [_ Hfs]]] & _);
    rewrite Hfs; [by split|].
  destruct (openFifos_frame X (dir ctr) (friendlyName ctr) (Process_Terminal sp) w)
    as (_ & _ & _ & _ & _ & Hk & Ho & _).
  split; [exact Hk | exact Ho].
Qed.


(** ** The operating system *)

Lemma RemoveAll_removes p w w' q' :
  os_RemoveAll p w = (None, w') ->
  under p q' = true ->
  fs w' !! q' = None.
Proof.
  unfold os_RemoveAll. destruct (faults w !! ("remove", p)); [discriminate|].
  intros [= <-] Hu. cbn. apply map_lookup_filter_None. right.
  intros x _. cbn. rewrite Hu. discriminate.
Qed.

Lemma Lstat_absent w p :
  faults w !! ("lstat", p) = None ->
  fs w !! p = None ->
  os_Lstat w p = Some (PathError "lstat" p ENOENT).
Proof. intros Hf Hp. unfold os_Lstat. by rewrite Hf, Hp. Qed.

(** ** Start *)

(** C5.  When the persisted specification cannot be read back, [start]
    returns [nil]: it reports success although nothing was started, the
    init system id is not recorded and the world is untouched. *)
Theorem start_unreadable_spec_reports_success N X ctr ck ckd attach w err :
  spec N X ctr w = inr err ->
  start N X ctr ck ckd attach w = (None, ctr, w).
Proof. intros H. unfold start. by rewrite H. Qed.

Lemma start_unreadable_spec_witness :
  spec sample_names (sample_externals true true true) sample_ctr fresh_world
    = inr (PathError "open" "/run/docker/c1/config.json" ENOENT)
  /\ start sample_names (sample_externals true true true) sample_ctr "" ""
           attach_ok fresh_world
     = (None, sample_ctr, fresh_world).
Proof.
  assert (H : spec sample_names (sample_externals true true true) sample_ctr
                   fresh_world
              = inr (PathError "open" "/run/docker/c1/config.json" ENOENT))
    by (vm_compute; reflexivity).
  split; [exact H|].
  exact (start_unreadable_spec_reports_success _ _ _ "" "" attach_ok _ _ H).
Defined.



(** ** Events *)

Lemma distinct_names N :
  switch_cases_distinct N = true ->
  StateExit N ≠ StatePause N /\ StateExit N ≠ StateResume N
  /\ StateExit N ≠ StateOOM N /\ StateExit N ≠ StateExitProcess N.
Proof.
  unfold switch_cases_distinct. intros H.
  apply andb_true_iff in H as [Hnd Hne].
  apply bool_decide_eq_true in Hnd. apply bool_decide_eq_true in Hne.
  apply NoDup_cons in Hnd as [Hnotin _].
  repeat split; try exact Hne; intros Heq; apply Hnotin; rewrite Heq.
  - apply list_elem_of_here.
  - apply list_elem_of_further, list_elem_of_here.
  - do 2 apply list_elem_of_further. apply list_elem_of_here.
Qed.

Lemma exit_is_lifecycle N e :
  e_Type e = StateExit N -> is_lifecycle_event N (e_Type e) = true.
Proof. intros ->. unfold is_lifecycle_event. by rewrite String.eqb_refl. Qed.

Lemma oom_is_lifecycle N e :
  e_Type e = StateOOM N -> is_lifecycle_event N (e_Type e) = true.
Proof.
  intros ->. unfold is_lifecycle_event.
  rewrite (String.eqb_refl (StateOOM N)). by rewrite !orb_true_r.
Qed.

Lemma event_report_init_exit N ctr e :
  e_Type e = StateExit N ->
  e_Pid e = InitFriendlyName N ->
  event_report N ctr e
  = {| State := StateExit N; Pid := 0; ExitCode := e_Status e;
       ProcessID := ""; OOMKilled := oom ctr |}.
Proof.
  intros Ht Hp. unfold event_report. rewrite Ht, Hp, !String.eqb_refl. reflexivity.
Qed.

Lemma event_report_process_exit N ctr e :
  e_Type e = StateExit N ->
  e_Pid e ≠ InitFriendlyName N ->
  event_report N ctr e
  = {| State := StateExitProcess N; Pid := 0; ExitCode := e_Status e;
       ProcessID := e_Pid e; OOMKilled := oom ctr |}.
Proof.
  intros Ht Hp. unfold event_report. rewrite Ht, String.eqb_refl.
  apply String.eqb_neq in Hp. rewrite Hp. reflexivity.
Qed.

Lemma event_report_no_exit N ctr e :
  e_Type e ≠ StateExit N ->
  event_report N ctr e
  = {| State := e_Type e; Pid := 0; ExitCode := e_Status e;
       ProcessID := ""; OOMKilled := false |}.
Proof.
  intros Ht. unfold event_report. apply String.eqb_neq in Ht. rewrite Ht.
  reflexivity.
Qed.

(** The tables that [clean] and [cleanProcess] leave alone. *)
Lemma clean_frame ctr w :
  env (clean ctr w).2 = env w
  /\ containers (clean ctr w).2 = containers w
  /\ q (clean ctr w).2 = q w
  /\ log (clean ctr w).2 = log w.
Proof.
  unfold clean.
  destruct (String.eqb _ "1"); [done|].
  destruct (os_Lstat w (dir ctr)) as [err|]; [by destruct (IsNotExist err)|].
  unfold os_RemoveAll. by destruct (faults w !! ("remove", dir ctr)).
Qed.

Lemma remove_fifo_frame X p id w i :
  containers (remove_fifo X p id w i) = containers w
  /\ q (remove_fifo X p id w i) = q w.
Proof.
  unfold remove_fifo, os_Remove.
  destruct (faults w !! ("remove", _)) as [code|].
  { cbn. by destruct code. }
  by destruct (fs w !! _).
Qed.

Lemma cleanProcess_frame X ctr id w :
  containers (cleanProcess X ctr id w).2 = containers w
  /\ q (cleanProcess X ctr id w).2 = q w.
Proof.
  unfold cleanProcess. cbn.
  destruct (processes ctr !! id) as [p|]; [|done]. cbn.
  destruct (remove_fifo_frame X p id w syscall_Stdin) as [Hc0 Hq0].
  destruct (remove_fifo_frame X p id (remove_fifo X p id w syscall_Stdin)
              syscall_Stdout) as [Hc1 Hq1].
  destruct (remove_fifo_frame X p id
              (remove_fifo X p id (remove_fifo X p id w syscall_Stdin)
                 syscall_Stdout) syscall_Stderr) as [Hc2 Hq2].
  split; congruence.
Qed.

(** [handleEvent] on the three kinds of event. *)
Lemma handleEvent_init_exit N X ctr e w :
  switch_cases_distinct N = true ->
  e_Type e = StateExit N ->
  e_Pid e = InitFriendlyName N ->
  handleEvent N X ctr e w
  = (None, ctr,
     q_append (e_Id e) {| cb_e := e; cb_st := event_report N ctr e |}
       (deleteContainer (e_Id e) (clean ctr w).2)).
Proof.
  intros Hd Ht Hp. destruct (distinct_names N Hd) as (_ & _ & Hoom & _).
  unfold handleEvent. rewrite (exit_is_lifecycle N e Ht).
  rewrite (event_report_init_exit N ctr e Ht Hp). cbn.
  rewrite Ht, String.eqb_refl.
  apply String.eqb_neq in Hoom. rewrite Hoom.
  by destruct (clean ctr w).
Qed.

Lemma handleEvent_process_exit N X ctr e w :
  switch_cases_distinct N = true ->
  e_Type e = StateExit N ->
  e_Pid e ≠ InitFriendlyName N ->
  handleEvent N X ctr e w
  = (None, (cleanProcess X ctr (e_Pid e) w).1,
     q_append (e_Id e) {| cb_e := e; cb_st := event_report N ctr e |}
       (cleanProcess X ctr (e_Pid e) w).2).
Proof.
  intros Hd Ht Hp. destruct (distinct_names N Hd) as (_ & _ & Hoom & Hproc).
  unfold handleEvent. rewrite (exit_is_lifecycle N e Ht).
  rewrite (event_report_process_exit N ctr e Ht Hp). cbn.
  rewrite Ht, String.eqb_refl.
  apply String.eqb_neq in Hoom. rewrite Hoom.
  assert (Hpe : String.eqb (StateExitProcess N) (StateExit N) = false)
    by (apply String.eqb_neq; congruence).
  rewrite Hpe. reflexivity.
Qed.

Lemma handleEvent_result N X ctr e w : (handleEvent N X ctr e w).1.1 = None.
Proof.
  unfold handleEvent.
  destruct (is_lifecycle_event N (e_Type e)); [|reflexivity].
  destruct (String.eqb (State (event_report N ctr e)) (StateExit N)).
  { by destruct (clean _ w). }
  destruct (String.eqb (State (event_report N ctr e)) (StateExitProcess N));
    [|reflexivity].
  by destruct (cleanProcess X _ _ w).
Qed.

Lemma handleEvent_oom N X ctr e w :
  oom (handleEvent N X ctr e w).1.2
  = oom ctr || String.eqb (e_Type e) (StateOOM N).
Proof.
  unfold handleEvent, is_lifecycle_event.
  destruct (String.eqb (e_Type e) (StateOOM N)) eqn:Hoom.
  - rewrite !orb_true_r.
    destruct (String.eqb (State (event_report N ctr e)) (StateExit N)).
    { by destruct (clean _ w). }
    by destruct (String.eqb (State (event_report N ctr e)) (StateExitProcess N)).
  - rewrite !orb_false_r.
    destruct (_ || _); [|reflexivity].
    destruct (String.eqb (State (event_report N ctr e)) (StateExit N)).
    { by destruct (clean _ w). }
    by destruct (String.eqb (State (event_report N ctr e)) (StateExitProcess N)).
Qed.

Lemma handleEvent_queue N X ctr e w :
  is_lifecycle_event N (e_Type e) = true ->
  q (handleEvent N X ctr e w).2 !! e_Id e
  = Some (default [] (q w !! e_Id e)
          ++ [{| cb_e := e; cb_st := event_report N ctr e |}]).
Proof.
  intros Hl. unfold handleEvent. rewrite Hl.
  destruct (String.eqb (State (event_report N ctr e)) (StateExit N)).
  { destruct (clean_frame (if String.eqb (e_Type e) (StateOOM N)
                           then set_oom true ctr else ctr) w) as (_ & _ & Hq & _).
    destruct (clean _ w) as [r w']. cbn in Hq |- *. rewrite Hq.
    apply lookup_insert_eq. }
  destruct (String.eqb (State (event_report N ctr e)) (StateExitProcess N)).
  { destruct (cleanProcess_frame X (if String.eqb (e_Type e) (StateOOM N)
                                    then set_oom true ctr else ctr)
                (ProcessID (event_report N ctr e)) w) as [_ Hq].
    destruct (cleanProcess X _ _ w) as [c' w']. cbn in Hq |- *. rewrite Hq.
    apply lookup_insert_eq. }
  cbn. apply lookup_insert_eq.
Qed.

Lemma handleEvents_keep_oom N X es : forall ctr w,
  oom ctr = true -> oom (handleEvents N X ctr es w).1 = true.
Proof.
  induction es as [|e es IH]; intros ctr w Hoom; [exact Hoom|].
  cbn. pose proof (handleEvent_oom N X ctr e w) as H.
  destruct (handleEvent N X ctr e w) as [[r ctr'] w']. cbn in H.
  apply IH. rewrite H, Hoom. reflexivity.
Qed.

Lemma clean_removes_dir ctr w :
  os_Getenv w "LIBCONTAINERD_NOCLEAN" ≠ "1" ->
  faults w !! ("lstat", dir ctr) = None ->
  faults w !! ("remove", dir ctr) = None ->
  (clean ctr w).1 = None /\ fs (clean ctr w).2 !! dir ctr = None.
Proof.
  intros Henv Hl Hr. unfold clean.
  apply String.eqb_neq in Henv. rewrite Henv.
  unfold os_Lstat. rewrite Hl.
  destruct (fs w !! dir ctr) eqn:Hdir; [|by cbn].
  destruct (os_RemoveAll (dir ctr) w) as [r w'] eqn:Hrm.
  assert (r = None) as ->
    by (unfold os_RemoveAll in Hrm; rewrite Hr in Hrm; congruence).
  split; [reflexivity|].
  apply (RemoveAll_removes _ _ _ _ Hrm).
  unfold under. by rewrite String.eqb_refl.
Qed.

(** C3.  An Exit event routed to its container ([e.Id] is the container's
    id).  For the init process: the entry of the container leaves the live
    table (no other entry is touched) and [clean] is run on the bundle
    directory, which removes it unless cleaning is switched off or the
    operating system refuses.  For any other pid: that process, and only
    it, leaves the process registry; the object is otherwise unchanged
    and the live table keeps every entry. *)
Theorem exit_event_transitions N X ctr e w :
  switch_cases_distinct N = true ->
  e_Type e = StateExit N ->
  e_Id e = containerID ctr ->
  (e_Pid e = InitFriendlyName N ->
     containers (handleEvent N X ctr e w).2 = delete (containerID ctr) (containers w)
     /\ containers (handleEvent N X ctr e w).2 !! containerID ctr = None
     /\ fs (handleEvent N X ctr e w).2 = fs (clean ctr w).2
     /\ (os_Getenv w "LIBCONTAINERD_NOCLEAN" ≠ "1" ->
         faults w !! ("lstat", dir ctr) = None ->
         faults w !! ("remove", dir ctr) = None ->
         fs (handleEvent N X ctr e w).2 !! dir ctr = None))
  /\ (e_Pid e ≠ InitFriendlyName N ->
        (handleEvent N X ctr e w).1.2
        = set_processes (delete (e_Pid e) (processes ctr)) ctr
        /\ (forall id, id ≠ e_Pid e ->
              processes (handleEvent N X ctr e w).1.2 !! id = processes ctr !! id)
        /\ containers (handleEvent N X ctr e w).2 = containers w).
Proof.
  intros Hd Ht Hid. split; intros Hp.
  - rewrite (handleEvent_init_exit N X ctr e w Hd Ht Hp), Hid. cbn.
    destruct (clean_frame ctr w) as (_ & Hc & _ & _). rewrite Hc.
    split; [reflexivity|]. split; [apply lookup_delete_eq|].
    split; [reflexivity|].
    intros Henv Hl Hr. by apply clean_removes_dir.
  - rewrite (handleEvent_process_exit N X ctr e w Hd Ht Hp).
    split; [reflexivity|]. split.
    + intros id Hne. cbn. by apply lookup_delete_ne.
    + exact (proj1 (cleanProcess_frame X ctr (e_Pid e) w)).
Qed.

Lemma exit_event_transitions_witness :
  containers (handleEvent sample_names (sample_externals true true true)
                          sample_ctr (sample_event "exit" "init") sample_world).2
             !! "c1" = None
  /\ fs (handleEvent sample_names (sample_externals true true true)
                     sample_ctr (sample_event "exit" "init") sample_world).2
        !! "/run/docker/c1" = None
  /\ containers (handleEvent sample_names (sample_externals true true true)
                             sample_ctr (sample_event "exit" "p1") sample_world).2
     = containers sample_world.
Proof.
  pose proof (exit_event_transitions sample_names (sample_externals true true true)
                sample_ctr (sample_event "exit" "init") sample_world
                ltac:(vm_compute; reflexivity) ltac:(reflexivity)
                ltac:(reflexivity)) as [Hinit _].
  pose proof (exit_event_transitions sample_names (sample_externals true true true)
                sample_ctr (sample_event "exit" "p1") sample_world
                ltac:(vm_compute; reflexivity) ltac:(reflexivity)
                ltac:(reflexivity)) as [_ Hproc].
  destruct (Hinit ltac:(reflexivity)) as (_ & H1 & _ & H2).
  destruct (Hproc ltac:(vm_compute; discriminate)) as (_ & _ & H3).
  split; [exact H1|]. split; [|exact H3].
  apply H2; vm_compute; first [reflexivity | discriminate].
Defined.

Lemma emit_keeps a b w : a ∈ log w -> a ∈ log (emit b w).
Proof. intros H. cbn. apply elem_of_app. by left. Qed.

Lemma emit_logs a w : a ∈ log (emit a w).
Proof. cbn. apply elem_of_app. right. apply list_elem_of_here. Qed.

(** Closing the exit notifier touches the notifier tables and the log,
    and nothing is taken from the log. *)
Lemma closeExitNotifier_frame id w :
  fs (closeExitNotifier id w) = fs w
  /\ containers (closeExitNotifier id w) = containers w
  /\ q (closeExitNotifier id w) = q w
  /\ (forall a, a ∈ log w -> a ∈ log (closeExitNotifier id w)).
Proof.
  unfold closeExitNotifier.
  destruct (getExitNotifier id w) as [[l en]|]; [|done].
  destruct (exitNotifier_close l en (exitNotifiers w)) as [en' table].
  destruct (en_closed en); repeat split; try done.
  intros a Ha. by apply emit_keeps.
Qed.

Lemma closeExitNotifier_keeps a id w :
  a ∈ log w -> a ∈ log (closeExitNotifier id w).
Proof. apply closeExitNotifier_frame. Qed.

(** The queued closure always hands its report to [StateChanged]. *)
Lemma run_callback_reports N X cb w :
  ActStateChanged (e_Id (cb_e cb)) (cb_st cb) ∈ log (run_callback N X cb w).
Proof.
  unfold run_callback.
  pose proof (emit_logs (ActStateChanged (e_Id (cb_e cb)) (cb_st cb)) w) as H0.
  destruct (StateChanged X (e_Id (cb_e cb)) (cb_st cb));
    destruct (String.eqb (e_Type (cb_e cb)) (StatePause N)
              || String.eqb (e_Type (cb_e cb)) (StateResume N));
    destruct (String.eqb (e_Type (cb_e cb)) (StateExit N));
    repeat first [exact H0 | apply closeExitNotifier_keeps | apply emit_keeps].
Qed.

(** C4.  Once an OOM event has been handled, the flag stays set whatever
    events are handled afterwards, and an Exit event for the init process
    handled then queues, behind the callbacks already pending for the id, a
    report in state Exit with [OOMKilled = true]; running that callback
    passes this report to [StateChanged]. *)
Theorem oom_flag_sticky N X ctr w e_oom es e_exit :
  e_Type e_oom = StateOOM N ->
  e_Type e_exit = StateExit N ->
  e_Pid e_exit = InitFriendlyName N ->
  let ctr1 := (handleEvents N X ctr (e_oom :: es) w).1 in
  let w1 := (handleEvents N X ctr (e_oom :: es) w).2 in
  oom (handleEvent N X ctr e_oom w).1.2 = true
  /\ oom ctr1 = true
  /\ exists cb,
       q (handleEvent N X ctr1 e_exit w1).2 !! e_Id e_exit
         = Some (default [] (q w1 !! e_Id e_exit) ++ [cb])
       /\ cb_e cb = e_exit
       /\ State (cb_st cb) = StateExit N
       /\ OOMKilled (cb_st cb) = true
       /\ forall w', ActStateChanged (e_Id e_exit) (cb_st cb)
                       ∈ log (run_callback N X cb w').
Proof.
  intros Hoom Hexit Hpid ctr1 w1.
  assert (H0 : oom (handleEvent N X ctr e_oom w).1.2 = true).
  { rewrite handleEvent_oom, Hoom, String.eqb_refl. apply orb_true_r. }
  assert (H1 : oom ctr1 = true).
  { subst ctr1. cbn. destruct (handleEvent N X ctr e_oom w) as [[r c'] w'].
    cbn in H0. by apply handleEvents_keep_oom. }
  split; [exact H0|]. split; [exact H1|].
  exists {| cb_e := e_exit; cb_st := event_report N ctr1 e_exit |}.
  split; [apply handleEvent_queue; by apply exit_is_lifecycle|].
  rewrite (event_report_init_exit N ctr1 e_exit Hexit Hpid), H1. cbn.
  repeat split; try done.
  intros w'.
  exact (run_callback_reports N X
           {| cb_e := e_exit;
              cb_st := {| State := StateExit N; Pid := 0;
                          ExitCode := e_Status e_exit; ProcessID := "";
                          OOMKilled := true |} |} w').
Qed.

Lemma oom_flag_sticky_witness :
  oom (handleEvents sample_names (sample_externals true true true) sample_ctr
         [sample_event "oom" "init"; sample_event "pause" "init";
          sample_event "resume" "init"] sample_world).1 = true.
Proof.
  exact (proj1 (proj2 (oom_flag_sticky sample_names
                         (sample_externals true true true) sample_ctr sample_world
                         (sample_event "oom" "init")
                         [sample_event "pause" "init"; sample_event "resume" "init"]
                         (sample_event "exit" "init")
                         ltac:(reflexivity) ltac:(reflexivity) ltac:(reflexivity)))).
Defined.

(** C6, as amended.  The report queued for an event is [event_report].
    For a Pause, a Resume or an OOM event it never carries
    [OOMKilled = true].  For an Exit event it carries the sticky flag as
    it stands, and this for the init process (state Exit) as well as for
    any other pid (state ExitProcess). *)
Theorem OOMKilled_follows_exit_events N X ctr e w :
  switch_cases_distinct N = true ->
  is_lifecycle_event N (e_Type e) = true ->
  q (handleEvent N X ctr e w).2 !! e_Id e
    = Some (default [] (q w !! e_Id e)
            ++ [{| cb_e := e; cb_st := event_report N ctr e |}])
  /\ (e_Type e = StatePause N \/ e_Type e = StateResume N \/ e_Type e = StateOOM N ->
      OOMKilled (event_report N ctr e) = false
      /\ State (event_report N ctr e) = e_Type e)
  /\ (e_Type e = StateExit N ->
      OOMKilled (event_report N ctr e) = oom ctr
      /\ State (event_report N ctr e)
         = if String.eqb (e_Pid e) (InitFriendlyName N)
           then StateExit N else StateExitProcess N).
Proof.
  intros Hd Hl. destruct (distinct_names N Hd) as (Hp & Hr & Ho & _).
  split; [by apply handleEvent_queue|]. split.
  - intros Ht.
    assert (Hne : e_Type e ≠ StateExit N)
      by (destruct Ht as [-> | [-> | ->]]; congruence).
    by rewrite (event_report_no_exit N ctr e Hne).
  - intros Ht.
    destruct (String.eqb (e_Pid e) (InitFriendlyName N)) eqn:Hpid.
    + apply String.eqb_eq in Hpid.
      by rewrite (event_report_init_exit N ctr e Ht Hpid).
    + apply String.eqb_neq in Hpid.
      by rewrite (event_report_process_exit N ctr e Ht Hpid).
Qed.

Lemma OOMKilled_follows_exit_events_witness :
  OOMKilled (event_report sample_names (set_oom true sample_ctr)
               (sample_event "pause" "init")) = false
  /\ OOMKilled (event_report sample_names (set_oom true sample_ctr)
                  (sample_event "exit" "p1")) = true.
Proof.
  destruct (OOMKilled_follows_exit_events sample_names
              (sample_externals true true true) (set_oom true sample_ctr)
              (sample_event "pause" "init") sample_world
              ltac:(vm_compute; reflexivity) ltac:(vm_compute; reflexivity))
    as (_ & Hpause & _).
  destruct (OOMKilled_follows_exit_events sample_names
              (sample_externals true true true) (set_oom true sample_ctr)
              (sample_event "exit" "p1") sample_world
              ltac:(vm_compute; reflexivity) ltac:(vm_compute; reflexivity))
    as (_ & _ & Hexit).
  split.
  - exact (proj1 (Hpause (or_introl eq_refl))).
  - exact (proj1 (Hexit eq_refl)).
Defined.

(** C6 as written fails: with the flag set, the exit of the process "p1",
    which is not the init process, is reported in state ExitProcess with
    [OOMKilled = true]. *)
Lemma exited_process_report_carries_oom :
  e_Pid (sample_event "exit" "p1") ≠ InitFriendlyName sample_names
  /\ q (handleEvent sample_names (sample_externals true true true)
          (set_oom true sample_ctr) (sample_event "exit" "p1") sample_world).2
       !! "c1"
     = Some [{| cb_e := sample_event "exit" "p1";
                cb_st := {| State := StateExitProcess sample_names;
                            Pid := 0;
                            ExitCode := 137;
                            ProcessID := "p1";
                            OOMKilled := true |} |}].
Proof. split; [vm_compute; discriminate | vm_compute; reflexivity]. Qed.

(** C7.  [handleEvent] returns [nil] for every event; an event of an
    unrecognized type is logged and nothing else happens.  When the queued
    closure runs and [StateChanged] fails, the error is logged, the closure
    still leaves the queue (nothing puts the event back), and the live
    table and the disk stay as the handling of the event left them. *)
Theorem handleEvent_never_fails N X ctr e w :
  (handleEvent N X ctr e w).1.1 = None
  /\ (is_lifecycle_event N (e_Type e) = false ->
      handleEvent N X ctr e w = (None, ctr, emit (ActDebugf e) w))
  /\ (forall key cb rest eErr,
        q w !! key = Some (cb :: rest) ->
        StateChanged X (e_Id (cb_e cb)) (cb_st cb) = Some eErr ->
        exists w',
          q_run_next N X key w = Some w'
          /\ ActErrorf eErr ∈ log w'
          /\ q w' !! key = Some rest
          /\ containers w' = containers w
          /\ fs w' = fs w).
Proof.
  split; [apply handleEvent_result|]. split.
  - intros Hl. unfold handleEvent. by rewrite Hl.
  - intros key cb rest eErr Hq Herr.
    unfold q_run_next. rewrite Hq. eexists. split; [reflexivity|].
    unfold run_callback. rewrite Herr.
    set (w0 := set_q (<[key:=rest]> (q w)) w).
    assert (Hlog : ActErrorf eErr
                     ∈ log (emit (ActErrorf eErr)
                              (emit (ActStateChanged (e_Id (cb_e cb)) (cb_st cb)) w0)))
      by apply emit_logs.
    assert (Hq0 : q w0 !! key = Some rest) by apply lookup_insert_eq.
    destruct (String.eqb (e_Type (cb_e cb)) (StatePause N)
              || String.eqb (e_Type (cb_e cb)) (StateResume N));
      destruct (String.eqb (e_Type (cb_e cb)) (StateExit N));
      try match goal with
          | |- context [closeExitNotifier ?id ?w1] =>
              destruct (closeExitNotifier_frame id w1) as (Hfs & Hct & Hqq & Hkeep);
              rewrite Hfs, Hct, Hqq
          end;
      (split; [repeat first [exact Hlog | apply Hkeep | apply emit_keeps] |]);
      (split; [exact Hq0 | split; reflexivity]).
Qed.

Lemma handleEvent_never_fails_witness :
  handleEvent sample_names (sample_externals true true false) sample_ctr
              (sample_event "start-container" "init") sample_world
  = (None, sample_ctr,
     emit (ActDebugf (sample_event "start-container" "init")) sample_world).
Proof.
  exact (proj1 (proj2 (handleEvent_never_fails sample_names
                         (sample_externals true true false) sample_ctr
                         (sample_event "start-container" "init") sample_world))
           ltac:(vm_compute; reflexivity)).
Defined.

(** C10.  [clean] returns [nil] and leaves the world as it is when
    LIBCONTAINERD_NOCLEAN is "1" or when [Lstat] finds no directory; so
    with LIBCONTAINERD_NOCLEAN=1 the Exit of the init process is handled
    without an error, nothing is logged and the disk is untouched: a bundle
    directory that was there is still there. *)
Theorem clean_is_conditional N X ctr w :
  (os_Getenv w "LIBCONTAINERD_NOCLEAN" = "1"
   \/ (exists err, os_Lstat w (dir ctr) = Some err /\ IsNotExist err = true) ->
   clean ctr w = (None, w))
  /\ (forall e node,
        e_Type e = StateExit N ->
        e_Pid e = InitFriendlyName N ->
        os_Getenv w "LIBCONTAINERD_NOCLEAN" = "1" ->
        fs w !! dir ctr = Some node ->
        (handleEvent N X ctr e w).1.1 = None
        /\ fs (handleEvent N X ctr e w).2 !! dir ctr = Some node
        /\ fs (handleEvent N X ctr e w).2 = fs w
        /\ log (handleEvent N X ctr e w).2 = log w).
Proof.
  assert (Hclean : forall c, os_Getenv w "LIBCONTAINERD_NOCLEAN" = "1" ->
                             clean c w = (None, w)).
  { intros c Henv. unfold clean. by rewrite Henv. }
  split.
  - intros [Henv | [err [Hl Hne]]]; [by apply Hclean|].
    unfold clean. rewrite Hl, Hne.
    by destruct (String.eqb _ "1").
  - intros e node Ht Hp Henv Hdir.
    split; [apply handleEvent_result|].
    unfold handleEvent. rewrite (exit_is_lifecycle N e Ht).
    rewrite (event_report_init_exit N ctr e Ht Hp). cbn [State].
    rewrite String.eqb_refl, Hclean by exact Henv.
    by repeat split.
Qed.

Lemma clean_is_conditional_witness :
  fs (handleEvent sample_names (sample_externals true true true) sample_ctr
        (sample_event "exit" "init")
        (set_env {[ "LIBCONTAINERD_NOCLEAN" := "1" ]} sample_world)).2
     !! "/run/docker/c1" = Some Dir
  /\ clean sample_ctr fresh_world = (None, fresh_world).
Proof.
  split.
  - exact (proj1 (proj2 (proj2 (clean_is_conditional sample_names
             (sample_externals true true true) sample_ctr
             (set_env {[ "LIBCONTAINERD_NOCLEAN" := "1" ]} sample_world))
             (sample_event "exit" "init") Dir
             ltac:(reflexivity) ltac:(reflexivity)
             ltac:(vm_compute; reflexivity) ltac:(vm_compute; reflexivity)))).
  - apply (proj1 (clean_is_conditional sample_names
                    (sample_externals true true true) sample_ctr fresh_world)).
    right. exists (PathError "lstat" "/run/docker/c1" ENOENT).
    split; vm_compute; reflexivity.
Defined.

(** ** Stdin closure *)

Lemma init_stdin_inv todo : cancel_is_last todo -> stdin_inv todo (init_stdin todo).
Proof.
  intros H. unfold stdin_inv, init_stdin. cbn.
  split; [exact H|]. split; [done|]. split; [done|]. split; [done|].
  split; [done|]. split; [done|]. split; [done|]. split; [done|].
  split; [done|]. split; [|done].
  intros [Hn | Hn]; discriminate.
Qed.

Lemma step_stdin_inv todo t s s' :
  hands_out_wrappers todo ->
  stdin_inv todo s -> step t s = Some s' -> stdin_inv todo s'.
Proof.
  intros Hwrap Hinv Hstep.
  pose proof Hinv
    as (Hlast & Hsub & Hdone & Hrdy & Hhand & Hpipe & Hgo & Hon & Hzero & Hpast & Hfin).
  destruct t; cbn in Hstep.
  - (* start moves on *)
    destruct (main s) as [|a rest] eqn:Hmain; [discriminate|].
    injection Hstep as <-. unfold stdin_inv. cbn.
    destruct Hlast as [Hcancel Hlast].
    assert (Hctx : ctx_done s = false).
    { destruct (ctx_done s); [|reflexivity]. by specialize (Hdone eq_refl). }
    assert (Hrun : forall P : Prop, ready s = false -> 
              (notifier s = Some CheckReady \/ notifier s = Some Finished) -> P).
    { intros P Hr Hn. specialize (Hpast Hn Hr). congruence. }
    split; [exact Hlast|]. split.
    { intros b Hb. apply Hsub. by apply list_elem_of_further. }
    split; [rewrite Hctx; exact Hcancel|]. split.
    { intros Hr. apply orb_true_iff in Hr as [Hr | Hr]; [by apply Hrdy|].
      apply Hsub. destruct a; try discriminate. apply list_elem_of_here. }
    split.
    { intros wc Hwc. destruct (stdin_of a) as [wc0|] eqn:Ha.
      - injection Hwc as <-. exists a. split; [|exact Ha].
        apply Hsub, list_elem_of_here.
      - by apply Hhand. }
    split; [exact Hpipe|]. split; [exact Hgo|]. split.
    { intros Ho. destruct (Hon Ho) as [Hn Hh]. split; [exact Hn|].
      destruct (stdin_of a); [by eexists | exact Hh]. }
    split; [exact Hzero|]. split.
    { intros Hn Hr. apply orb_false_iff in Hr as [Hr _]. by apply (Hrun _ Hr). }
    intros Hn. destruct (ready s) eqn:Hr; [by apply Hfin|].
    apply (Hrun _ eq_refl). by right.
  - (* a close request *)
    destruct (handed s) as [wc|] eqn:Hh; [|discriminate].
    injection Hstep as <-.
    destruct (Hhand wc eq_refl) as (a & Ha & Hwc).
    destruct (Hwrap a wc (Ha) Hwc) as [inner ->].
    unfold Close. destruct (stdinOnce s) eqn:Honce; [exact Hinv|].
    unfold stdin_inv. cbn.
    assert (Hnone : notifier s = None) by by apply Hgo.
    split; [exact Hlast|]. split; [exact Hsub|]. split; [exact Hdone|].
    split; [exact Hrdy|].
    split; [exact (proj1 (proj2 (proj2 (proj2 (proj2 Hinv)))))|].
    split; [by rewrite Hpipe|]. split; [done|].
    split; [intros _; split; by eexists|].
    split; [intros _; apply Hzero; by auto|].
    split; [intros [Hn | Hn]; discriminate | discriminate].
  - (* the goroutine moves on *)
    destruct (notifier s) as [[| |]|] eqn:Hn; try discriminate.
    + destruct (ready s || ctx_done s) eqn:Hor; [|discriminate].
      injection Hstep as <-. unfold stdin_inv. cbn.
      split; [exact Hlast|]. split; [exact Hsub|]. split; [exact Hdone|].
      split; [exact Hrdy|]. split; [exact Hhand|]. split; [exact Hpipe|].
      split; [intros Ho; specialize (Hgo Ho); congruence|].
      split.
      { intros Ho. destruct (Hon Ho) as [_ Hh]. split; [by eexists | exact Hh]. }
      split; [intros _; apply Hzero; by auto|].
      split; [|discriminate].
      intros _ Hr. rewrite Hr in Hor. exact Hor.
    + injection Hstep as <-. unfold stdin_inv. cbn.
      assert (Hz : sent s = 0) by (apply Hzero; by auto).
      split; [exact Hlast|]. split; [exact Hsub|]. split; [exact Hdone|].
      split; [exact Hrdy|]. split; [exact Hhand|]. split; [exact Hpipe|].
      split; [intros Ho; specialize (Hgo Ho); congruence|].
      split.
      { intros Ho. destruct (Hon Ho) as [_ Hh]. split; [by eexists | exact Hh]. }
      split; [intros [H | [H | H]]; discriminate|].
      split; [intros _; apply Hpast; by left|].
      intros _. rewrite Hz. by destruct (ready s).
Qed.

Lemma run_stdin_inv todo ts : forall s s',
  hands_out_wrappers todo ->
  stdin_inv todo s -> run ts s = Some s' -> stdin_inv todo s'.
Proof.
  induction ts as [|t ts IH]; intros s s' Hwrap Hinv Hrun; cbn in Hrun.
  - by injection Hrun as <-.
  - destruct (step t s) as [s1|] eqn:Hstep; [|discriminate].
    exact (IH s1 s' Hwrap (step_stdin_inv todo t s s1 Hwrap Hinv Hstep) Hrun).
Qed.

Lemma run_app ts1 : forall ts2 s s1 s2,
  run ts1 s = Some s1 -> run ts2 s1 = Some s2 -> run (ts1 ++ ts2) s = Some s2.
Proof.
  induction ts1 as [|t ts1 IH]; intros ts2 s s1 s2 H1 H2; cbn in H1 |- *.
  - by injection H1 as ->.
  - destruct (step t s) as [s'|]; [|discriminate]. by eapply IH.
Qed.

(** [ready], once closed, stays closed. *)
Lemma step_ready t s s' : step t s = Some s' -> ready s = true -> ready s' = true.
Proof.
  intros Hstep Hr. destruct t; cbn in Hstep.
  - destruct (main s); [discriminate|]. injection Hstep as <-. cbn. by rewrite Hr.
  - destruct (handed s) as [[p|inner]|]; [| |discriminate];
      injection Hstep as <-; cbn; [done|]. by destruct (stdinOnce s).
  - destruct (notifier s) as [[| |]|]; try discriminate.
    + destruct (ready s || ctx_done s); [|discriminate]. by injection Hstep as <-.
    + by injection Hstep as <-.
Qed.

Lemma run_ready ts : forall s s',
  run ts s = Some s' -> ready s = true -> ready s' = true.
Proof.
  induction ts as [|t ts IH]; intros s s' Hrun Hr; cbn in Hrun.
  - by injection Hrun as <-.
  - destruct (step t s) as [s1|] eqn:Hstep; [|discriminate].
    exact (IH s1 s' Hrun (step_ready t s s1 Hstep Hr)).
Qed.

Lemma step_abandoned t s s' : abandoned s -> step t s = Some s' -> abandoned s'.
Proof.
  intros (Hc & Hr & Hm & Hs) Hstep. destruct t; cbn in Hstep.
  - rewrite Hm in Hstep. discriminate.
  - destruct (handed s) as [[p|inner]|]; [| |discriminate];
      injection Hstep as <-; cbn; [by repeat split|].
    destruct (stdinOnce s); by repeat split.
  - destruct (notifier s) as [[| |]|]; try discriminate.
    + destruct (ready s || ctx_done s); [|discriminate].
      injection Hstep as <-. by repeat split.
    + injection Hstep as <-. unfold abandoned. cbn. rewrite Hr. by repeat split.
Qed.

Lemma run_abandoned ts : forall s s',
  abandoned s -> run ts s = Some s' -> abandoned s'.
Proof.
  induction ts as [|t ts IH]; intros s s' Hab Hrun; cbn in Hrun.
  - by injection Hrun as <-.
  - destruct (step t s) as [s1|] eqn:Hstep; [|discriminate].
    exact (IH s1 s' (step_abandoned t s s1 Hab Hstep) Hrun).
Qed.

(** [start] cancels its context last, and closes [ready] only after the
    create call has come back without an error. *)
Lemma start_cancels_last N X ctr ck ckd attach w :
  cancel_is_last (actions_of_start N X ctr ck ckd attach w).
Proof.
  pose proof (start_cases N X ctr ck ckd attach w) as Hc.
  remember (start N X ctr ck ckd attach w).1.1 as res eqn:Hres.
  remember (start N X ctr ck ckd attach w).1.2 as ctr' eqn:Hctr.
  remember (actions_of_start N X ctr ck ckd attach w) as tr eqn:Htr.
  clear Hres Hctr Htr.
  destruct Hc; cbn; repeat split; try done; discriminate.
Qed.

Lemma start_ready_after_ack N X ctr ck ckd attach w :
  ActCloseReady ∈ actions_of_start N X ctr ck ckd attach w ->
  exists resp i j,
    CreateContainer X (create_request X ctr ck ckd w) = inl resp
    /\ actions_of_start N X ctr ck ckd attach w !! i
       = Some (ActCreateContainer (create_request X ctr ck ckd w))
    /\ actions_of_start N X ctr ck ckd attach w !! j = Some ActCloseReady
    /\ i < j.
Proof.
  pose proof (start_cases N X ctr ck ckd attach w) as Hc.
  remember (start N X ctr ck ckd attach w).1.1 as res eqn:Hres.
  remember (start N X ctr ck ckd attach w).1.2 as ctr' eqn:Hctr.
  remember (actions_of_start N X ctr ck ckd attach w) as tr eqn:Htr.
  clear Hres Hctr Htr. intros Hin.
  destruct Hc as [err Hs | sp err Hs Hf | sp io err Hs Hf Ha
                 | sp io err Hs Hf Ha Hr | sp io resp Hs Hf Ha Hr];
    try (repeat (apply elem_of_cons in Hin as [Hin|Hin]; [discriminate|]);
         by apply elem_of_nil in Hin).
  exists resp, 3, 4. repeat split; try done. lia.
Qed.

(** The stdin that [start] hands to the callback is the wrapper around
    the stdin that [openFifos] answered. *)
Lemma start_hands_out_wrapper N X ctr ck ckd attach w a wc :
  a ∈ actions_of_start N X ctr ck ckd attach w ->
  stdin_of a = Some wc ->
  exists sp io,
    spec N X ctr w = inl sp
    /\ fifos_opened X (dir ctr) (friendlyName ctr) (Process_Terminal sp) = inl io
    /\ wc = DelayedClose (io_Stdin io).
Proof.
  pose proof (start_cases N X ctr ck ckd attach w) as Hc.
  remember (start N X ctr ck ckd attach w).1.1 as res eqn:Hres.
  remember (start N X ctr ck ckd attach w).1.2 as ctr' eqn:Hctr.
  remember (actions_of_start N X ctr ck ckd attach w) as tr eqn:Htr.
  clear Hres Hctr Htr. intros Hin Hwc.
  destruct Hc as [err Hs | sp err Hs Hf | sp io err Hs Hf Ha
                 | sp io err Hs Hf Ha Hr | sp io resp Hs Hf Ha Hr];
    repeat (apply elem_of_cons in Hin as [-> | Hin];
            [first [discriminate Hwc
                   | injection Hwc as <-; by exists sp, io] |]);
    by apply elem_of_nil in Hin.
Qed.

Lemma start_hands_out_wrappers N X ctr ck ckd attach w :
  hands_out_wrappers (actions_of_start N X ctr ck ckd attach w).
Proof.
  intros a wc Hin Hwc.
  destruct (start_hands_out_wrapper N X ctr ck ckd attach w a wc Hin Hwc)
    as (sp & io & _ & _ & ->).
  by eexists.
Qed.

(** C9.  In every state that the writer handed to the callback, the
    goroutine of its closure and [start] can reach together.  The writer
    is the wrapper that [start] puts around the opened stdin.  The pipe
    has been closed exactly when a close request has been made: the first
    request closes it in that very step and sends nothing, a later one
    changes nothing.  The "stdin closed" notification is sent at most
    once, and only when [ready] is closed, which [start] does after the
    create call has returned without error.  Until then, and as long as
    [start] has not returned, a goroutine that a close request has
    spawned waits and has sent nothing.  Once [ready] is closed, the
    goroutine can run to its end and whenever it has ended the
    notification has been sent.  And once the context is canceled with
    [ready] still open, no continuation ever sends the notification. *)
Theorem stdin_close_notification_deferred N X ctr ck ckd attach w ts s :
  run ts (init_stdin (actions_of_start N X ctr ck ckd attach w)) = Some s ->
  (forall wc, handed s = Some wc ->
     exists sp io,
       spec N X ctr w = inl sp
       /\ fifos_opened X (dir ctr) (friendlyName ctr) (Process_Terminal sp) = inl io
       /\ wc = DelayedClose (io_Stdin io))
  /\ pipe_closes s = (if stdinOnce s then 1 else 0)
  /\ (is_Some (handed s) -> stdinOnce s = false ->
      exists s', step CloseRequest s = Some s'
                 /\ stdinOnce s' = true /\ pipe_closes s' = 1
                 /\ sent s' = 0)
  /\ (stdinOnce s = true -> step CloseRequest s = Some s)
  /\ sent s <= 1
  /\ (sent s = 1 ->
      ready s = true
      /\ exists resp,
           CreateContainer X (create_request X ctr ck ckd w) = inl resp)
  /\ (stdinOnce s = true -> ready s = false -> ctx_done s = false ->
      sent s = 0 /\ step NotifierStep s = None)
  /\ (stdinOnce s = true -> ready s = true ->
      (exists n s', n <= 2
         /\ run (replicate n NotifierStep) s = Some s'
         /\ notifier s' = Some Finished /\ sent s' = 1)
      /\ forall ts' s', run ts' s = Some s' ->
           notifier s' = Some Finished -> sent s' = 1)
  /\ (ctx_done s = true -> ready s = false ->
      forall ts' s', run ts' s = Some s' -> sent s' = 0).
Proof.
  intros Hrun.
  pose proof (start_hands_out_wrappers N X ctr ck ckd attach w) as Hwrap.
  pose proof (init_stdin_inv _ (start_cancels_last N X ctr ck ckd attach w)) as Hinit.
  pose proof (run_stdin_inv _ ts _ s Hwrap Hinit Hrun)
    as (Hlast & Hsub & Hdone & Hrdy & Hhand & Hpipe & Hgo & Hon & Hzero & Hpast & Hfin).
  assert (Hle : sent s <= 1).
  { destruct (notifier s) as [[| |]|] eqn:Hn.
    - rewrite Hzero by auto. lia.
    - rewrite Hzero by auto. lia.
    - rewrite (Hfin eq_refl). destruct (ready s); lia.
    - rewrite Hzero by auto. lia. }
  assert (Hsent : sent s = 1 -> ready s = true).
  { intros Hs. destruct (notifier s) as [[| |]|] eqn:Hn;
      try (rewrite Hzero in Hs by auto; discriminate).
    rewrite (Hfin eq_refl) in Hs. by destruct (ready s). }
  assert (Hwc : forall wc, handed s = Some wc ->
                  exists sp io,
                    spec N X ctr w = inl sp
                    /\ fifos_opened X (dir ctr) (friendlyName ctr)
                         (Process_Terminal sp) = inl io
                    /\ wc = DelayedClose (io_Stdin io)).
  { intros wc Hh. destruct (Hhand wc Hh) as (a & Ha & Hs).
    exact (start_hands_out_wrapper N X ctr ck ckd attach w a wc Ha Hs). }
  split; [exact Hwc|]. split; [exact Hpipe|].
  split; [|split; [|split; [exact Hle|split; [|split; [|split]]]]].
  - intros [wc Hh] Honce. destruct (Hwc wc Hh) as (sp & io & _ & _ & ->).
    cbn. rewrite Hh. cbn. rewrite Honce. eexists. split; [reflexivity|]. cbn.
    rewrite Hpipe, Honce. repeat split. apply Hzero. right. right. by apply Hgo.
  - intros Honce. destruct (Hon Honce) as [_ [wc Hh]].
    destruct (Hwc wc Hh) as (sp & io & _ & _ & ->).
    cbn. rewrite Hh. cbn. by rewrite Honce.
  - intros Hs. specialize (Hsent Hs). split; [exact Hsent|].
    destruct (start_ready_after_ack N X ctr ck ckd attach w (Hrdy Hsent))
      as (resp & _ & _ & Hresp & _).
    by exists resp.
  - intros Honce Hr Hc. destruct (Hon Honce) as [[pc Hn] _].
    destruct pc.
    + split; [apply Hzero; by left|]. cbn. by rewrite Hn, Hr, Hc.
    + assert (ctx_done s = true) by (apply Hpast; auto). congruence.
    + assert (ctx_done s = true) by (apply Hpast; auto). congruence.
  - intros Honce Hr. split.
    + destruct (Hon Honce) as [[pc Hn] _]. destruct pc.
      * exists 2. eexists. split; [lia|]. cbn. rewrite Hn, Hr. cbn.
        split; [reflexivity|]. cbn. rewrite ?Hr.
        split; [reflexivity|]. rewrite Hzero by auto. reflexivity.
      * exists 1. eexists. split; [lia|]. cbn. rewrite Hn.
        split; [reflexivity|]. cbn. rewrite ?Hr.
        split; [reflexivity|]. rewrite Hzero by auto. reflexivity.
      * exists 0, s. split; [lia|]. split; [reflexivity|].
        split; [exact Hn|]. rewrite (Hfin Hn), Hr. reflexivity.
    + intros ts' s' Hrun' Hn'.
      pose proof (run_stdin_inv _ (ts ++ ts') _ s' Hwrap Hinit
                    (run_app ts ts' _ s s' Hrun Hrun'))
        as (_ & _ & _ & _ & _ & _ & _ & _ & _ & _ & Hfin').
      rewrite (Hfin' Hn'), (run_ready ts' s s' Hrun' Hr). reflexivity.
  - intros Hc Hr ts' s' Hrun'.
    assert (Hab : abandoned s).
    { repeat split; try done; [by apply Hdone|].
      destruct (sent s) as [|n] eqn:Hs; [reflexivity|].
      assert (n = 0) by lia. subst n. specialize (Hsent eq_refl). congruence. }
    by destruct (run_abandoned ts' s s' Hab Hrun') as (_ & _ & _ & ?).
Qed.

Lemma stdin_close_notification_deferred_witness :
  exists s,
    run [MainStep; MainStep; MainStep; CloseRequest; MainStep; MainStep;
         NotifierStep; NotifierStep]
        (init_stdin (actions_of_start sample_names (sample_externals true true true)
                       sample_ctr "" "" attach_ok sample_world)) = Some s
    /\ handed s = Some (DelayedClose (Fifo "/run/docker/c1/init-stdin"))
    /\ pipe_closes s = 1 /\ sent s = 1 /\ ready s = true.
Proof.
  eexists. split; [vm_compute; reflexivity|].
  split; [vm_compute; reflexivity|].
  match goal with
  | |- pipe_closes ?s = 1 /\ _ =>
      pose proof (stdin_close_notification_deferred sample_names
                    (sample_externals true true true) sample_ctr "" "" attach_ok
                    sample_world
                    [MainStep; MainStep; MainStep; CloseRequest; MainStep; MainStep;
                     NotifierStep; NotifierStep] s ltac:(vm_compute; reflexivity))
        as (_ & Hp & _ & _ & _ & Hs & _)
  end.
  split; [exact Hp|]. split; [reflexivity|].
  exact (proj1 (Hs eq_refl)).
Defined.

(** The close request comes before the create call is acknowledged: the
    pipe is closed at once, the goroutine cannot move, and nothing has
    been sent. *)
Example stdin_close_waits_for_ack :
  exists s,
    run [MainStep; MainStep; MainStep; CloseRequest; MainStep]
        (init_stdin (actions_of_start sample_names (sample_externals true true true)
                       sample_ctr "" "" attach_ok sample_world)) = Some s
    /\ pipe_closes s = 1 /\ ready s = false /\ sent s = 0
    /\ step NotifierStep s = None.
Proof. eexists. split; [vm_compute; reflexivity|]. by repeat split. Qed.

(** The other way: the callback fails after stdin was closed, [start]
    returns, and the goroutine gives up without notifying the shim. *)
Example stdin_close_abandoned :
  exists s,
    run [MainStep; MainStep; MainStep; CloseRequest; MainStep; MainStep;
         NotifierStep; NotifierStep]
        (init_stdin (actions_of_start sample_names (sample_externals true true true)
                       sample_ctr "" "" attach_fails sample_world)) = Some s
    /\ pipe_closes s = 1 /\ sent s = 0 /\ notifier s = Some Finished.
Proof. eexists. split; [vm_compute; reflexivity|]. by repeat split. Qed.

End LibcontainerdProps.

(** * More on the container: start, clean, cleanProcess, handleEvent *)

Module ContainerProps.
Import Libcontainerd ContainerMore.
Local Open Scope list_scope.

(** ** [start] *)

(** How [start] can return nil. *)
Lemma start_nil_inv N X ctr ck ckd attach w ctr' w' :
  start N X ctr ck ckd attach w = (None, ctr', w') ->
  (exists e, spec N X ctr w = inr e /\ ctr' = ctr /\ w' = w)
  \/ (exists sp io resp,
        spec N X ctr w = inl sp
        /\ fifos_opened X (dir ctr) (friendlyName ctr) (Process_Terminal sp) = inl io
        /\ attach (wrap_stdin io) = None
        /\ CreateContainer X (create_request X ctr ck ckd w) = inl resp
        /\ ctr' = set_systemPid (apiSystemPid X resp) ctr
        /\ StateChanged X (containerID ctr) (start_report N ctr') = None
        /\ containers w' = <[containerID ctr := addr ctr]> (containers w)
        /\ fs w' = fs (openFifos X (dir ctr) (friendlyName ctr)
                         (Process_Terminal sp) w).2
        /\ env w' = env w
        /\ ActCreateContainer (create_request X ctr ck ckd w) ∈ log w'
        /\ ActStateChanged (containerID ctr) (start_report N ctr') ∈ log w').
Proof.
  unfold start.
  destruct (spec N X ctr w) as [sp|e] eqn:Hspec.
  2:{ intros [= <- <-]. left. by exists e. }
  rewrite LibcontainerdProps.start_body_fifos.
  pose proof (LibcontainerdProps.openFifos_frame X (dir ctr) (friendlyName ctr)
                (Process_Terminal sp) w) as (He & _ & Hc & _).
  set (wf := (openFifos X (dir ctr) (friendlyName ctr) (Process_Terminal sp) w).2) in *.
  assert (Hwf : fs wf = fs (openFifos X (dir ctr) (friendlyName ctr)
                              (Process_Terminal sp) w).2) by done.
  clearbody wf.
  destruct (fifos_opened X (dir ctr) (friendlyName ctr) (Process_Terminal sp))
    as [io|e] eqn:Hio; [|discriminate].
  cbn zeta.
  destruct (attach (wrap_stdin io)) as [e|] eqn:Hattach; [discriminate|].
  destruct (CreateContainer X (create_request X ctr ck ckd w)) as [resp|e] eqn:Hrpc;
    [|discriminate].
  intros [= Hsc <- <-]. right. exists sp, io, resp.
  do 6 (split; [done|]). cbn. rewrite Hc, He.
  split; [done|]. split; [done|]. split; [done|]. split.
  - do 4 (apply elem_of_app; left). apply elem_of_app. right. apply list_elem_of_here.
  - apply elem_of_app. left. apply elem_of_app. right. apply list_elem_of_here.
Qed.

(** X11.  [start] registers the container before it invokes the stdio
    callback and does not take the registration back itself: a [start]
    that fails at the callback or at the create call returns with the
    container in the live table, while one that fails at the fifos leaves
    the table as it was.  In all three cases the error is the one of the
    failing step and the container object is unchanged. *)
Theorem start_failure_registration N X ctr ck ckd attach w at_step err :
  step_fails N X ctr ck ckd attach w at_step err ->
  (start N X ctr ck ckd attach w).1 = (Some err, ctr)
  /\ containers (start N X ctr ck ckd attach w).2
     = match at_step with
       | AtOpenFifos => containers w
       | _ => <[containerID ctr := addr ctr]> (containers w)
       end.
Proof.
  intros [sp [Hspec Hstep]]. unfold start.
  rewrite Hspec, LibcontainerdProps.start_body_fifos.
  pose proof (LibcontainerdProps.openFifos_frame X (dir ctr) (friendlyName ctr)
                (Process_Terminal sp) w) as (_ & _ & Hc & _).
  set (wf := (openFifos X (dir ctr) (friendlyName ctr) (Process_Terminal sp) w).2) in *.
  clearbody wf.
  destruct at_step; cbn in Hstep.
  - rewrite Hstep. cbn. by rewrite Hc.
  - destruct Hstep as [io [Hio Hattach]]. cbn zeta. rewrite Hio, Hattach. cbn.
    by rewrite Hc.
  - destruct Hstep as [io [Hio [Hattach Hrpc]]]. cbn zeta.
    rewrite Hio, Hattach, Hrpc. cbn. by rewrite Hc.
Qed.

Lemma start_failure_registration_witness :
  containers (start sample_names (sample_externals true false true) sample_ctr
                "" "" attach_ok
                (deleteContainer "c1" sample_world)).2 !! "c1" = Some 1
  /\ containers (start sample_names (sample_externals false true true) sample_ctr
                   "" "" attach_ok
                   (deleteContainer "c1" sample_world)).2 !! "c1" = None.
Proof.
  destruct (start_failure_registration sample_names
              (sample_externals true false true) sample_ctr "" "" attach_ok
              (deleteContainer "c1" sample_world) AtCreateRPC
              (ErrorString "rpc error: connection refused")
              ltac:(exists {| Process_Terminal := false |};
                    split; [vm_compute; reflexivity|];
                    exists (sample_pipes "/run/docker/c1" "init");
                    repeat split; vm_compute; reflexivity)) as [_ H1].
  destruct (start_failure_registration sample_names
              (sample_externals false true true) sample_ctr "" "" attach_ok
              (deleteContainer "c1" sample_world) AtOpenFifos
              (ErrorString "context deadline exceeded")
              ltac:(exists {| Process_Terminal := false |};
                    split; vm_compute; reflexivity)) as [_ H2].
  rewrite H1, H2. split; vm_compute; reflexivity.
Defined.

(** X12.  When [start] returns nil and the specification was readable,
    the shim has answered the create call, the container carries the
    system pid of that answer and is otherwise unchanged, it is registered
    under its id, and the backend has been told StateStart with that pid
    and has accepted it.  The disk is the one [openFifos] has left: it has
    lost nothing, and it has changed at most at the three stdio pipes of
    the container. *)
Theorem start_success N X ctr ck ckd attach w sp :
  spec N X ctr w = inl sp ->
  (start N X ctr ck ckd attach w).1.1 = None ->
  exists resp,
    CreateContainer X (create_request X ctr ck ckd w) = inl resp
    /\ (start N X ctr ck ckd attach w).1.2 = set_systemPid (apiSystemPid X resp) ctr
    /\ systemPid (start N X ctr ck ckd attach w).1.2 = apiSystemPid X resp
    /\ containers (start N X ctr ck ckd attach w).2 !! containerID ctr
       = Some (addr ctr)
    /\ fs (start N X ctr ck ckd attach w).2
       = fs (openFifos X (dir ctr) (friendlyName ctr) (Process_Terminal sp) w).2
    /\ (forall p n, fs w !! p = Some n ->
          fs (start N X ctr ck ckd attach w).2 !! p = Some n)
    /\ (forall p,
          p ∉ map (ctr_fifo X ctr) [syscall_Stdin; syscall_Stdout; syscall_Stderr] ->
          fs (start N X ctr ck ckd attach w).2 !! p = fs w !! p)
    /\ StateChanged X (containerID ctr)
         {| State := StateStart N; Pid := apiSystemPid X resp; ExitCode := 0;
            ProcessID := ""; OOMKilled := false |} = None
    /\ ActStateChanged (containerID ctr)
         {| State := StateStart N; Pid := apiSystemPid X resp; ExitCode := 0;
            ProcessID := ""; OOMKilled := false |}
         ∈ log (start N X ctr ck ckd attach w).2.
Proof.
  intros Hspec Hnil.
  destruct (LibcontainerdProps.start_fs N X ctr ck ckd attach w) as [Hkeep Hother].
  destruct (start N X ctr ck ckd attach w) as [[res ctr'] w'] eqn:Hs.
  cbn in Hnil. subst res.
  destruct (start_nil_inv N X ctr ck ckd attach w ctr' w' Hs)
    as [(e & He & _)
       | (sp0 & io & resp & Hsp0 & _ & _ & Hrpc & -> & Hsc & Hc & Hfs & _ & _ & Hlog)];
    [congruence|].
  assert (sp0 = sp) as -> by congruence.
  exists resp. cbn [fst snd] in *.
  split; [exact Hrpc|]. split; [reflexivity|]. split; [reflexivity|].
  split; [rewrite Hc; apply lookup_insert_eq|].
  split; [exact Hfs|]. split; [exact Hkeep|]. split; [exact Hother|].
  split; [exact Hsc | exact Hlog].
Qed.

Lemma start_success_witness :
  systemPid (start sample_names (sample_externals true true true) sample_ctr
               "" "" attach_ok sample_world).1.2 = 4242%Z
  /\ fs (start sample_names (sample_externals true true true) sample_ctr
           "" "" attach_ok sample_world).2 !! "/run/docker/c1/init-stdout"
     = Some named_pipe.
Proof.
  destruct (start_success sample_names (sample_externals true true true)
              sample_ctr "" "" attach_ok sample_world
              {| Process_Terminal := false |}
              ltac:(vm_compute; reflexivity) ltac:(vm_compute; reflexivity))
    as (resp & Hrpc & _ & Hpid & _ & Hfs & _).
  rewrite Hpid, Hfs. injection Hrpc as <-. split; vm_compute; reflexivity.
Defined.

(** ** [clean] *)

Lemma under_refl d : under d d = true.
Proof. unfold under. by rewrite String.eqb_refl. Qed.

(** X13.  [clean] touches nothing outside the container's directory, and
    cleaning again after a [clean] that returned nil is a no-op that
    returns nil. *)
Theorem clean_local_and_idempotent ctr w :
  (forall p, under (dir ctr) p = false -> fs (clean ctr w).2 !! p = fs w !! p)
  /\ ((clean ctr w).1 = None ->
      clean ctr (clean ctr w).2 = (None, (clean ctr w).2)).
Proof.
  destruct (String.eqb (os_Getenv w "LIBCONTAINERD_NOCLEAN") "1") eqn:Henv.
  { assert (Hc : clean ctr w = (None, w)) by (unfold clean; by rewrite Henv).
    rewrite !Hc. cbn. by rewrite Hc. }
  destruct (os_Lstat w (dir ctr)) as [err|] eqn:Hl.
  { destruct (IsNotExist err) eqn:Hne.
    - assert (Hc : clean ctr w = (None, w))
        by (unfold clean; by rewrite Henv, Hl, Hne).
      rewrite !Hc. cbn. by rewrite Hc.
    - assert (Hc : clean ctr w = (Some err, w))
        by (unfold clean; by rewrite Henv, Hl, Hne).
      rewrite !Hc. by split. }
  destruct (faults w !! ("remove", dir ctr)) as [code|] eqn:Hr.
  { assert (Hc : clean ctr w = (Some (PathError "unlinkat" (dir ctr) code), w))
      by (unfold clean, os_RemoveAll; by rewrite Henv, Hl, Hr).
    rewrite !Hc. by split. }
  set (w' := set_fs (filter (λ kv : string * node, under (dir ctr) kv.1 = false)
                       (fs w)) w).
  assert (Hc : clean ctr w = (None, w'))
    by (unfold clean, os_RemoveAll; by rewrite Henv, Hl, Hr).
  rewrite !Hc. cbn [fst snd]. split.
  - intros p Hp. cbn. destruct (fs w !! p) eqn:Hfp.
    + apply map_lookup_filter_Some. by split.
    + apply map_lookup_filter_None. by left.
  - intros _.
    assert (Hgone : fs w' !! dir ctr = None).
    { cbn. apply map_lookup_filter_None. right. intros x _. cbn.
      rewrite under_refl. discriminate. }
    assert (Hl' : os_Lstat w' (dir ctr) = Some (PathError "lstat" (dir ctr) ENOENT)).
    { unfold os_Lstat in *. change (faults w') with (faults w).
      destruct (faults w !! ("lstat", dir ctr)); [discriminate|]. by rewrite Hgone. }
    unfold clean. change (os_Getenv w' "LIBCONTAINERD_NOCLEAN")
      with (os_Getenv w "LIBCONTAINERD_NOCLEAN").
    by rewrite Henv, Hl'.
Qed.

Lemma clean_local_and_idempotent_witness :
  clean sample_ctr (clean sample_ctr sample_world).2
  = (None, (clean sample_ctr sample_world).2).
Proof.
  apply (proj2 (clean_local_and_idempotent sample_ctr sample_world)).
  vm_compute. reflexivity.
Defined.

(** ** [cleanProcess] *)

Lemma set_processes_same ctr : set_processes (processes ctr) ctr = ctr.
Proof. by destruct ctr. Qed.

(** X14.  [cleanProcess] always takes the process out of the registry,
    whether or not its pipes could be removed, and keeps all other
    processes; for an id that is not registered it changes neither the
    container nor the world; and cleaning the same process a second time
    changes nothing. *)
Theorem cleanProcess_registry X ctr id w :
  processes (cleanProcess X ctr id w).1 !! id = None
  /\ (forall id', id' ≠ id ->
        processes (cleanProcess X ctr id w).1 !! id' = processes ctr !! id')
  /\ (processes ctr !! id = None -> cleanProcess X ctr id w = (ctr, w))
  /\ cleanProcess X (cleanProcess X ctr id w).1 id (cleanProcess X ctr id w).2
     = cleanProcess X ctr id w.
Proof.
  assert (Hnone : forall c w0, processes c !! id = None ->
                    cleanProcess X c id w0 = (c, w0)).
  { intros c w0 H. unfold cleanProcess. rewrite H, (delete_id _ _ H).
    by rewrite set_processes_same. }
  split; [apply lookup_delete_eq|]. split; [|split; [apply Hnone|]].
  - intros id' Hne. cbn. by apply lookup_delete_ne.
  - rewrite (Hnone (cleanProcess X ctr id w).1); [by destruct (cleanProcess _ _ _ _)|].
    apply lookup_delete_eq.
Qed.

Lemma cleanProcess_registry_witness :
  cleanProcess (sample_externals true true true) sample_ctr "p2" sample_world
  = (sample_ctr, sample_world).
Proof.
  apply (proj1 (proj2 (proj2 (cleanProcess_registry
                                (sample_externals true true true)
                                sample_ctr "p2" sample_world)))).
  vm_compute. reflexivity.
Defined.

Lemma remove_fifo_ok X p id w i :
  faults w !! ("remove", fifo X (p_dir p) (p_friendlyName p) i) = None ->
  fs (remove_fifo X p id w i) = delete (fifo X (p_dir p) (p_friendlyName p) i) (fs w)
  /\ log (remove_fifo X p id w i) = log w
  /\ faults (remove_fifo X p id w i) = faults w.
Proof.
  intros Hf. unfold remove_fifo, os_Remove. rewrite Hf.
  destruct (fs w !! _) eqn:Hp; cbn; [done|].
  by rewrite (delete_id _ _ Hp).
Qed.

(** X15.  When the operating system does not refuse, [cleanProcess] removes
    exactly the three stdio pipes of the process from the disk (a pipe
    that is already gone is not an error) and logs nothing. *)
Theorem cleanProcess_removes_fifos X ctr id p w :
  processes ctr !! id = Some p ->
  (forall path, path ∈ process_fifos X p -> faults w !! ("remove", path) = None) ->
  (forall path, path ∈ process_fifos X p ->
     fs (cleanProcess X ctr id w).2 !! path = None)
  /\ (forall path, path ∉ process_fifos X p ->
        fs (cleanProcess X ctr id w).2 !! path = fs w !! path)
  /\ log (cleanProcess X ctr id w).2 = log w.
Proof.
  intros Hp Hnf. unfold cleanProcess. rewrite Hp. cbn [snd fold_left].
  set (f := fifo X (p_dir p) (p_friendlyName p)).
  assert (Hin : forall i, i ∈ [syscall_Stdin; syscall_Stdout; syscall_Stderr] ->
                  f i ∈ process_fifos X p).
  { intros i Hi. unfold process_fifos. apply list_elem_of_fmap. by exists i. }
  destruct (remove_fifo_ok X p id w syscall_Stdin) as (Hfs0 & Hl0 & Hf0).
  { apply Hnf, Hin. apply list_elem_of_here. }
  set (w0 := remove_fifo X p id w syscall_Stdin) in *.
  destruct (remove_fifo_ok X p id w0 syscall_Stdout) as (Hfs1 & Hl1 & Hf1).
  { rewrite Hf0. apply Hnf, Hin. apply list_elem_of_further, list_elem_of_here. }
  set (w1 := remove_fifo X p id w0 syscall_Stdout) in *.
  destruct (remove_fifo_ok X p id w1 syscall_Stderr) as (Hfs2 & Hl2 & Hf2).
  { rewrite Hf1, Hf0. apply Hnf, Hin.
    do 2 apply list_elem_of_further. apply list_elem_of_here. }
  fold f in Hfs0, Hfs1, Hfs2.
  rewrite Hfs2, Hfs1, Hfs0, Hl2, Hl1, Hl0.
  split; [|split; [|reflexivity]].
  - intros path Hpath. unfold process_fifos in Hpath. fold f in Hpath. cbn in Hpath.
    rewrite !lookup_delete_None.
    repeat (apply elem_of_cons in Hpath as [-> | Hpath]; [by auto|]).
    by apply elem_of_nil in Hpath.
  - intros path Hpath. unfold process_fifos in Hpath. fold f in Hpath. cbn in Hpath.
    apply not_elem_of_cons in Hpath as [H0 Hpath].
    apply not_elem_of_cons in Hpath as [H1 Hpath].
    apply not_elem_of_cons in Hpath as [H2 _].
    by rewrite !lookup_delete_ne.
Qed.

Lemma cleanProcess_removes_fifos_witness :
  fs (cleanProcess (sample_externals true true true) sample_ctr "p1" sample_world).2
     !! "/run/docker/c1/p1-stdin" = None
  /\ fs (cleanProcess (sample_externals true true true) sample_ctr "p1"
           sample_world).2 !! "/run/docker/c1/config.json" = Some (File "{}").
Proof.
  destruct (cleanProcess_removes_fifos (sample_externals true true true) sample_ctr
              "p1" (newProcess sample_ctr "p1") sample_world
              ltac:(vm_compute; reflexivity) ltac:(intros; reflexivity))
    as (Hgone & Hkept & _).
  split.
  - apply Hgone. apply list_elem_of_here.
  - rewrite Hkept; [vm_compute; reflexivity|].
    intros Hin. cbn in Hin.
    repeat (apply elem_of_cons in Hin as [Hin|Hin]; [discriminate|]).
    by apply elem_of_nil in Hin.
Defined.

(** ** [handleEvent] *)

Lemma handleEvent_queue_all N X ctr e w :
  q (handleEvent N X ctr e w).2
  = if is_lifecycle_event N (e_Type e)
    then <[e_Id e := default [] (q w !! e_Id e)
                     ++ [{| cb_e := e; cb_st := event_report N ctr e |}]]> (q w)
    else q w.
Proof.
  unfold handleEvent.
  destruct (is_lifecycle_event N (e_Type e)); [|done].
  destruct (String.eqb (State (event_report N ctr e)) (StateExit N)).
  { destruct (LibcontainerdProps.clean_frame
                (if String.eqb (e_Type e) (StateOOM N) then set_oom true ctr else ctr) w)
      as (_ & _ & Hq & _).
    destruct (clean _ w) as [r w']. cbn in Hq |- *. by rewrite Hq. }
  destruct (String.eqb (State (event_report N ctr e)) (StateExitProcess N)); [|done].
  destruct (LibcontainerdProps.cleanProcess_frame X
              (if String.eqb (e_Type e) (StateOOM N) then set_oom true ctr else ctr)
              (ProcessID (event_report N ctr e)) w) as [_ Hq].
  destruct (cleanProcess X _ _ w) as [c' w']. cbn in Hq |- *. by rewrite Hq.
Qed.

(** X16.  Reports are queued in the order in which the events are handled:
    after a sequence of events the callbacks pending under an id are those
    that were pending before, followed by one callback for each event of
    the sequence that bears this id and a recognized type, in the order of
    the sequence.  Events of other ids and of unrecognized types add
    nothing under the id. *)
Theorem handleEvents_report_order N X es : forall ctr w id,
  cb_e <$> default [] (q (handleEvents N X ctr es w).2 !! id)
  = (cb_e <$> default [] (q w !! id)) ++ reported_for N id es.
Proof.
  induction es as [|e es IH]; intros ctr w id.
  { cbn. by rewrite app_nil_r. }
  cbn [handleEvents].
  pose proof (handleEvent_queue_all N X ctr e w) as Hq.
  destruct (handleEvent N X ctr e w) as [[r ctr'] w']. cbn in Hq.
  rewrite IH, Hq. unfold reported_for. rewrite filter_cons.
  destruct (is_lifecycle_event N (e_Type e)) eqn:Hl.
  - destruct (decide (e_Id e = id)) as [<-|Hne].
    + rewrite lookup_insert_eq. cbn.
      rewrite decide_True by done.
      by rewrite fmap_app, <- app_assoc.
    + rewrite lookup_insert_ne by done.
      rewrite decide_False; [done|]. by intros [_ ?].
  - rewrite decide_False; [done|]. by intros [? _].
Qed.

(** X17.  A Pause, Resume or OOM event (a recognized type that is neither
    the Exit nor the ExitProcess name) removes nothing: the live table,
    the disk, the log and the process registry are untouched; only the
    report is queued, and the OOM flag is set if the event is an OOM
    event. *)
Theorem non_exit_event_keeps_state N X ctr e w :
  is_lifecycle_event N (e_Type e) = true ->
  e_Type e ≠ StateExit N ->
  e_Type e ≠ StateExitProcess N ->
  handleEvent N X ctr e w
  = (None,
     (if String.eqb (e_Type e) (StateOOM N) then set_oom true ctr else ctr),
     q_append (e_Id e)
       {| cb_e := e;
          cb_st := {| State := e_Type e; Pid := 0; ExitCode := e_Status e;
                      ProcessID := ""; OOMKilled := false |} |} w).
Proof.
  intros Hl Hne Hnp. unfold handleEvent. rewrite Hl.
  rewrite (LibcontainerdProps.event_report_no_exit N ctr e Hne). cbn [State ProcessID].
  apply String.eqb_neq in Hne. apply String.eqb_neq in Hnp.
  by rewrite Hne, Hnp.
Qed.

Lemma non_exit_event_keeps_state_witness :
  containers (handleEvent sample_names (sample_externals true true true) sample_ctr
                (sample_event "pause" "init") sample_world).2
  = containers sample_world
  /\ fs (handleEvent sample_names (sample_externals true true true) sample_ctr
           (sample_event "oom" "init") sample_world).2 = fs sample_world.
Proof.
  rewrite (non_exit_event_keeps_state sample_names (sample_externals true true true)
             sample_ctr (sample_event "pause" "init") sample_world
             ltac:(vm_compute; reflexivity) ltac:(vm_compute; discriminate)
             ltac:(vm_compute; discriminate)).
  rewrite (non_exit_event_keeps_state sample_names (sample_externals true true true)
             sample_ctr (sample_event "oom" "init") sample_world
             ltac:(vm_compute; reflexivity) ltac:(vm_compute; discriminate)
             ltac:(vm_compute; discriminate)).
  by split.
Defined.

End ContainerProps.

(** * Properties of the libcontainerd client *)

Module ClientProps.
Import Libcontainerd Client.
Local Open Scope list_scope.

Lemma fs_grows_refl w : fs_grows w w.
Proof. by intros p. Qed.

Lemma fs_grows_trans w1 w2 w3 : fs_grows w1 w2 -> fs_grows w2 w3 -> fs_grows w1 w3.
Proof. intros H12 H23 p Hp. by apply H23, H12. Qed.

Lemma fs_grows_insert w p n : fs_grows w (set_fs (<[p := n]> (fs w)) w).
Proof.
  intros p' Hp'. cbn. destruct (decide (p = p')) as [->|Hne].
  - rewrite lookup_insert_eq. by eexists.
  - by rewrite lookup_insert_ne.
Qed.

Lemma MkdirAs_frame p w :
  env (idtools_MkdirAs p w).2 = env w
  /\ faults (idtools_MkdirAs p w).2 = faults w
  /\ containers (idtools_MkdirAs p w).2 = containers w
  /\ log (idtools_MkdirAs p w).2 = log w
  /\ fs_grows w (idtools_MkdirAs p w).2.
Proof.
  unfold idtools_MkdirAs.
  destruct (faults w !! ("mkdir", p));
    [repeat split; try done; apply fs_grows_refl|].
  destruct (fs w !! p); repeat split; try done;
    [apply fs_grows_refl | apply fs_grows_insert].
Qed.

Lemma prepare_walk_frame {S} (X : Externals) (C : ClientExternals S) uid gid segs :
  forall p w,
    env (prepare_walk X C uid gid segs p w).2 = env w
    /\ faults (prepare_walk X C uid gid segs p w).2 = faults w
    /\ containers (prepare_walk X C uid gid segs p w).2 = containers w
    /\ log (prepare_walk X C uid gid segs p w).2 = log w
    /\ fs_grows w (prepare_walk X C uid gid segs p w).2.
Proof.
  induction segs as [|d rest IH]; intros p w.
  { cbn. repeat split; try done. apply fs_grows_refl. }
  cbn [prepare_walk].
  set (p1 := filepath_Join X p d).
  set (mine := p1 +:+ "." +:+ itoa C uid +:+ "." +:+ itoa C gid).
  assert (Hcreate :
    let r := match idtools_MkdirAs mine w with
             | (Some err, w') =>
                 if negb (IsExist err) then (inr err, w')
                 else prepare_walk X C uid gid rest mine w'
             | (None, w') => prepare_walk X C uid gid rest mine w'
             end in
    env r.2 = env w /\ faults r.2 = faults w /\ containers r.2 = containers w
    /\ log r.2 = log w /\ fs_grows w r.2).
  { destruct (MkdirAs_frame mine w) as (He & Hf & Hc & Hl & Hg).
    destruct (idtools_MkdirAs mine w) as [[err|] w'] eqn:Hmk; cbn in *.
    - destruct (negb (IsExist err)); [by repeat split|].
      destruct (IH mine w') as (He' & Hf' & Hc' & Hl' & Hg').
      repeat split; try congruence. by eapply fs_grows_trans.
    - destruct (IH mine w') as (He' & Hf' & Hc' & Hl' & Hg').
      repeat split; try congruence. by eapply fs_grows_trans. }
  destruct (os_Stat C w p1) as [mode|err].
  - destruct (Z.eqb (Z.land mode 1) 0); [exact Hcreate | apply IH].
  - destruct (IsNotExist err); [exact Hcreate|].
    repeat split; try done. apply fs_grows_refl.
Qed.

Lemma prepareBundleDir_frame {S} (X : Externals) (C : ClientExternals S) st uid gid w :
  env (prepareBundleDir X C st uid gid w).2 = env w
  /\ faults (prepareBundleDir X C st uid gid w).2 = faults w
  /\ containers (prepareBundleDir X C st uid gid w).2 = containers w
  /\ log (prepareBundleDir X C st uid gid w).2 = log w
  /\ fs_grows w (prepareBundleDir X C st uid gid w).2.
Proof.
  unfold prepareBundleDir.
  destruct (filepath_Abs C (stateDir st)) as [root|err].
  - destruct (Z.eqb uid 0 && Z.eqb gid 0); [|apply prepare_walk_frame].
    repeat split; try done. apply fs_grows_refl.
  - repeat split; try done. apply fs_grows_refl.
Qed.

Lemma apply_option_frame cw o :
  env (apply_option cw o).2 = env cw.2
  /\ fs (apply_option cw o).2 = fs cw.2
  /\ faults (apply_option cw o).2 = faults cw.2
  /\ containers (apply_option cw o).2 = containers cw.2.
Proof.
  destruct cw as [c w]. unfold apply_option.
  by destruct (o (IsContainer c)) as [p [e|]].
Qed.

Lemma fold_options_frame options : forall cw,
  env (fold_left apply_option options cw).2 = env cw.2
  /\ fs (fold_left apply_option options cw).2 = fs cw.2
  /\ faults (fold_left apply_option options cw).2 = faults cw.2
  /\ containers (fold_left apply_option options cw).2 = containers cw.2.
Proof.
  induction options as [|o options IH]; intros cw; [done|].
  cbn [fold_left].
  destruct (IH (apply_option cw o)) as (He & Hf & Hfa & Hc).
  destruct (apply_option_frame cw o) as (He' & Hf' & Hfa' & Hc').
  repeat split; congruence.
Qed.

Lemma newContainer_frame {S} N (C : ClientExternals S) l d options w :
  env (newContainer N C l d options w).2 = env w
  /\ fs (newContainer N C l d options w).2 = fs w
  /\ faults (newContainer N C l d options w).2 = faults w
  /\ containers (newContainer N C l d options w).2 = containers w.
Proof. unfold newContainer. apply fold_options_frame. Qed.

Lemma clean_keeps_tables ctr w :
  env (clean ctr w).2 = env w
  /\ faults (clean ctr w).2 = faults w
  /\ containers (clean ctr w).2 = containers w.
Proof.
  unfold clean.
  destruct (String.eqb _ "1"); [done|].
  destruct (os_Lstat w (dir ctr)) as [err|]; [by destruct (IsNotExist err)|].
  unfold os_RemoveAll. by destruct (faults w !! ("remove", dir ctr)).
Qed.

Lemma clean_noclean ctr w :
  os_Getenv w "LIBCONTAINERD_NOCLEAN" = "1" -> clean ctr w = (None, w).
Proof. intros H. unfold clean. by rewrite H. Qed.

(** The guarded part of Create: the environment and the failure table are
    untouched, no path is lost, and the live table is as before or has
    gained the container. *)
Lemma Create_guarded_frame {S} N X (C : ClientExternals S) ctr ck ckd (sp : S) attach w :
  env (Create_guarded N X C ctr ck ckd sp attach w).2 = env w
  /\ faults (Create_guarded N X C ctr ck ckd sp attach w).2 = faults w
  /\ fs_grows w (Create_guarded N X C ctr ck ckd sp attach w).2
  /\ dir (Create_guarded N X C ctr ck ckd sp attach w).1.2 = dir ctr
  /\ (containers (Create_guarded N X C ctr ck ckd sp attach w).2 = containers w
      \/ containers (Create_guarded N X C ctr ck ckd sp attach w).2
         = <[containerID ctr := addr ctr]> (containers w)).
Proof.
  unfold Create_guarded.
  set (cfg := filepath_Join X (dir ctr) (configFilename N)).
  assert (Hgo : forall w0, env w0 = env w -> faults w0 = faults w ->
                  fs_grows w w0 -> containers w0 = containers w ->
    let r := match os_Create cfg w0 with
             | (Some err, w1) => (Some err, ctr, w1)
             | (None, w1) =>
                 match json_Encode C sp with
                 | inr err => (Some err, ctr, w1)
                 | inl encoded =>
                     match file_Write cfg encoded w1 with
                     | (Some err, w2) => (Some err, ctr, w2)
                     | (None, w2) => start N X ctr ck ckd attach w2
                     end
                 end
             end in
    env r.2 = env w /\ faults r.2 = faults w /\ fs_grows w r.2
    /\ dir r.1.2 = dir ctr
    /\ (containers r.2 = containers w
        \/ containers r.2 = <[containerID ctr := addr ctr]> (containers w))).
  { intros w0 He Hf Hg Hc. unfold os_Create.
    destruct (faults w0 !! ("create", cfg)); [by repeat split; try left|].
    set (w1 := set_fs (<[cfg := File ""]> (fs w0)) w0).
    assert (Hg1 : fs_grows w w1)
      by (eapply fs_grows_trans; [exact Hg | apply fs_grows_insert]).
    destruct (json_Encode C sp) as [encoded|err]; [|by repeat split; try left].
    unfold file_Write. change (faults w1) with (faults w0).
    destruct (faults w0 !! ("write", cfg)); [by repeat split; try left|].
    set (w2 := set_fs (<[cfg := File encoded]> (fs w1)) w1).
    assert (Hg2 : fs_grows w w2)
      by (eapply fs_grows_trans; [exact Hg1 | apply fs_grows_insert]).
    destruct (LibcontainerdProps.start_world N X ctr ck ckd attach w2)
      as (He2 & _ & Hfa2 & Hc2).
    destruct (LibcontainerdProps.start_fs N X ctr ck ckd attach w2) as [Hfs2 _].
    pose proof (LibcontainerdProps.start_cases N X ctr ck ckd attach w2) as Hcase.
    assert (Hdir : dir (start N X ctr ck ckd attach w2).1.2 = dir ctr)
      by (destruct Hcase; reflexivity).
    cbn zeta. repeat split.
    - by rewrite He2.
    - by rewrite Hfa2.
    - intros p Hp. destruct (Hg2 p Hp) as [n Hn]. exists n. by apply Hfs2.
    - exact Hdir.
    - destruct Hc2 as [-> | ->]; [left | right]; cbn; by rewrite Hc. }
  unfold idtools_MkdirAllAs.
  destruct (faults w !! ("mkdir", dir ctr)) as [code|] eqn:Hmk.
  { cbn [negb]. destruct (negb (IsExist _));
      [repeat split; try done; [apply fs_grows_refl | by left]|].
    apply Hgo; try done. apply fs_grows_refl. }
  destruct (fs w !! dir ctr).
  - apply Hgo; try done. apply fs_grows_refl.
  - apply Hgo; try done. apply fs_grows_insert.
Qed.


(** ** Create *)

(** C1.  A Create for an id that is still live (it has an entry in the
    live-container table) fails with the already-active error, whatever
    its other arguments, and changes nothing: the entry of the id and the
    container object behind it are as they were, and so are the disk and
    the log. *)
Theorem Create_on_live_id_fails {S} N X (C : ClientExternals S) st id l0 l ck ckd
    (sp : S) attach options :
  containers (world st) !! id = Some l0 ->
  (Create N X C l id ck ckd sp attach options st).1 = Some (already_active id)
  /\ already_active id = ErrorString ("Container " +:+ id +:+ " is already active")
  /\ containers (world (Create N X C l id ck ckd sp attach options st).2) !! id
     = Some l0
  /\ objs (Create N X C l id ck ckd sp attach options st).2 !! l0 = objs st !! l0
  /\ (Create N X C l id ck ckd sp attach options st).2 = st.
Proof.
  intros H. unfold Create, getContainer. rewrite H. by repeat split.
Qed.

(** A first Create registers "c1"; a second Create for "c1", with another
    object and another callback, is refused and leaves the client of the
    first as it is. *)
Lemma Create_on_live_id_fails_witness :
  let first := Create sample_names (sample_externals true true true) sample_client_ext
                 7 "c1" "" "" tt attach_ok [] fresh_client in
  first.1 = None
  /\ containers (world first.2) !! "c1" = Some 7
  /\ Create sample_names (sample_externals true true true) sample_client_ext
            8 "c1" "" "" tt attach_fails [] first.2
     = (Some (ErrorString "Container c1 is already active"), first.2).
Proof.
  intros first.
  assert (Hlive : containers (world first.2) !! "c1" = Some 7)
    by (vm_compute; reflexivity).
  destruct (Create_on_live_id_fails sample_names (sample_externals true true true)
              sample_client_ext first.2 "c1" 7 8 "" "" tt attach_fails [] Hlive)
    as (Hres & Herr & _ & _ & Hst).
  split; [vm_compute; reflexivity|]. split; [exact Hlive|].
  rewrite (surjective_pairing (Create _ _ _ 8 _ _ _ _ _ _ _)).
  by rewrite Hres, Hst.
Defined.




(** X1.  A Create for an id that has an entry in the live table is refused
    with "Container <id> is already active", whatever its other arguments,
    and the client is left exactly as it was: the entry, the disk and the
    log are untouched and no object is allocated. *)
Theorem Create_already_active {S} N X (C : ClientExternals S) st id l0 l ck ckd
    (sp : S) attach options :
  containers (world st) !! id = Some l0 ->
  Create N X C l id ck ckd sp attach options st
  = (Some (ErrorString ("Container " +:+ id +:+ " is already active")), st)
  /\ containers (world (Create N X C l id ck ckd sp attach options st).2) !! id
     = Some l0.
Proof.
  intros H. unfold Create, getContainer. rewrite H. by split.
Qed.

Lemma Create_already_active_witness :
  Create sample_names (sample_externals true true true) sample_client_ext
    7 "c1" "" "" tt attach_ok [] sample_client
  = (Some (ErrorString "Container c1 is already active"), sample_client).
Proof.
  apply (proj1 (Create_already_active sample_names (sample_externals true true true)
                  sample_client_ext sample_client "c1" 1 7 "" "" tt attach_ok []
                  ltac:(vm_compute; reflexivity))).
Defined.

(** X2.  A Create that fails leaves no entry for the id in the live
    table, at whatever step it fails, with one exception: when it fails
    because the id is already live, the entry stays and nothing at all is
    changed. *)
Theorem Create_failure_unregisters {S} N X (C : ClientExternals S) st id l ck ckd
    (sp : S) attach options err :
  (Create N X C l id ck ckd sp attach options st).1 = Some err ->
  (containers (world st) !! id = None ->
   containers (world (Create N X C l id ck ckd sp attach options st).2) !! id = None)
  /\ (forall l0,
        containers (world st) !! id = Some l0 ->
        err = already_active id
        /\ (Create N X C l id ck ckd sp attach options st).2 = st
        /\ containers (world (Create N X C l id ck ckd sp attach options st).2) !! id
           = Some l0).
Proof.
  intros Hfail. split.
  2:{ intros l0 Hlive. revert Hfail. unfold Create, getContainer. rewrite Hlive.
      cbn. by intros [= <-]. }
  intros Hfree. revert Hfail. unfold Create, getContainer. rewrite Hfree.
  destruct (getRootIDs C sp) as [[uid gid]|e0]; [|done].
  destruct (prepareBundleDir_frame X C st uid gid (world st))
    as (_ & _ & Hc1 & _ & _).
  destruct (prepareBundleDir X C st uid gid (world st)) as [[d|e1] w1];
    cbn in Hc1; [|intros _; cbn; by rewrite Hc1].
  destruct (newContainer_frame N C l (filepath_Join X d id) options w1)
    as (_ & _ & _ & Hc2).
  destruct (newContainer N C l (filepath_Join X d id) options w1) as [ctr w2].
  cbn in Hc2.
  destruct (clean_keeps_tables ctr w2) as (_ & _ & Hc3).
  destruct (clean ctr w2) as [[e2|] w3]; cbn in Hc3;
    [intros _; cbn; by rewrite Hc3, Hc2, Hc1|].
  destruct (Create_guarded N X C ctr ck ckd sp attach w3) as [[[e3|] ctr'] w4];
    [|done].
  destruct (clean ctr' w4) as [r w5]. intros _. cbn. apply lookup_delete_eq.
Qed.

Lemma Create_failure_unregisters_witness :
  containers
    (world (Create sample_names (sample_externals true false true) sample_client_ext
              7 "c1" "" "" tt attach_ok [] fresh_client).2) !! "c1" = None
  /\ containers
       (world (Create sample_names (sample_externals true false true)
                 sample_client_ext 7 "c1" "" "" tt attach_ok [] sample_client).2)
       !! "c1" = Some 1.
Proof.
  split.
  - apply (proj1 (Create_failure_unregisters sample_names
                    (sample_externals true false true)
                    sample_client_ext fresh_client "c1" 7 "" "" tt attach_ok []
                    (ErrorString "rpc error: connection refused")
                    ltac:(vm_compute; reflexivity))).
    vm_compute. reflexivity.
  - apply (proj2 (Create_failure_unregisters sample_names
                    (sample_externals true false true)
                    sample_client_ext sample_client "c1" 7 "" "" tt attach_ok []
                    (ErrorString "Container c1 is already active")
                    ltac:(vm_compute; reflexivity)) 1).
    vm_compute. reflexivity.
Defined.

(** X3.  With LIBCONTAINERD_NOCLEAN=1 a Create never removes a path from
    the disk, whether it succeeds or fails: every path that was on the
    disk before the Create is there after it. *)
Theorem Create_noclean_keeps_disk {S} N X (C : ClientExternals S) st id l ck ckd
    (sp : S) attach options :
  os_Getenv (world st) "LIBCONTAINERD_NOCLEAN" = "1" ->
  fs_grows (world st) (world (Create N X C l id ck ckd sp attach options st).2).
Proof.
  intros Henv. unfold Create.
  destruct (getContainer id (world st)); [apply fs_grows_refl|].
  destruct (getRootIDs C sp) as [[uid gid]|e0]; [|apply fs_grows_refl].
  destruct (prepareBundleDir_frame X C st uid gid (world st))
    as (He1 & _ & _ & _ & Hg1).
  destruct (prepareBundleDir X C st uid gid (world st)) as [[d|e1] w1];
    cbn in He1, Hg1; [|exact Hg1].
  destruct (newContainer_frame N C l (filepath_Join X d id) options w1)
    as (He2 & Hfs2 & _ & _).
  destruct (newContainer N C l (filepath_Join X d id) options w1) as [ctr w2].
  cbn in He2, Hfs2.
  assert (Henv2 : os_Getenv w2 "LIBCONTAINERD_NOCLEAN" = "1")
    by (unfold os_Getenv in *; by rewrite He2, He1).
  rewrite (clean_noclean ctr w2 Henv2).
  assert (Hg2 : fs_grows (world st) w2)
    by (intros p Hp; rewrite Hfs2; by apply Hg1).
  destruct (Create_guarded_frame N X C ctr ck ckd sp attach w2)
    as (He3 & _ & Hg3 & _ & _).
  destruct (Create_guarded N X C ctr ck ckd sp attach w2) as [[[e3|] ctr'] w4];
    cbn in He3, Hg3.
  - assert (Henv4 : os_Getenv w4 "LIBCONTAINERD_NOCLEAN" = "1")
      by (unfold os_Getenv in *; by rewrite He3).
    rewrite (clean_noclean ctr' w4 Henv4). cbn.
    intros p Hp. by apply Hg3, Hg2.
  - cbn. intros p Hp. by apply Hg3, Hg2.
Qed.

Lemma Create_noclean_keeps_disk_witness :
  (Create sample_names (sample_externals true false true) sample_client_ext
          7 "c1" "" "" tt attach_ok []
          noclean_client).1
    = Some (ErrorString "rpc error: connection refused")
  /\ fs_grows (world noclean_client)
       (world (Create sample_names (sample_externals true false true)
                 sample_client_ext 7 "c1" "" "" tt attach_ok [] noclean_client).2)
  /\ fs (world (Create sample_names (sample_externals true false true)
                  sample_client_ext 7 "c1" "" "" tt attach_ok []
                  noclean_client).2)
        !! "/run/docker/c1/config.json" = Some (File "{}").
Proof.
  split; [vm_compute; reflexivity|].
  split; [|vm_compute; reflexivity].
  exact (Create_noclean_keeps_disk sample_names
           (sample_externals true false true) sample_client_ext noclean_client
           "c1" 7 "" "" tt attach_ok [] ltac:(vm_compute; reflexivity)).
Defined.

(** X4.  Once the bundle directory has been chosen, a Create that fails
    leaves no bundle directory on disk, provided cleaning is not switched
    off and the operating system does not refuse to look at or remove the
    directory. *)
Theorem Create_rollback_removes_bundle {S} N X (C : ClientExternals S) st id l
    ck ckd (sp : S) attach options uid gid d w1 err :
  containers (world st) !! id = None ->
  getRootIDs C sp = inl (uid, gid) ->
  prepareBundleDir X C st uid gid (world st) = (inl d, w1) ->
  let ctr := (newContainer N C l (filepath_Join X d id) options w1).1 in
  os_Getenv (world st) "LIBCONTAINERD_NOCLEAN" ≠ "1" ->
  faults (world st) !! ("lstat", dir ctr) = None ->
  faults (world st) !! ("remove", dir ctr) = None ->
  (Create N X C l id ck ckd sp attach options st).1 = Some err ->
  fs (world (Create N X C l id ck ckd sp attach options st).2) !! dir ctr = None.
Proof.
  intros Hfree Hids Hprep ctr Henv Hl Hr.
  destruct (prepareBundleDir_frame X C st uid gid (world st))
    as (He1 & Hf1 & _ & _ & _).
  rewrite Hprep in He1, Hf1. cbn in He1, Hf1.
  unfold Create, getContainer. rewrite Hfree, Hids, Hprep.
  destruct (newContainer_frame N C l (filepath_Join X d id) options w1)
    as (He2 & _ & Hf2 & _).
  subst ctr.
  destruct (newContainer N C l (filepath_Join X d id) options w1) as [ctr w2].
  cbn in He2, Hf2, Hl, Hr |- *.
  assert (Hclean : forall c w, dir c = dir ctr -> env w = env (world st) ->
                     faults w = faults (world st) ->
                     (clean c w).1 = None /\ fs (clean c w).2 !! dir ctr = None).
  { intros c w Hd He Hf. rewrite <- Hd.
    apply LibcontainerdProps.clean_removes_dir.
    - unfold os_Getenv in *. by rewrite He.
    - by rewrite Hf, Hd.
    - by rewrite Hf, Hd. }
  destruct (Hclean ctr w2 eq_refl) as [Hpre _]; [congruence | congruence |].
  destruct (clean_keeps_tables ctr w2) as (He3 & Hf3 & _).
  destruct (clean ctr w2) as [r3 w3]. cbn in Hpre, He3, Hf3. subst r3.
  destruct (Create_guarded_frame N X C ctr ck ckd sp attach w3)
    as (He4 & Hf4 & _ & Hd4 & _).
  destruct (Create_guarded N X C ctr ck ckd sp attach w3) as [[[e4|] ctr'] w4];
    [|done].
  cbn in He4, Hf4, Hd4.
  destruct (Hclean ctr' w4 Hd4) as [_ Hgone]; [congruence | congruence |].
  destruct (clean ctr' w4) as [r5 w5]. intros _. exact Hgone.
Qed.

Lemma Create_rollback_removes_bundle_witness :
  fs (world (Create sample_names (sample_externals true false true)
               sample_client_ext 7 "c1" "" "" tt attach_ok [] fresh_client).2)
     !! "/run/docker/c1" = None.
Proof.
  apply (Create_rollback_removes_bundle sample_names
           (sample_externals true false true) sample_client_ext fresh_client
           "c1" 7 "" "" tt attach_ok [] 0%Z 0%Z "/run/docker" fresh_world
           (ErrorString "rpc error: connection refused"));
    vm_compute; first [reflexivity | discriminate].
Defined.



Lemma fold_options_addr options : forall cw,
  addr (fold_left apply_option options cw).1 = addr cw.1.
Proof.
  induction options as [|o options IH]; intros [c w]; [done|].
  cbn [fold_left]. rewrite IH. unfold apply_option.
  by destruct (o (IsContainer c)) as [[c'|] [e|]].
Qed.

Lemma Create_guarded_success {S} N X (C : ClientExternals S) ctr ck ckd (sp : S)
    attach w ctr' w4 :
  Create_guarded N X C ctr ck ckd sp attach w = (None, ctr', w4) ->
  exists enc w0,
    json_Encode C sp = inl enc
    /\ fs w0 !! filepath_Join X (dir ctr) (configFilename N) = Some (File enc)
    /\ containers w0 = containers w
    /\ start N X ctr ck ckd attach w0 = (None, ctr', w4).
Proof.
  unfold Create_guarded.
  set (cfg := filepath_Join X (dir ctr) (configFilename N)).
  assert (Hgo : forall w1, containers w1 = containers w ->
    match os_Create cfg w1 with
    | (Some err, w2) => (Some err, ctr, w2)
    | (None, w2) =>
        match json_Encode C sp with
        | inr err => (Some err, ctr, w2)
        | inl encoded =>
            match file_Write cfg encoded w2 with
            | (Some err, w3) => (Some err, ctr, w3)
            | (None, w3) => start N X ctr ck ckd attach w3
            end
        end
    end = (None, ctr', w4) ->
    exists enc w0, json_Encode C sp = inl enc
      /\ fs w0 !! cfg = Some (File enc) /\ containers w0 = containers w
      /\ start N X ctr ck ckd attach w0 = (None, ctr', w4)).
  { intros w1 Hc1. unfold os_Create.
    destruct (faults w1 !! ("create", cfg)); [discriminate|].
    destruct (json_Encode C sp) as [enc|e]; [|discriminate].
    unfold file_Write. cbn [faults set_fs].
    destruct (faults w1 !! ("write", cfg)); [discriminate|].
    intros Hs. eexists enc, _. split; [reflexivity|].
    split; [|split; [|exact Hs]].
    - cbn. apply lookup_insert_eq.
    - exact Hc1. }
  unfold idtools_MkdirAllAs.
  destruct (faults w !! ("mkdir", dir ctr)).
  { cbn [negb]. destruct (negb (IsExist _)); [discriminate|]. by apply Hgo. }
  destruct (fs w !! dir ctr); by apply Hgo.
Qed.

(** X6.  A Create that returns nil for a free id has allocated the
    container object and written the encoded specification to the
    configuration file of its bundle directory.  Then one of two things
    has happened.  Either the shim has answered the create request that
    the log shows, the container carries the system pid of that answer
    and is registered under its id, and the backend was told StateStart
    and has accepted it.  Or the specification cannot be read back in the
    world that Create leaves, and nothing is registered although nil is
    returned. *)
Theorem Create_success {S} N X (C : ClientExternals S) st id l ck ckd (sp : S)
    attach options st1 :
  containers (world st) !! id = None ->
  Create N X C l id ck ckd sp attach options st = (None, st1) ->
  exists ctr enc,
    objs st1 !! l = Some ctr
    /\ addr ctr = l
    /\ json_Encode C sp = inl enc
    /\ fs (world st1) !! filepath_Join X (dir ctr) (configFilename N)
       = Some (File enc)
    /\ ((containers (world st1) = <[containerID ctr := l]> (containers (world st))
         /\ (exists resp,
               CreateContainer X (create_request X ctr ck ckd (world st1)) = inl resp
               /\ systemPid ctr = apiSystemPid X resp)
         /\ ActCreateContainer (create_request X ctr ck ckd (world st1))
              ∈ log (world st1)
         /\ StateChanged X (containerID ctr) (start_report N ctr) = None
         /\ ActStateChanged (containerID ctr) (start_report N ctr)
              ∈ log (world st1))
        \/ (containers (world st1) = containers (world st)
            /\ exists e, spec N X ctr (world st1) = inr e)).
Proof.
  intros Hfree. unfold Create, getContainer. rewrite Hfree.
  destruct (getRootIDs C sp) as [[uid gid]|e0]; [|discriminate].
  destruct (prepareBundleDir_frame X C st uid gid (world st))
    as (_ & _ & Hc1 & _ & _).
  destruct (prepareBundleDir X C st uid gid (world st)) as [[d|e1] w1];
    [|discriminate]. cbn in Hc1.
  destruct (newContainer_frame N C l (filepath_Join X d id) options w1)
    as (_ & _ & _ & Hc2).
  assert (Haddr : addr (newContainer N C l (filepath_Join X d id) options w1).1 = l)
    by (unfold newContainer; by rewrite fold_options_addr).
  destruct (newContainer N C l (filepath_Join X d id) options w1) as [ctr w2] eqn:Hnew.
  cbn in Hc2, Haddr.
  destruct (clean_keeps_tables ctr w2) as (_ & _ & Hc3).
  destruct (clean ctr w2) as [[e2|] w3]; [discriminate|]. cbn in Hc3.
  destruct (Create_guarded N X C ctr ck ckd sp attach w3) as [[[e3|] ctr'] w4] eqn:Hg.
  { destruct (clean ctr' w4). discriminate. }
  intros [= <-].
  destruct (Create_guarded_success N X C ctr ck ckd sp attach w3 ctr' w4 Hg)
    as (enc & w0 & Henc & Hcfg & Hc0 & Hstart).
  assert (Hcfg4 : fs w4 !! filepath_Join X (dir ctr) (configFilename N)
                  = Some (File enc)).
  { pose proof (proj1 (LibcontainerdProps.start_fs N X ctr ck ckd attach w0)
                  _ _ Hcfg) as H.
    by rewrite Hstart in H. }
  destruct (ContainerProps.start_nil_inv N X ctr ck ckd attach w0 ctr' w4 Hstart)
    as [(e & Hsp & -> & ->)
       | (sp0 & io & resp & _ & _ & _ & Hrpc & -> & Hsc & Hc4 & _ & He4 & Hreq & Hlog)].
  - exists ctr, enc. split; [apply lookup_insert_eq|]. split; [exact Haddr|].
    split; [exact Henc|]. split; [exact Hcfg|]. right. cbn.
    split; [congruence | by exists e].
  - exists (set_systemPid (apiSystemPid X resp) ctr), enc.
    split; [apply lookup_insert_eq|]. split; [exact Haddr|].
    split; [exact Henc|]. split; [exact Hcfg4|]. left. cbn [world store].
    assert (Hr : create_request X (set_systemPid (apiSystemPid X resp) ctr) ck ckd w4
                 = create_request X ctr ck ckd w0).
    { transitivity (create_request X ctr ck ckd w4); [reflexivity|].
      by apply LibcontainerdProps.create_request_env. }
    rewrite Hr.
    split; [cbn; rewrite Hc4; cbn; congruence|].
    split; [by exists resp|]. split; [exact Hreq|]. split; [exact Hsc | exact Hlog].
Qed.

Lemma Create_success_witness :
  exists st1,
    Create sample_names (sample_externals true true true) sample_client_ext
           7 "c1" "" "" tt attach_ok [] fresh_client = (None, st1)
    /\ containers (world st1) !! "c1" = Some 7
    /\ (systemPid <$> objs st1 !! 7) = Some 4242%Z.
Proof.
  eexists. split; [vm_compute; reflexivity|].
  split; [vm_compute; reflexivity|].
  match goal with
  | |- (systemPid <$> objs ?st1 !! 7) = _ =>
      destruct (Create_success sample_names (sample_externals true true true)
                  sample_client_ext fresh_client "c1" 7 "" "" tt attach_ok [] st1
                  ltac:(vm_compute; reflexivity) ltac:(vm_compute; reflexivity))
        as (ctr & enc & Hobj & _)
  end.
  vm_compute. reflexivity.
Defined.

(** ** [newContainer] and [WithRuntime] *)

Lemma fold_options_app options o cw :
  fold_left apply_option (options ++ [o]) cw
  = apply_option (fold_left apply_option options cw) o.
Proof. by rewrite fold_left_app. Qed.

(** X7.  Of several options the last [WithRuntime] decides: the container
    that [newContainer] builds has its path and arguments, [WithRuntime]
    logs nothing and changes no other field, and these are the runtime and
    the arguments that [start] puts into the create request for the shim. *)
Theorem WithRuntime_last_wins {S} N X (C : ClientExternals S) l d options path args
    w ck ckd w' :
  let before := newContainer N C l d options w in
  let ctr := (newContainer N C l d (options ++ [WithRuntime path args]) w).1 in
  newContainer N C l d (options ++ [WithRuntime path args]) w
  = (set_runtime path args before.1, before.2)
  /\ r_Runtime (create_request X ctr ck ckd w') = path
  /\ r_RuntimeArgs (create_request X ctr ck ckd w') = args
  /\ r_Id (create_request X ctr ck ckd w') = containerID before.1
  /\ r_BundlePath (create_request X ctr ck ckd w') = dir before.1.
Proof.
  intros before ctr.
  assert (H : newContainer N C l d (options ++ [WithRuntime path args]) w
              = (set_runtime path args before.1, before.2)).
  { unfold newContainer, before. rewrite fold_options_app.
    unfold newContainer.
    by destruct (fold_left apply_option options _) as [c w0]. }
  split; [exact H|]. subst ctr. rewrite H. by repeat split.
Qed.

(** ** [TriggerHandleStream] *)

(** X8.  [TriggerHandleStream] makes up the Exit of the init process, with
    the literal type "exit" and pid "init".  For an id without entry it
    returns the lookup error and changes nothing.  For a live container,
    when those literals are the names of the Exit state and of the init
    process, it returns nil, the entry leaves the live table, the bundle
    directory is handed to [clean], and a report in state Exit with exit
    code 0 is queued for the id. *)
Theorem TriggerHandleStream_exits {S} N X (C : ClientExternals S) st cId :
  (containers (world st) !! cId = None ->
   TriggerHandleStream N X C cId st = (Some (getContainer_error C cId), st))
  /\ (forall l ctr,
        switch_cases_distinct N = true ->
        StateExit N = "exit" ->
        InitFriendlyName N = "init" ->
        containers (world st) !! cId = Some l ->
        objs st !! l = Some ctr ->
        (TriggerHandleStream N X C cId st).1 = None
        /\ containers (world (TriggerHandleStream N X C cId st).2)
           = delete cId (containers (world st))
        /\ fs (world (TriggerHandleStream N X C cId st).2) = fs (clean ctr (world st)).2
        /\ q (world (TriggerHandleStream N X C cId st).2) !! cId
           = Some (default [] (q (world st) !! cId)
                   ++ [{| cb_e := {| e_Type := "exit"; e_Id := cId;
                                     e_Status := 0; e_Pid := "init" |};
                          cb_st := {| State := "exit"; Pid := 0; ExitCode := 0;
                                      ProcessID := ""; OOMKilled := oom ctr |} |}])).
Proof.
  split.
  - intros H. unfold TriggerHandleStream, getContainer. by rewrite H.
  - intros l ctr Hd Hexit Hinit Hl Hobj.
    unfold TriggerHandleStream, getContainer. rewrite Hl, Hobj.
    set (e := {| e_Type := "exit"; e_Id := cId; e_Status := 0; e_Pid := "init" |}).
    assert (Ht : e_Type e = StateExit N) by (by rewrite Hexit).
    assert (Hp : e_Pid e = InitFriendlyName N) by (by rewrite Hinit).
    rewrite (LibcontainerdProps.handleEvent_init_exit N X ctr e (world st) Hd Ht Hp).
    rewrite (LibcontainerdProps.event_report_init_exit N ctr e Ht Hp).
    destruct (LibcontainerdProps.clean_frame ctr (world st)) as (_ & Hc & Hq & _).
    cbn. rewrite Hc, Hq, <- Hexit. repeat split; try done.
    apply lookup_insert_eq.
Qed.

Lemma TriggerHandleStream_exits_witness :
  (TriggerHandleStream sample_names (sample_externals true true true)
     sample_client_ext "c1" sample_client).1 = None
  /\ containers (world (TriggerHandleStream sample_names
                          (sample_externals true true true) sample_client_ext
                          "c1" sample_client).2) !! "c1" = None
  /\ TriggerHandleStream sample_names (sample_externals true true true)
       sample_client_ext "c9" sample_client
     = (Some (ErrorString "invalid container: c9"), sample_client).
Proof.
  destruct (TriggerHandleStream_exits sample_names (sample_externals true true true)
              sample_client_ext sample_client "c1") as [_ Hlive].
  destruct (TriggerHandleStream_exits sample_names (sample_externals true true true)
              sample_client_ext sample_client "c9") as [Hnone _].
  destruct (Hlive 1 sample_ctr ltac:(vm_compute; reflexivity) ltac:(reflexivity)
              ltac:(reflexivity) ltac:(vm_compute; reflexivity)
              ltac:(vm_compute; reflexivity)) as (H1 & H2 & _).
  split; [exact H1|]. split; [rewrite H2; apply lookup_delete_eq|].
  apply Hnone. vm_compute. reflexivity.
Defined.

(** ** The exit notifier *)

(** X9.  Closing an exit notifier closes its channel once: a second close
    changes nothing.  The first close takes the notifier out of the
    client's table, and only it: entries of other ids are kept, and so is
    a newer notifier that has meanwhile been registered under the same
    id. *)
Theorem exitNotifier_close_once l en table :
  en_closed (exitNotifier_close l en table).1 = true
  /\ exitNotifier_close l (exitNotifier_close l en table).1
                          (exitNotifier_close l en table).2
     = exitNotifier_close l en table
  /\ (en_closed en = false ->
      (exitNotifier_close l en table).2 !! en_id en ≠ Some l)
  /\ (forall id, id ≠ en_id en ->
        (exitNotifier_close l en table).2 !! id = table !! id)
  /\ (forall l', l' ≠ l -> table !! en_id en = Some l' ->
        (exitNotifier_close l en table).2 = table).
Proof.
  unfold exitNotifier_close.
  destruct (en_closed en) eqn:Hc; cbn.
  { rewrite Hc. repeat split; try done. }
  repeat split; try done.
  - intros _. case_bool_decide as Hl.
    + rewrite lookup_delete_eq. discriminate.
    + exact Hl.
  - intros id Hne. case_bool_decide; [by rewrite lookup_delete_ne|done].
  - intros l' Hne Hl'. case_bool_decide as Hl; [congruence|done].
Qed.

Lemma exitNotifier_close_once_witness :
  (exitNotifier_close 1 {| en_id := "c1"; en_closed := false |}
                      {[ "c1" := 2 ]}).2 = {[ "c1" := 2 ]}
  /\ (exitNotifier_close 1 {| en_id := "c1"; en_closed := false |}
                         {[ "c1" := 1 ]}).2 !! "c1" ≠ Some 1.
Proof.
  destruct (exitNotifier_close_once 1 {| en_id := "c1"; en_closed := false |}
              {[ "c1" := 2 ]}) as (_ & _ & _ & _ & Hnewer).
  destruct (exitNotifier_close_once 1 {| en_id := "c1"; en_closed := false |}
              {[ "c1" := 1 ]}) as (_ & _ & Hgone & _).
  split.
  - apply (Hnewer 2); [lia | vm_compute; reflexivity].
  - by apply Hgone.
Defined.

(** ** [prepareBundleDir] *)

Lemma prepare_walk_exists {S} (X : Externals) (C : ClientExternals S) uid gid segs :
  forall p w p',
    (forall x, faults w !! ("mkdir", x) = None) ->
    is_Some (fs w !! p) ->
    (prepare_walk X C uid gid segs p w).1 = inl p' ->
    is_Some (fs (prepare_walk X C uid gid segs p w).2 !! p').
Proof.
  induction segs as [|d rest IH]; intros p w p' Hnf Hp.
  { cbn. by intros [= <-]. }
  cbn [prepare_walk].
  set (p1 := filepath_Join X p d).
  set (mine := p1 +:+ "." +:+ itoa C uid +:+ "." +:+ itoa C gid).
  assert (Hcreate :
    let r := match idtools_MkdirAs mine w with
             | (Some err, w') =>
                 if negb (IsExist err) then (inr err, w')
                 else prepare_walk X C uid gid rest mine w'
             | (None, w') => prepare_walk X C uid gid rest mine w'
             end in
    r.1 = inl p' -> is_Some (fs r.2 !! p')).
  { unfold idtools_MkdirAs. rewrite Hnf.
    destruct (fs w !! mine) eqn:Hmine; cbn.
    - apply IH; [exact Hnf | by rewrite Hmine].
    - apply IH; [exact Hnf | cbn; rewrite lookup_insert_eq; by eexists]. }
  unfold os_Stat.
  destruct (faults w !! ("stat", p1)) as [code|].
  { cbn. destruct code; cbn; try discriminate. exact Hcreate. }
  destruct (fs w !! p1) eqn:Hp1.
  - destruct (Z.eqb (Z.land (file_mode C p1) 1) 0); [exact Hcreate|].
    apply IH; [exact Hnf | by rewrite Hp1].
  - cbn. exact Hcreate.
Qed.

(** X10.  For the root ids (0, 0) [prepareBundleDir] answers the absolute
    state directory and does not touch the disk.  For other ids it never
    removes a path, registers nothing and logs nothing; and if creating
    directories is not refused and the state directory has at least one
    segment, the directory it returns exists on disk afterwards. *)
Theorem prepareBundleDir_result {S} (X : Externals) (C : ClientExternals S) st
    uid gid w root :
  filepath_Abs C (stateDir st) = inl root ->
  (uid = 0%Z -> gid = 0%Z -> prepareBundleDir X C st uid gid w = (inl root, w))
  /\ fs_grows w (prepareBundleDir X C st uid gid w).2
  /\ containers (prepareBundleDir X C st uid gid w).2 = containers w
  /\ log (prepareBundleDir X C st uid gid w).2 = log w
  /\ (forall p,
        (uid ≠ 0%Z \/ gid ≠ 0%Z) ->
        path_segments C root ≠ [] ->
        (forall x, faults w !! ("mkdir", x) = None) ->
        (prepareBundleDir X C st uid gid w).1 = inl p ->
        is_Some (fs (prepareBundleDir X C st uid gid w).2 !! p)).
Proof.
  intros Habs.
  destruct (prepareBundleDir_frame X C st uid gid w) as (_ & _ & Hc & Hl & Hg).
  split; [|split; [exact Hg|split; [exact Hc|split; [exact Hl|]]]].
  - intros -> ->. unfold prepareBundleDir. by rewrite Habs.
  - intros p Hids Hsegs Hnf. unfold prepareBundleDir. rewrite Habs.
    assert (Hz : Z.eqb uid 0 && Z.eqb gid 0 = false).
    { apply andb_false_iff. destruct Hids as [H|H]; [left|right]; by apply Z.eqb_neq. }
    rewrite Hz.
    destruct (path_segments C root) as [|d rest] eqn:Hs; [done|].
    (* the first round through the loop decides where the walk goes on *)
    cbn [prepare_walk].
    set (p1 := filepath_Join X "/" d).
    set (mine := p1 +:+ "." +:+ itoa C uid +:+ "." +:+ itoa C gid).
    assert (Hcreate :
      let r := match idtools_MkdirAs mine w with
               | (Some err, w') =>
                   if negb (IsExist err) then (inr err, w')
                   else prepare_walk X C uid gid rest mine w'
               | (None, w') => prepare_walk X C uid gid rest mine w'
               end in
      r.1 = inl p -> is_Some (fs r.2 !! p)).
    { unfold idtools_MkdirAs. rewrite Hnf.
      destruct (fs w !! mine) eqn:Hmine; cbn.
      - apply prepare_walk_exists; [exact Hnf | by rewrite Hmine].
      - apply prepare_walk_exists; [exact Hnf|].
        cbn. rewrite lookup_insert_eq. by eexists. }
    unfold os_Stat.
    destruct (faults w !! ("stat", p1)) as [code|].
    { cbn. destruct code; cbn; try discriminate. exact Hcreate. }
    destruct (fs w !! p1) eqn:Hp1.
    + destruct (Z.eqb (Z.land (file_mode C p1) 1) 0); [exact Hcreate|].
      apply prepare_walk_exists; [exact Hnf | by rewrite Hp1].
    + cbn. exact Hcreate.
Qed.

Lemma prepareBundleDir_result_witness :
  prepareBundleDir (sample_externals true true true) sample_client_ext fresh_client
                   0 0 fresh_world = (inl "/run/docker", fresh_world)
  /\ (prepareBundleDir (sample_externals true true true) sample_client_ext
        fresh_client 1000 1000 fresh_world).1
     = inl "//run.1000.1000/docker.1000.1000"
  /\ is_Some (fs (prepareBundleDir (sample_externals true true true)
                    sample_client_ext fresh_client 1000 1000 fresh_world).2
                !! "//run.1000.1000/docker.1000.1000").
Proof.
  destruct (prepareBundleDir_result (sample_externals true true true)
              sample_client_ext fresh_client 0 0 fresh_world "/run/docker"
              ltac:(reflexivity)) as (Hroot & _).
  destruct (prepareBundleDir_result (sample_externals true true true)
              sample_client_ext fresh_client 1000 1000 fresh_world "/run/docker"
              ltac:(reflexivity)) as (_ & _ & _ & _ & Hex).
  split; [by apply Hroot|]. split; [vm_compute; reflexivity|].
  apply Hex; try (vm_compute; reflexivity).
  - left. lia.
  - discriminate.
Defined.

End ClientProps.

(** * Properties of the supervisor's handlers *)

Module SupervisorTasksProps.
Import Supervisor SupervisorTasks.
Local Open Scope list_scope.

(** One Start, by its result. *)
Lemma start_accounting {Container : Type}
    (runtime_New : ContainerOpts -> Container + error)
    (filepath_Join : string -> string -> string) s t :
  (forall o e, runtime_New o = inr e -> e ≠ errDeferredResponse) ->
  let r := start runtime_New filepath_Join s t in
  let n := if bool_decide (r.2 = Some errDeferredResponse) then 1 else 0 in
  ContainersCounter r.1 = (ContainersCounter s + Z.of_nat n)%Z
  /\ length (startTasks r.1) = length (startTasks s) + n
  /\ startTasks s `prefix_of` startTasks r.1
  /\ size (containers r.1) <= size (containers s) + n.
Proof.
  intros Hnew. unfold start.
  destruct (runtime_New (start_opts s t)) as [c|e] eqn:Hn; cbn [fst snd].
  - rewrite bool_decide_eq_true_2 by done.
    cbn [ContainersCounter startTasks containers].
    rewrite length_app. cbn [length]. repeat split; try lia.
    + by apply prefix_app_r.
    + rewrite map_size_insert. destruct (containers s !! t_ID t); unfold id; lia.
  - rewrite bool_decide_eq_false_2.
    + cbn [Z.of_nat]. repeat split; try lia; done.
    + intros [= ->]. by eapply Hnew.
Qed.

(** X18.  However many Start tasks the loop handles, and whatever ids
    they name: the containers counter and the queue of worker tasks both
    grow by exactly the number of accepted tasks (those answered with the
    deferred-response marker), worker tasks already queued stay in front
    in their order, each task gets its answer, and the table grows by at
    most that number (a Start for an id that is already in the table is
    counted and queued again but adds no entry). *)
Theorem starts_accounting {Container : Type}
    (runtime_New : ContainerOpts -> Container + error)
    (filepath_Join : string -> string -> string) ts :
  (forall o e, runtime_New o = inr e -> e ≠ errDeferredResponse) ->
  forall s,
    let r := starts runtime_New filepath_Join s ts in
    length r.2 = length ts
    /\ ContainersCounter r.1 = (ContainersCounter s + Z.of_nat (accepted r.2))%Z
    /\ length (startTasks r.1) = length (startTasks s) + accepted r.2
    /\ startTasks s `prefix_of` startTasks r.1
    /\ size (containers r.1) <= size (containers s) + accepted r.2.
Proof.
  intros Hnew. induction ts as [|t ts IH]; intros s.
  { cbn. repeat split; try lia; done. }
  cbn [starts].
  pose proof (start_accounting runtime_New filepath_Join s t Hnew) as H1.
  destruct (start runtime_New filepath_Join s t) as [s1 r1]. cbn [fst snd] in H1.
  specialize (IH s1).
  destruct (starts runtime_New filepath_Join s1 ts) as [s2 rs].
  cbn [fst snd] in IH |- *.
  destruct H1 as (Hc1 & Hl1 & Hp1 & Hs1).
  destruct IH as (Hlen & Hc2 & Hl2 & Hp2 & Hs2).
  unfold accepted in *. rewrite filter_cons.
  destruct (decide (r1 = Some errDeferredResponse)) as [Hr|Hr].
  - rewrite bool_decide_eq_true_2 in Hc1, Hl1, Hs1 by done. cbn [length].
    repeat split; try lia. by etrans.
  - rewrite bool_decide_eq_false_2 in Hc1, Hl1, Hs1 by done. cbn [length].
    repeat split; try lia. by etrans.
Qed.

Lemma starts_accounting_witness :
  ContainersCounter
    (starts echo_New slash_Join sup0
       [task_c1 "/bundles/first"; task_c1 "/bundles/second"]).1 = 2%Z
  /\ size (containers
             (starts echo_New slash_Join sup0
                [task_c1 "/bundles/first"; task_c1 "/bundles/second"]).1) = 1.
Proof.
  destruct (starts_accounting echo_New slash_Join
              [task_c1 "/bundles/first"; task_c1 "/bundles/second"]
              ltac:(intros o e H; discriminate) sup0) as (_ & Hc & _).
  split; [rewrite Hc|]; vm_compute; reflexivity.
Defined.

(** X19.  The handlers find what Start has registered.  After a Start
    that [runtime.New] accepted, an AddProcess for the same id invokes
    [Exec] on the very container [runtime.New] returned, with the task's
    pid, specification and stdio paths, and a Stats for the id is answered
    with the deferred-response marker and starts the worker on that
    container.  For an id that is not in the table both handlers answer
    ErrContainerNotFound and do nothing at all. *)
Theorem handlers_find_started_container {Container Process Stat : Type}
    (runtime_New : ContainerOpts -> Container + error)
    (filepath_Join : string -> string -> string)
    (Exec : Container -> nat -> string -> string -> Stdio -> Process + error)
    (monitorProcess : Process -> option error) (SystemPid : Process -> Z)
    (Stats : Container -> Stat + error) (StateStartProcess : string)
    (s : Supervisor Container) (at_ : AddProcessTask) (st : StatsTask) :
  (forall t c,
     runtime_New (start_opts s t) = inl c ->
     a_ID at_ = t_ID t -> s_ID st = t_ID t ->
     let s1 := (start runtime_New filepath_Join s t).1 in
     head (addProcess (Stat := Stat) Exec monitorProcess SystemPid
             StateStartProcess s1 at_).1
       = Some (EExec c (a_Ctx at_) (a_PID at_) (a_ProcessSpec at_)
                 (NewStdio (a_Stdin at_) (a_Stdout at_) (a_Stderr at_)))
     /\ (stats (Process := Process) Stats s1 st).2 = Some errDeferredResponse
     /\ head (stats (Process := Process) Stats s1 st).1 = Some (ESpawnStatsWorker c))
  /\ (containers s !! a_ID at_ = None ->
      addProcess (Stat := Stat) Exec monitorProcess SystemPid StateStartProcess s at_
      = ([], Some ErrContainerNotFound))
  /\ (containers s !! s_ID st = None ->
      stats (Process := Process) Stats s st = ([], Some ErrContainerNotFound)).
Proof.
  split; [|split].
  - intros t c Hnew Ha Hs s1.
    assert (Hl : containers s1 !! t_ID t = Some {| container := c |}).
    { subst s1. unfold start. rewrite Hnew. cbn. apply lookup_insert_eq. }
    unfold addProcess, stats. rewrite Ha, Hs, Hl. cbn.
    split; [|by split].
    destruct (Exec c _ _ _ _) as [p|e]; [|done].
    by destruct (monitorProcess p).
  - intros H. unfold addProcess. by rewrite H.
  - intros H. unfold stats. by rewrite H.
Qed.

(** X20.  [addProcess] sends a start response exactly when it returns nil:
    then [Exec] and the monitor have both succeeded, and the effects are,
    in this order, Exec, monitorProcess, the new exec-sync channel, the
    response carrying the system pid of the new process, and the
    StartProcess notification.  When it returns an error, no exec-sync
    channel is made, no response is sent and no subscriber is notified,
    even if the process has already been started by [Exec]. *)
Theorem addProcess_response {Container Process Stat : Type}
    (Exec : Container -> nat -> string -> string -> Stdio -> Process + error)
    (monitorProcess : Process -> option error) (SystemPid : Process -> Z)
    (StateStartProcess : string)
    (s : Supervisor Container) (t : AddProcessTask) :
  let r := addProcess (Stat := Stat) Exec monitorProcess SystemPid
             StateStartProcess s t in
  (r.2 = None ->
   exists ci p,
     containers s !! a_ID t = Some ci
     /\ Exec (container ci) (a_Ctx t) (a_PID t) (a_ProcessSpec t)
             (NewStdio (a_Stdin t) (a_Stdout t) (a_Stderr t)) = inl p
     /\ monitorProcess p = None
     /\ r.1 = [EExec (container ci) (a_Ctx t) (a_PID t) (a_ProcessSpec t)
                 (NewStdio (a_Stdin t) (a_Stdout t) (a_Stderr t));
               EMonitorProcess p;
               ENewExecSyncChannel (a_ID t) (a_PID t);
               ESendStartResponse (a_StartResponse t) (SystemPid p);
               ENotifySubscribers StateStartProcess (a_PID t) (a_ID t)])
  /\ (forall err, r.2 = Some err ->
        (forall ch pid, ESendStartResponse ch pid ∉ r.1)
        /\ (forall ty pid id, ENotifySubscribers ty pid id ∉ r.1)
        /\ (forall id pid, ENewExecSyncChannel id pid ∉ r.1)).
Proof.
  unfold addProcess.
  destruct (containers s !! a_ID t) as [ci|] eqn:Hl.
  2:{ cbn. split; [discriminate|]. intros err _.
      repeat split; intros; apply not_elem_of_nil. }
  destruct (Exec _ _ _ _ _) as [p|e] eqn:He.
  2:{ cbn. split; [discriminate|]. intros err _.
      repeat split; intros; intros Hin;
        apply list_elem_of_singleton in Hin; discriminate. }
  destruct (monitorProcess p) as [e|] eqn:Hm.
  { cbn. split; [discriminate|]. intros err _.
    repeat split; intros; intros Hin;
      repeat (apply elem_of_cons in Hin as [Hin|Hin]; [discriminate|]);
      by apply elem_of_nil in Hin. }
  cbn. split; [|discriminate]. intros _. by exists ci, p.
Qed.

Lemma addProcess_response_witness :
  (addProcess (Stat := nat) (sample_Exec false) (sample_monitor false) (λ _, 99%Z)
     "start-process" sup1 sample_add).1
  = [EExec (start_opts sup0 (task_c1 "/bundles/first")) 0 "p1" "{}"
       (NewStdio "in" "out" "err");
     EMonitorProcess "p1";
     ENewExecSyncChannel "c1" "p1";
     ESendStartResponse 1 99;
     ENotifySubscribers "start-process" "p1" "c1"]
  /\ forall ch pid,
       ESendStartResponse ch pid
       ∉ (addProcess (Stat := nat) (sample_Exec false) (sample_monitor true)
            (λ _, 99%Z) "start-process" sup1 sample_add).1.
Proof.
  destruct (addProcess_response (Stat := nat) (sample_Exec false)
              (sample_monitor false) (λ _, 99%Z) "start-process" sup1 sample_add)
    as [Hok _].
  destruct (addProcess_response (Stat := nat) (sample_Exec false)
              (sample_monitor true) (λ _, 99%Z) "start-process" sup1 sample_add)
    as [_ Herr].
  split.
  - destruct (Hok ltac:(vm_compute; reflexivity)) as (ci & p & _ & _ & _ & Heff).
    rewrite Heff. vm_compute in Heff |- *. congruence.
  - exact (proj1 (Herr (ErrorString "epoll failed") ltac:(vm_compute; reflexivity))).
Defined.

Lemma handlers_find_started_container_witness :
  head (addProcess (Stat := nat) (sample_Exec false) (sample_monitor false)
          (λ _, 99%Z) "start-process" sup1 sample_add).1
  = Some (EExec (start_opts sup0 (task_c1 "/bundles/first")) 0 "p1" "{}"
            (NewStdio "in" "out" "err"))
  /\ stats (Process := string) (λ _, inl 5) sup0 sample_stats
     = ([], Some ErrContainerNotFound).
Proof.
  destruct (handlers_find_started_container echo_New slash_Join (sample_Exec false)
              (sample_monitor false) (λ _, 99%Z) (λ _, inl 5) "start-process"
              sup0 sample_add sample_stats) as (Hfound & _ & Hnone).
  split.
  - exact (proj1 (Hfound (task_c1 "/bundles/first")
                    (start_opts sup0 (task_c1 "/bundles/first"))
                    eq_refl eq_refl eq_refl)).
  - apply Hnone. vm_compute. reflexivity.
Defined.

End SupervisorTasksProps.

(** * Properties of the daemon's create path *)

Module DaemonProps.
Import Daemon.
Local Open Scope list_scope.

(** ** [verifyNetworkingConfig] *)

Lemma verify_endpoint_ok ParseIP v :
  verify_endpoint ParseIP v = None <->
  match v with
  | Some {| IPAMConfig := Some c |} =>
      (IPv4Address c = "" \/ ParseIP (IPv4Address c) = IsIPv4)
      /\ (IPv6Address c = "" \/ ParseIP (IPv6Address c) = IsIPv6)
  | _ => True
  end.
Proof.
  destruct v as [[[c|]]|]; cbn; try done.
  destruct (String.eqb_spec (IPv4Address c) "") as [H4|H4];
    destruct (String.eqb_spec (IPv6Address c) "") as [H6|H6]; cbn;
    destruct (ParseIP (IPv4Address c)) eqn:P4;
    destruct (ParseIP (IPv6Address c)) eqn:P6; cbn;
    split; try done; try (intros _; split; by auto);
    intros [[?|?] [?|?]]; congruence.
Qed.

Lemma verifyNetworkingConfig_many ParseIP nw :
  2 <= size (EndpointsConfig nw) ->
  exists msg, verifyNetworkingConfig ParseIP (Some nw)
              = Some (BadRequestError (ErrorString msg)).
Proof.
  intros Hs. unfold verifyNetworkingConfig. rewrite <- length_map_to_list in Hs.
  destruct (map_to_list (EndpointsConfig nw)) as [|[k1 v1] [|[k2 v2] l]];
    cbn in Hs; try lia.
  by eexists.
Qed.

(** X21.  A networking configuration is accepted when it is nil or names
    no endpoint; with exactly one endpoint it is accepted exactly when the
    endpoint is nil, has no IPAM configuration, or its IPv4 address is
    empty or parses as IPv4 and its IPv6 address is empty or parses as
    IPv6 and not as IPv4; with two or more endpoints it is refused with a
    bad-request error whatever the endpoints contain. *)
Theorem verifyNetworkingConfig_cases ParseIP nw :
  verifyNetworkingConfig ParseIP None = None
  /\ (size (EndpointsConfig nw) = 0 -> verifyNetworkingConfig ParseIP (Some nw) = None)
  /\ (forall k v, EndpointsConfig nw = {[ k := v ]} ->
        (verifyNetworkingConfig ParseIP (Some nw) = None <->
         match v with
         | Some {| IPAMConfig := Some c |} =>
             (IPv4Address c = "" \/ ParseIP (IPv4Address c) = IsIPv4)
             /\ (IPv6Address c = "" \/ ParseIP (IPv6Address c) = IsIPv6)
         | _ => True
         end)
        /\ forall e, verifyNetworkingConfig ParseIP (Some nw) = Some e ->
                     exists msg, e = BadRequestError (ErrorString msg))
  /\ (2 <= size (EndpointsConfig nw) ->
      exists msg, verifyNetworkingConfig ParseIP (Some nw)
                  = Some (BadRequestError (ErrorString msg))).
Proof.
  split; [done|]. unfold verifyNetworkingConfig. cbn [EndpointsConfig].
  split; [|split].
  - intros Hs. apply map_size_empty_iff in Hs. by rewrite Hs, map_to_list_empty.
  - intros k v Hm. rewrite Hm, map_to_list_singleton. split.
    + apply verify_endpoint_ok.
    + intros e. destruct v as [[[c|]]|]; cbn; try done.
      destruct (_ && _); [intros [= <-]; by eexists|].
      destruct (_ && _); [intros [= <-]; by eexists|done].
  - apply verifyNetworkingConfig_many.
Qed.

Lemma verifyNetworkingConfig_cases_witness :
  verifyNetworkingConfig (ParseIP (sample_daemon true true))
    (Some {| EndpointsConfig :=
               {[ "front" := Some {| IPAMConfig :=
                    Some {| IPv4Address := "10.0.0.2"; IPv6Address := "" |} |} ]} |})
  = None
  /\ exists msg, verifyNetworkingConfig (ParseIP (sample_daemon true true))
                   (Some two_networks)
                 = Some (BadRequestError (ErrorString msg)).
Proof.
  destruct (verifyNetworkingConfig_cases (ParseIP (sample_daemon true true))
              {| EndpointsConfig :=
                   {[ "front" := Some {| IPAMConfig :=
                        Some {| IPv4Address := "10.0.0.2"; IPv6Address := "" |} |} ]} |})
    as (_ & _ & Hone & _).
  destruct (verifyNetworkingConfig_cases (ParseIP (sample_daemon true true))
              two_networks) as (_ & _ & _ & Hmany).
  split.
  - apply (proj1 (Hone "front" _ eq_refl)). cbn. split; [right|left]; reflexivity.
  - apply Hmany. vm_compute. lia.
Defined.

(** ** [mergeAndVerifyConfig] *)

(** X22.  After a [mergeAndVerifyConfig] that returns nil the configuration
    has something to run: its entrypoint or its command is not empty, and
    the entrypoint is not the single empty string.  Without an image to
    merge from, the error "No command specified" is returned exactly when
    the command is empty and the entrypoint is empty or the single empty
    string. *)
Theorem mergeAndVerifyConfig_command merge config img :
  ((mergeAndVerifyConfig merge config img).2 = None ->
   (Entrypoint (mergeAndVerifyConfig merge config img).1 ≠ []
    \/ Cmd (mergeAndVerifyConfig merge config img).1 ≠ [])
   /\ Entrypoint (mergeAndVerifyConfig merge config img).1 ≠ [""])
  /\ ((mergeAndVerifyConfig merge config None).2
        = Some (ErrorString "No command specified")
      <-> Cmd config = [] /\ (Entrypoint config = [] \/ Entrypoint config = [""])).
Proof.
  assert (Hcore : forall c,
    let c' := match Entrypoint c with
              | [e] => if String.eqb e ""
                       then {| Image := Image c; Entrypoint := []; Cmd := Cmd c |}
                       else c
              | _ => c
              end in
    Entrypoint c' ≠ [""]
    /\ Cmd c' = Cmd c
    /\ (Entrypoint c' = [] <-> Entrypoint c = [] \/ Entrypoint c = [""])).
  { intros c. destruct (Entrypoint c) as [|e [|e2 l]] eqn:He; cbn.
    - rewrite He. repeat split; try done. by left.
    - destruct (String.eqb_spec e "") as [->|Hne]; cbn.
      + repeat split; try done. by right.
      + rewrite He. repeat split; try congruence.
        intros [?|?]; congruence.
    - rewrite He. repeat split; try done. intros [?|?]; congruence. }
  split.
  - unfold mergeAndVerifyConfig.
    destruct (match img with
              | Some {| img_Config := Some ic |} => merge config ic
              | _ => (config, None)
              end) as [c [e|]]; [done|].
    destruct (Hcore c) as (Hne & Hcmd & Hempty).
    match goal with
    | |- context [Nat.eqb (length (Entrypoint ?x)) 0] => set (c' := x) in *
    end.
    destruct (Nat.eqb_spec (length (Entrypoint c')) 0) as [Hl|Hl]; cbn [andb].
    + destruct (Nat.eqb_spec (length (Cmd c')) 0) as [Hc|Hc]; [done|].
      intros _. cbn [fst]. split; [right|exact Hne]. intros H0. by rewrite H0 in Hc.
    + intros _. cbn [fst]. split; [left|exact Hne]. intros H0. by rewrite H0 in Hl.
  - unfold mergeAndVerifyConfig.
    destruct (Hcore config) as (Hne & Hcmd & Hempty).
    match goal with
    | |- context [Nat.eqb (length (Entrypoint ?x)) 0] => set (c' := x) in *
    end.
    destruct (Nat.eqb_spec (length (Entrypoint c')) 0) as [Hl|Hl]; cbn [andb].
    + apply nil_length_inv in Hl.
      destruct (Nat.eqb_spec (length (Cmd c')) 0) as [Hc|Hc]; cbn [snd].
      * apply nil_length_inv in Hc. split; [intros _|done].
        split; [congruence | by apply Hempty].
      * split; [done|]. intros [Hc0 _]. rewrite Hcmd, Hc0 in Hc. done.
    + split; [done|]. intros [_ He]. apply Hempty in He. by rewrite He in Hl.
Qed.

Lemma mergeAndVerifyConfig_command_witness :
  (mergeAndVerifyConfig (λ c _, (c, None))
     {| Image := ""; Entrypoint := [""]; Cmd := [] |} None).2
  = Some (ErrorString "No command specified").
Proof.
  apply (proj2 (mergeAndVerifyConfig_command (λ c _, (c, None))
                  {| Image := ""; Entrypoint := [""]; Cmd := [] |} None)).
  split; [reflexivity | by right].
Defined.

(** ** [generateSecurityOpt] *)

Lemma compare_labels_same_length pl : forall il,
  length pl = length il ->
  compare_labels pl il = Returns (negb (bool_decide (pl = il))).
Proof.
  induction pl as [|p pl IH]; intros [|i il] Hlen; try done. cbn.
  destruct (String.eqb_spec p i) as [->|Hne]; cbn.
  - rewrite IH by (cbn in Hlen; lia). f_equal. f_equal.
    apply bool_decide_ext. split; congruence.
  - f_equal. rewrite bool_decide_eq_false_2; [done | congruence].
Qed.

Lemma compare_labels_prefix pl extra : compare_labels pl (pl ++ extra) = Returns false.
Proof. induction pl as [|p pl IH]; [done|]. cbn. by rewrite String.eqb_refl. Qed.

Lemma compare_labels_short il x extra : compare_labels (il ++ x :: extra) il = Panics.
Proof. induction il as [|i il IH]; [done|]. cbn. by rewrite String.eqb_refl. Qed.

(** X23.  With host IPC, host PID or a privileged container the security
    options are the disabling ones and no container is looked up.
    Otherwise, when both an IPC and a PID container are named and found
    and both have labels: labels of the same length are accepted (and the
    PID container's returned) exactly when they are equal, else the
    mismatch error is returned; if the PID label is a proper prefix of the
    IPC label the difference goes unnoticed; and if the IPC label is a
    proper prefix of the PID label the comparison runs past its end and
    panics. *)
Theorem generateSecurityOpt_labels GetContainer DisableSecOpt DupSecOpt
    ipcMode pidMode privileged :
  (IsHost ipcMode = true \/ IsHost pidMode = true \/ privileged = true ->
   generateSecurityOpt GetContainer DisableSecOpt DupSecOpt ipcMode pidMode privileged
   = Returns (DisableSecOpt, None))
  /\ (forall li lp il pl,
        IsHost ipcMode = false -> IsHost pidMode = false -> privileged = false ->
        Container ipcMode ≠ "" -> Container pidMode ≠ "" ->
        GetContainer (Container ipcMode) = inl li ->
        GetContainer (Container pidMode) = inl lp ->
        DupSecOpt li = Some il -> DupSecOpt lp = Some pl ->
        let r := generateSecurityOpt GetContainer DisableSecOpt DupSecOpt
                   ipcMode pidMode privileged in
        (length pl = length il ->
         r = Returns (if bool_decide (pl = il) then (Some pl, None)
                      else (None, Some (ErrorString
                        "--ipc and --pid containers SELinux labels aren't the same"))))
        /\ (forall extra, il = pl ++ extra -> r = Returns (Some pl, None))
        /\ (forall x extra, pl = il ++ x :: extra -> r = Panics)).
Proof.
  split.
  - intros H. unfold generateSecurityOpt.
    destruct H as [-> | [-> | ->]]; by rewrite ?orb_true_r.
  - intros li lp il pl Hi Hp Hpriv Hic Hpc Hgi Hgp Hdi Hdp r.
    assert (Hr : r = match compare_labels pl il with
                     | Panics => Panics
                     | Returns true =>
                         Returns (None, Some (ErrorString
                           "--ipc and --pid containers SELinux labels aren't the same"))
                     | Returns false => Returns (Some pl, None)
                     end).
    { subst r. unfold generateSecurityOpt. rewrite Hi, Hp, Hpriv. cbn [orb].
      apply String.eqb_neq in Hic. apply String.eqb_neq in Hpc.
      rewrite Hic, Hpc. cbn [negb]. by rewrite Hgi, Hgp, Hdi, Hdp. }
    rewrite Hr. split; [|split].
    + intros Hlen. rewrite (compare_labels_same_length pl il Hlen).
      by case_bool_decide.
    + intros extra ->. by rewrite compare_labels_prefix.
    + intros x extra ->. by rewrite compare_labels_short.
Qed.

Lemma generateSecurityOpt_labels_witness :
  generateSecurityOpt (λ name, inl name) None (λ l, Some ["user:u"; l])
    {| IsHost := false; Container := "level:s0" |}
    {| IsHost := false; Container := "level:s1" |} false
  = Returns (None, Some (ErrorString
               "--ipc and --pid containers SELinux labels aren't the same")).
Proof.
  destruct (generateSecurityOpt_labels (λ name, inl name) None
              (λ l, Some ["user:u"; l])
              {| IsHost := false; Container := "level:s0" |}
              {| IsHost := false; Container := "level:s1" |} false) as [_ H].
  destruct (H "level:s0" "level:s1" ["user:u"; "level:s0"] ["user:u"; "level:s1"]
              eq_refl eq_refl eq_refl ltac:(discriminate) ltac:(discriminate)
              eq_refl eq_refl eq_refl eq_refl) as [Hsame _].
  rewrite (Hsame eq_refl). reflexivity.
Defined.

(** ** [create] *)

Lemma and_then_quiet f g : quiet f -> quiet g -> quiet (f >> g).
Proof.
  intros Hf Hg c. unfold and_then.
  specialize (Hf c). destruct (f c) as [[c1 [e|]] tr]; [exact Hf|].
  specialize (Hg c1). destruct (g c1) as [[c2 r] tr']. cbn in *.
  by apply Forall_app.
Qed.

Lemma and_then_ok f g c c2 tr :
  (f >> g) c = (c2, None, tr) ->
  exists c1 tr1 tr2, f c = (c1, None, tr1) /\ g c1 = (c2, None, tr2) /\ tr = tr1 ++ tr2.
Proof.
  unfold and_then. destruct (f c) as [[c1 [e|]] tr1]; [discriminate|].
  destruct (g c1) as [[c2' r] tr2] eqn:Hg. intros [= ? ? ?]. subst.
  by exists c1, tr1, tr2.
Qed.

Lemma create_guarded_quiet D config hostConfig nw :
  quiet (create_guarded D config hostConfig nw).
Proof.
  unfold create_guarded.
  repeat apply and_then_quiet; intros c; cbn.
  - unfold ext_stmt. by destruct (setSecurityOptions D c hostConfig).
  - done.
  - unfold setRWLayer.
    destruct (negb _); [destruct (imageStore_Get D _); [|done]|];
      destruct (CreateRWLayer D _ _ _ _); by repeat constructor.
  - unfold make_dirs. destruct (GetRootUIDGID D) as [[u g]|]; [|done].
    destruct (MkdirAs D (c_Root c) u g); by repeat constructor.
  - unfold ext_stmt. by destruct (setHostConfig D c hostConfig).
  - unfold ext_stmt.
    by destruct (createContainerPlatformSpecificSettings D c config hostConfig).
  - done.
  - done.
  - destruct (ToDisk D c); by repeat constructor.
  - by repeat constructor.
  - by repeat constructor.
Qed.

Lemma create_guarded_ends D config hostConfig nw c0 c tr :
  create_guarded D config hostConfig nw c0 = (c, None, tr) ->
  exists tr', tr = tr' ++ [DRegister c; DLogContainerEvent c "create"]
              /\ Register D c = None.
Proof.
  unfold create_guarded. intros H.
  apply and_then_ok in H as (c1 & tr1 & tr2 & H & [= <- <-] & ->).
  apply and_then_ok in H as (c2 & tr3 & tr4 & H & [= <- Hreg <-] & ->).
  exists tr3. split; [by rewrite <- app_assoc | exact Hreg].
Qed.

(** X24.  [create] cleans up exactly when it fails after the container
    object has been made.  On success no cleanup is run, the container has
    been registered, and the last thing done is logging the "create"
    event.  On failure either nothing was made (and nothing is done), or
    the container was made and the statements under the [defer] failed
    with the very error that is returned: then [cleanupContainer] is run
    once, as the last action on the container, and if the cleanup itself
    fails, that failure is logged and does not replace the returned
    error. *)
Theorem create_cleans_up_on_failure D name config hostConfig nw managed :
  let r := create D name config hostConfig nw managed in
  (forall c, r.1 = inl c ->
     Forall (λ a, is_cleanup a = false) r.2
     /\ DRegister c ∈ r.2
     /\ last r.2 = Some (DLogContainerEvent c "create"))
  /\ (forall err, r.1 = inr err ->
        r.2 = []
        \/ exists config' host' c0 c tr,
             create_guarded D config' host' nw c0 = (c, Some err, tr)
             /\ Forall (λ a, is_cleanup a = false /\ is_new a = false) tr
             /\ r.2 = DNewContainer c0 :: tr ++
                      DCleanupContainer c ::
                      match cleanupContainer D c with
                      | Some e =>
                          [DErrorf "failed to cleanup container on create error" e]
                      | None => []
                      end).
Proof.
  intros r. subst r. unfold create.
  assert (Hwi : forall img imgID,
    let r := create_with_image D name config hostConfig nw managed img imgID in
    (forall c, r.1 = inl c ->
       Forall (λ a, is_cleanup a = false) r.2
       /\ DRegister c ∈ r.2
       /\ last r.2 = Some (DLogContainerEvent c "create"))
    /\ (forall err, r.1 = inr err ->
          r.2 = []
          \/ exists config' host' c0 c tr,
               create_guarded D config' host' nw c0 = (c, Some err, tr)
               /\ Forall (λ a, is_cleanup a = false /\ is_new a = false) tr
               /\ r.2 = DNewContainer c0 :: tr ++
                        DCleanupContainer c ::
                        match cleanupContainer D c with
                        | Some e =>
                            [DErrorf "failed to cleanup container on create error" e]
                        | None => []
                        end)).
  { intros img imgID. unfold create_with_image. cbv zeta.
    destruct (mergeAndVerifyConfig (merge D) config img) as [config' [e|]].
    { split; [done|]. intros err _. by left. }
    destruct (mergeAndVerifyLogConfig D (LogConfig hostConfig)) as [lc [e|]].
    { split; [done|]. intros err _. by left. }
    destruct (newContainer D name config' imgID managed) as [c0|e].
    2:{ split; [done|]. intros err _. by left. }
    pose proof (create_guarded_quiet D config' (set_LogConfig lc hostConfig) nw c0)
      as Hq.
    destruct (create_guarded D config' (set_LogConfig lc hostConfig) nw c0)
      as [[c [e|]] tr] eqn:Hg; cbn [fst snd] in *.
    - split; [done|]. intros err [= <-]. right.
      by exists config', (set_LogConfig lc hostConfig), c0, c, tr.
    - split; [|done]. intros c' [= <-].
      destruct (create_guarded_ends D _ _ _ _ _ _ Hg) as (tr' & -> & _).
      split; [|split].
      + constructor; [done|]. eapply Forall_impl; [exact Hq|]. by intros a [? _].
      + apply list_elem_of_further, elem_of_app. right. apply list_elem_of_here.
      + change (DNewContainer c0 :: tr' ++ [DRegister c; DLogContainerEvent c "create"])
          with ((DNewContainer c0 :: tr') ++ [DRegister c]
                ++ [DLogContainerEvent c "create"]).
        by rewrite app_assoc, last_snoc. }
  destruct (negb (String.eqb (Image config) "")); [|apply Hwi].
  destruct (GetImage D (Image config)) as [img|e].
  2:{ split; [done|]. intros err _. by left. }
  destruct (String.eqb (GOOS D) "solaris" && negb (String.eqb (img_OS img) "solaris "));
    [|apply Hwi].
  split; [done|]. intros err _. by left.
Qed.

Lemma create_cleans_up_on_failure_witness :
  create (sample_daemon false false) "web" sample_config sample_host None false
  = (inr (ErrorString "name in use"),
     [DNewContainer sample_ctr;
      DCreateRWLayer "abc" "";
      DMkdirAs "/var/lib/docker/abc" 0 0;
      DMkdirAs "/var/lib/docker/abc/checkpoints" 0 0;
      DToDisk (set_RWLayer "rw" sample_ctr);
      DRegister (set_RWLayer "rw" sample_ctr);
      DCleanupContainer (set_RWLayer "rw" sample_ctr);
      DErrorf "failed to cleanup container on create error"
              (ErrorString "device busy")]).
Proof.
  destruct (create_cleans_up_on_failure (sample_daemon false false) "web"
              sample_config sample_host None false) as [_ Hfail].
  destruct (Hfail (ErrorString "name in use") ltac:(vm_compute; reflexivity))
    as [Hnil | _]; [vm_compute in Hnil; discriminate|].
  vm_compute. reflexivity.
Defined.

(** X29.  On a daemon built for Solaris, [create] compares the OS of the
    image with "solaris " (with a space at its end): every image whose OS
    is another string, "solaris" itself among them, is refused with
    "Platform on which parent image was created is not Solaris", before
    anything is made or logged. *)
Theorem create_solaris_image_check D name config hostConfig nw managed img :
  GOOS D = "solaris" ->
  Image config ≠ "" ->
  GetImage D (Image config) = inl img ->
  img_OS img ≠ "solaris " ->
  create D name config hostConfig nw managed
  = (inr (ErrorString "Platform on which parent image was created is not Solaris"),
     []).
Proof.
  intros Hgoos Himage Himg Hos. unfold create.
  rewrite (proj2 (String.eqb_neq _ _) Himage). cbn [negb].
  rewrite Himg, Hgoos, (proj2 (String.eqb_neq _ _) Hos). reflexivity.
Qed.

Lemma create_solaris_image_check_witness :
  create (on_platform "solaris" "solaris" (sample_daemon true true)) "web"
    {| Image := "busybox"; Entrypoint := []; Cmd := ["sh"] |} sample_host None false
  = (inr (ErrorString "Platform on which parent image was created is not Solaris"),
     []).
Proof.
  apply (create_solaris_image_check
           (on_platform "solaris" "solaris" (sample_daemon true true)) "web"
           {| Image := "busybox"; Entrypoint := []; Cmd := ["sh"] |}
           sample_host None false
           {| img_Config := None; img_OS := "solaris";
              img_ID := "sha256:1"; img_ChainID := "chain:1" |});
    first [reflexivity | discriminate].
Defined.

(** X25.  [containerCreate] refuses a request without configuration, and
    one that has passed the settings check but names two or more networks,
    before anything is created: the answer carries no id, the actions are
    none, and in the second case the error is a bad request accompanied by
    the warnings of the settings check.  Whenever it returns an error the
    id of the answer is empty. *)
Theorem containerCreate_refusals D params managed :
  (p_Config params = None ->
   containerCreate D params managed
   = ({| ID := ""; Warnings := [] |},
      Some (Plain (ErrorString
                     "Config cannot be empty in order to create a container")),
      []))
  /\ (forall config warnings nwc,
        p_Config params = Some config ->
        verifyContainerSettings D (p_HostConfig params) config = (warnings, None) ->
        p_NetworkingConfig params = Some nwc ->
        2 <= size (EndpointsConfig nwc) ->
        exists msg,
          containerCreate D params managed
          = ({| ID := ""; Warnings := warnings |},
             Some (BadRequestError (ErrorString msg)), []))
  /\ ((containerCreate D params managed).1.2 ≠ None ->
      ID (containerCreate D params managed).1.1 = "").
Proof.
  unfold containerCreate. split; [|split].
  - by intros ->.
  - intros config warnings nwc -> -> -> Hs.
    destruct (verifyNetworkingConfig_many (ParseIP D) nwc Hs) as [msg ->].
    by exists msg.
  - destruct (p_Config params) as [config|]; [|done].
    destruct (verifyContainerSettings D (p_HostConfig params) config)
      as [warnings [e|]]; [done|].
    destruct (verifyNetworkingConfig (ParseIP D) (p_NetworkingConfig params));
      [done|].
    destruct (adaptContainerSettings D _ _) as [h [e|]]; [done|].
    by destruct (create D _ _ _ _ _) as [[c|e] tr].
Qed.

Lemma containerCreate_refusals_witness :
  exists msg,
    containerCreate (sample_daemon true true)
      {| Name := "web"; p_Config := Some sample_config; p_HostConfig := None;
         p_NetworkingConfig := Some two_networks; AdjustCPUShares := false |} false
    = ({| ID := ""; Warnings := ["no swap limit support"] |},
       Some (BadRequestError (ErrorString msg)), []).
Proof.
  destruct (containerCreate_refusals (sample_daemon true true)
              {| Name := "web"; p_Config := Some sample_config; p_HostConfig := None;
                 p_NetworkingConfig := Some two_networks; AdjustCPUShares := false |}
              false) as (_ & Hmany & _).
  apply (Hmany sample_config ["no swap limit support"] two_networks);
    first [reflexivity | vm_compute; lia].
Defined.

End DaemonProps.

(** * Properties of the task printer *)

Module TaskPrintProps.
Import TaskPrint.
Local Open Scope list_scope.

(** ** Sorting *)

Lemma insert_perm x l : insert x l ≡ₚ x :: l.
Proof.
  induction l as [|y l IH]; [done|]. cbn.
  destruct (less y x); [|done]. rewrite IH. apply perm_swap.
Qed.

Lemma sort_Stable_perm l : sort_Stable l ≡ₚ l.
Proof.
  induction l as [|x l IH]; [done|]. cbn. by rewrite insert_perm, IH.
Qed.

Lemma less_true a b : less a b = true -> by_slot_newest_first a b.
Proof.
  unfold less, by_slot_newest_first.
  destruct (Z.eqb_spec (Slot a) (Slot b)); cbn; lia.
Qed.

Lemma less_false a b : less a b = false -> by_slot_newest_first b a.
Proof.
  unfold less, by_slot_newest_first.
  destruct (Z.eqb_spec (Slot a) (Slot b)); cbn; lia.
Qed.

Lemma by_slot_trans a b c :
  by_slot_newest_first a b -> by_slot_newest_first b c -> by_slot_newest_first a c.
Proof. unfold by_slot_newest_first. lia. Qed.

Lemma insert_ordered x l : ordered l -> ordered (insert x l).
Proof.
  induction l as [|y l IH]; [by cbn|].
  intros [Hy Hl]. cbn [insert].
  destruct (less y x) eqn:Hless.
  - cbn. split; [|by apply IH].
    rewrite insert_perm. constructor; [by apply less_true | exact Hy].
  - apply less_false in Hless. cbn. split; [|by split].
    constructor; [exact Hless|].
    eapply Forall_impl; [exact Hy|]. intros z Hz. by eapply by_slot_trans.
Qed.

(** X26.  [PrintQuiet] writes the ids of all the tasks it is given, each as
    often as it occurs, ordered by slot and, within a slot, from the task
    created last to the one created first; it sorts the caller's slice in
    the same way and returns nil. *)
Theorem PrintQuiet_sorted tasks :
  (PrintQuiet tasks).2 = None
  /\ (PrintQuiet tasks).1.1 = map ID (PrintQuiet tasks).1.2
  /\ (PrintQuiet tasks).1.2 ≡ₚ tasks
  /\ ordered (PrintQuiet tasks).1.2.
Proof.
  unfold PrintQuiet. cbn. repeat split.
  - apply sort_Stable_perm.
  - induction tasks as [|x l IH]; [done|]. cbn. by apply insert_ordered.
Qed.

(** ** The error column *)

Lemma length_append s1 s2 :
  String.length (s1 +:+ s2) = String.length s1 + String.length s2.
Proof. induction s1 as [|a s1 IH]; simpl; [done | by f_equal]. Qed.

Lemma length_substring_0 n : forall s,
  n <= String.length s -> String.length (String.substring 0 n s) = n.
Proof.
  induction n as [|n IH]; intros [|a s] Hn; cbn in *; try done; try lia.
  rewrite IH; lia.
Qed.

(** X27.  When errors are truncated, the error column is never longer than
    34 bytes: an error of more than 30 bytes is cut to its first 29 bytes
    followed by three question marks and set in double quotes (34 bytes),
    a shorter one is set in quotes unchanged, and an empty one stays empty
    and unquoted.  Without truncation the error is shown whole. *)
Theorem display_error_bounded s :
  String.length (display_error false s) <= 34
  /\ (maxErrLength < String.length s ->
      display_error false s
      = dquote +:+ (String.substring 0 29 s +:+ "???") +:+ dquote
      /\ String.length (display_error false s) = 34)
  /\ (0 < String.length s <= maxErrLength ->
      display_error false s = dquote +:+ s +:+ dquote)
  /\ display_error false "" = ""
  /\ (0 < String.length s -> display_error true s = dquote +:+ s +:+ dquote).
Proof.
  unfold display_error, maxErrLength. cbn [negb andb Nat.sub].
  assert (Hcut : 30 < String.length s ->
                 String.length (String.substring 0 29 s) = 29).
  { intros H. apply length_substring_0. lia. }
  split; [|split; [|split; [|split]]].
  - destruct (Nat.ltb_spec 30 (String.length s)) as [H|H].
    + rewrite (proj2 (Nat.ltb_lt 0 _))
        by (rewrite length_append, Hcut by done; cbn; lia).
      rewrite !length_append, Hcut by done. cbn. lia.
    + destruct (Nat.ltb_spec 0 (String.length s)); [|lia].
      rewrite !length_append. cbn. lia.
  - intros H. rewrite (proj2 (Nat.ltb_lt _ _) H).
    rewrite (proj2 (Nat.ltb_lt 0 _))
      by (rewrite length_append, Hcut by done; cbn; lia).
    split; [reflexivity|]. rewrite !length_append, Hcut by done. cbn. lia.
  - intros [H0 H30]. rewrite (proj2 (Nat.ltb_ge _ _) H30).
    by rewrite (proj2 (Nat.ltb_lt _ _) H0).
  - reflexivity.
  - intros H0. by rewrite (proj2 (Nat.ltb_lt _ _) H0).
Qed.

Lemma display_error_bounded_witness :
  display_error false "no suitable node (scheduling constraints not satisfied)"
  = dquote +:+ "no suitable node (scheduling ???" +:+ dquote.
Proof.
  destruct (display_error_bounded
              "no suitable node (scheduling constraints not satisfied)")
    as (_ & Hcut & _).
  rewrite (proj1 (Hcut ltac:(vm_compute; lia))). reflexivity.
Defined.

(** ** The ports column *)

Lemma str_app_nil_r s : s +:+ "" = s.
Proof.
  induction s as [|a s IH]; [done|].
  change (String a (s +:+ "") = String a s). by f_equal.
Qed.

Lemma str_app_assoc s1 s2 s3 : (s1 +:+ s2) +:+ s3 = s1 +:+ (s2 +:+ s3).
Proof.
  induction s1 as [|a s1 IH]; [done|].
  change (String a ((s1 +:+ s2) +:+ s3) = String a (s1 +:+ (s2 +:+ s3))).
  by f_equal.
Qed.

Lemma concat_empty_cons x xs :
  String.concat "" (x :: xs) = x +:+ String.concat "" xs.
Proof. destruct xs; [by rewrite str_app_nil_r | done]. Qed.

Lemma fold_ports_concat fd rest : forall acc,
  fold_left (λ str pConfig, str +:+ "," +:+ port_entry fd pConfig) rest acc
  = acc +:+ String.concat "" (map (λ p, "," +:+ port_entry fd p) rest).
Proof.
  induction rest as [|p rest IH]; intros acc.
  - simpl. by rewrite str_app_nil_r.
  - cbn [fold_left map]. rewrite IH, concat_empty_cons.
    by rewrite str_app_assoc.
Qed.

Lemma concat_comma xs : forall x,
  String.concat "," (x :: xs)
  = x +:+ String.concat "" (map (λ e, "," +:+ e) xs).
Proof.
  induction xs as [|y ys IH]; intros x.
  - simpl. by rewrite str_app_nil_r.
  - change (String.concat "," (x :: y :: ys))
      with (x +:+ "," +:+ String.concat "," (y :: ys)).
    rewrite IH. cbn [map]. rewrite concat_empty_cons.
    by rewrite str_app_assoc.
Qed.

(** X30.  The ports column is the entries of the ports joined by commas,
    in their order and with no comma before the first or after the last:
    [portStatus.String] is [strings.Join] of the formatted entries. *)
Theorem portStatus_String_join fd ports :
  portStatus_String fd ports = String.concat "," (map (port_entry fd) ports).
Proof.
  destruct ports as [|p0 rest]; [done|]. unfold portStatus_String.
  rewrite fold_ports_concat. cbn [map]. rewrite concat_comma.
  by rewrite map_map.
Qed.

(** ** The rows *)

Lemma print_loop_rows fd Rt Rn short pp age noTrunc tasks : forall ps pslot i r,
  (print_loop fd Rt Rn short pp age noTrunc ps pslot tasks).1 !! i = Some r ->
  exists t,
    tasks !! i = Some t
    /\ (Rn (NodeID t)).2 = None
    /\ r_Node r = (Rn (NodeID t)).1
    /\ r_Err r = display_error noTrunc (Err t)
    /\ r_Ports r = portStatus_String fd (Ports t)
    /\ r_Name r
       = let '(prevService, prevSlot) :=
           match i with
           | 0 => (ps, pslot)
           | S i' => match tasks !! i' with
                     | Some t' => (ServiceID t', Slot t')
                     | None => (ps, pslot)
                     end
           end in
         if String.eqb prevService (ServiceID t) && Z.eqb prevSlot (Slot t)
         then " \_ " +:+ (Rt t).1 else (Rt t).1.
Proof.
  induction tasks as [|task rest IH]; intros ps pslot i r; [done|].
  cbn [print_loop].
  destruct (Rt task) as [name e0] eqn:Hname.
  destruct (Rn (NodeID task)) as [node [e|]] eqn:Hnode; [done|].
  specialize (IH (ServiceID task) (Slot task)).
  destruct (print_loop fd Rt Rn short pp age noTrunc (ServiceID task) (Slot task) rest)
    as [rows err].
  destruct i as [|i]; cbn.
  - intros [= <-]. exists task. cbn. by rewrite Hname, Hnode.
  - intros Hr. destruct (IH i r Hr) as (t & Ht & Hn & Hnd & He & Hp & Hnm).
    exists t. repeat split; try done.
    rewrite Hnm. destruct i as [|i]; [done|]. cbn.
    destruct (rest !! i) eqn:Hri; [done|]. exfalso.
    apply lookup_ge_None in Hri. apply lookup_lt_Some in Ht. lia.
Qed.

(** When every node resolves, [print] writes one row for each task and
    returns nil. *)
Lemma print_loop_complete fd Rt Rn short pp age noTrunc tasks : forall ps pslot,
  Forall (λ x, (Rn (NodeID x)).2 = None) tasks ->
  (print_loop fd Rt Rn short pp age noTrunc ps pslot tasks).2 = None
  /\ length (print_loop fd Rt Rn short pp age noTrunc ps pslot tasks).1
     = length tasks.
Proof.
  induction tasks as [|t rest IH]; intros ps pslot Hall; [done|].
  apply Forall_cons in Hall as [Ht Hrest]. cbn.
  destruct (Rt t) as [name e0]. destruct (Rn (NodeID t)) as [node oe].
  cbn in Ht. subst oe. specialize (IH (ServiceID t) (Slot t) Hrest).
  destruct (print_loop _ _ _ _ _ _ _ _ _) as [rows e]. cbn in IH |- *.
  destruct IH as [-> ->]. done.
Qed.

(** X28.  The rows that [print] writes follow the tasks one by one: row
    [i] is the row of task [i].  A row is indented exactly when its task
    has the service and the slot of the task before it; the first row is
    compared with the empty service and slot 0.  Its error column is the
    trimmed and quoted error.  When the node of every task resolves, there
    is a row for every task and nil is returned.  A failure to resolve the
    node of a task ends the printing with that error after the rows of the
    tasks before it; a failure to resolve the name of a task is never
    noticed. *)
Theorem print_rows fd Rt Rn short pp age noTrunc tasks :
  (Forall (λ x, (Rn (NodeID x)).2 = None) tasks ->
   (print fd Rt Rn short pp age tasks noTrunc).2 = None
   /\ length (print fd Rt Rn short pp age tasks noTrunc).1 = length tasks)
  /\ (forall i r,
     (print fd Rt Rn short pp age tasks noTrunc).1 !! i = Some r ->
     exists t,
       tasks !! i = Some t
       /\ r_Err r = display_error noTrunc (Err t)
       /\ r_Ports r = portStatus_String fd (Ports t)
       /\ r_Name r
          = if String.eqb (prev_key tasks i).1 (ServiceID t)
               && Z.eqb (prev_key tasks i).2 (Slot t)
            then " \_ " +:+ (Rt t).1 else (Rt t).1)
  /\ (forall pre t post err,
        tasks = pre ++ t :: post ->
        Forall (λ x, (Rn (NodeID x)).2 = None) pre ->
        (Rn (NodeID t)).2 = Some err ->
        (print fd Rt Rn short pp age tasks noTrunc).2 = Some err
        /\ length (print fd Rt Rn short pp age tasks noTrunc).1 = length pre)
  /\ (forall Rt',
        (forall t, (Rt' t).1 = (Rt t).1) ->
        print fd Rt' Rn short pp age tasks noTrunc
        = print fd Rt Rn short pp age tasks noTrunc).
Proof.
  unfold print. split; [apply print_loop_complete|]. split; [|split].
  - intros i r Hr.
    destruct (print_loop_rows fd Rt Rn short pp age noTrunc tasks "" 0%Z i r Hr)
      as (t & Ht & _ & _ & He & Hp & Hn).
    exists t. split; [exact Ht|]. split; [exact He|]. split; [exact Hp|].
    rewrite Hn. unfold prev_key. destruct i as [|i]; [done|].
    by destruct (tasks !! i).
  - intros pre t post err -> Hpre Herr.
    generalize "" 0%Z. induction Hpre as [|x pre Hx Hpre IH]; intros ps pslot.
    + cbn. destruct (Rt t) as [? ?]. destruct (Rn (NodeID t)) as [node oe].
      cbn in Herr. by subst oe.
    + cbn. destruct (Rt x) as [? ?]. destruct (Rn (NodeID x)) as [node oe].
      cbn in Hx. subst oe. specialize (IH (ServiceID x) (Slot x)).
      destruct (print_loop _ _ _ _ _ _ _ _ _) as [rows e]. cbn in IH |- *.
      destruct IH as [-> ->]. done.
  - intros Rt' Hsame. generalize "" 0%Z.
    induction tasks as [|t rest IH]; intros ps pslot; [done|]. cbn.
    specialize (Hsame t). destruct (Rt' t) as [n' e']. destruct (Rt t) as [n e].
    cbn in Hsame. subst n'.
    destruct (Rn (NodeID t)) as [node [oe|]]; [done|]. by rewrite IH.
Qed.

Lemma print_rows_witness :
  (print (λ _, "0") (λ t, (ID t, Some (ErrorString "no such task")))
         (λ n, (n, if String.eqb n "gone" then Some (ErrorString "no such node")
                   else None))
         (λ i, i) (λ s, s) (λ _, "1 minute")
         [sample_task "a" 1 5; sample_task "b" 1 3;
          {| ID := "c"; ServiceID := "svc"; NodeID := "gone"; Slot := 2;
             CreatedAt := 1; Image := ""; DesiredState := ""; State := "";
             Timestamp := 0; Err := ""; Ports := [] |}] false).2
  = Some (ErrorString "no such node").
Proof.
  destruct (print_rows (λ _, "0") (λ t, (ID t, Some (ErrorString "no such task")))
              (λ n, (n, if String.eqb n "gone" then Some (ErrorString "no such node")
                        else None))
              (λ i, i) (λ s, s) (λ _, "1 minute")
              false
              [sample_task "a" 1 5; sample_task "b" 1 3;
               {| ID := "c"; ServiceID := "svc"; NodeID := "gone"; Slot := 2;
                  CreatedAt := 1; Image := ""; DesiredState := ""; State := "";
                  Timestamp := 0; Err := ""; Ports := [] |}]) as (_ & _ & Habort & _).
  apply (proj1 (Habort [sample_task "a" 1 5; sample_task "b" 1 3] _ []
                  (ErrorString "no such node") eq_refl
                  ltac:(repeat constructor) eq_refl)).
Defined.

End TaskPrintProps.
